(** * Question counts by date and tag: the two collection scripts

    A shallow embedding of [scripts/fetch_data.py] and
    [scripts/starting_fetch_data.py]: the month shift and the query window,
    the bucketing of creation timestamps, the paginated fetcher, the
    counting loop and the sorted table, with the properties of the design
    document stated over them.

    Conventions.
    - Python's [int] is [Z]; [//] and [%] with a positive divisor are
      [Z.div] and [Z.modulo] (both floor).
    - A [str] is a [string]; comparison of strings is the lexicographic
      comparison of [String.compare].
    - A call that may raise returns a [result]; the exception is a value of
      [exn].
    - [datetime] values are aware UTC values; the library operations used by
      the scripts ([replace], [toordinal], [fromordinal], [weekday],
      [isoformat], [fromtimestamp], [timestamp], adding a [timedelta]) are
      written after CPython's [datetime] module.
    - [timestamp()] returns a float: the binary64 number nearest to the
      exact quotient of the microseconds by 1000000, ties to even, as the
      true division of two integers gives it; [int(...)] truncates it
      towards zero.
    - The API is a [server]: what each request of a run receives, in the
      order of the requests. A generator is the [stream] of what it yields
      up to its end; the consuming loop stops reading it at the first
      exception of its own body.
    - The file system is left out: the table that a run writes is the value
      of [csv_file]. *)

From Stdlib Require Import ZArith List Bool Lia String Ascii.
From Stdlib Require Import DecimalString Permutation Sorted.
Import ListNotations.

#[local] Open Scope Z_scope.

(** ** Exceptions and results *)

Inductive exn : Type :=
| RuntimeError (msg : string)
| KeyError (key : string)
| ValueError
| OverflowError
| RequestException
| JSONDecodeError.

Inductive result (A : Type) : Type :=
| Ok (a : A)
| Raise (e : exn).

Arguments Ok {A} a.
Arguments Raise {A} e.

Definition bind {A B : Type} (r : result A) (k : A -> result B) : result B :=
  match r with
  | Ok a => k a
  | Raise e => Raise e
  end.

Notation "x <- c ;; k" := (bind c (fun x => k))
  (at level 61, c at next level, right associativity).

(** ** The calendar of the [datetime] library *)

Module Calendar.

Definition MINYEAR : Z := 1.
Definition MAXYEAR : Z := 9999.
Definition MAXORDINAL : Z := 3652059.
(** [date(1970, 1, 1).toordinal()] *)
Definition EPOCH_ORDINAL : Z := 719163.

Definition is_leap (y : Z) : bool :=
  (y mod 4 =? 0) && (negb (y mod 100 =? 0) || (y mod 400 =? 0)).

Definition days_in_month (y m : Z) : Z :=
  if m =? 2 then (if is_leap y then 29 else 28)
  else if (m =? 4) || (m =? 6) || (m =? 9) || (m =? 11) then 30
  else 31.

Definition days_before_year (y : Z) : Z :=
  let p := y - 1 in p * 365 + p / 4 - p / 100 + p / 400.

(** [_DAYS_BEFORE_MONTH], indexed from 1 *)
Definition DAYS_BEFORE_MONTH : list Z :=
  [0; 0; 31; 59; 90; 120; 151; 181; 212; 243; 273; 304; 334].

(** [_DAYS_IN_MONTH], indexed from 1 *)
Definition DAYS_IN_MONTH : list Z :=
  [0; 31; 28; 31; 30; 31; 30; 31; 31; 30; 31; 30; 31].

Definition days_before_month (y m : Z) : Z :=
  nth (Z.to_nat m) DAYS_BEFORE_MONTH 0
  + (if (2 <? m) && is_leap y then 1 else 0).

Record date : Type := mkdate { d_year : Z; d_month : Z; d_day : Z }.

Definition valid_date (d : date) : bool :=
  (MINYEAR <=? d_year d) && (d_year d <=? MAXYEAR)
  && (1 <=? d_month d) && (d_month d <=? 12)
  && (1 <=? d_day d) && (d_day d <=? days_in_month (d_year d) (d_month d)).

(** [date.toordinal]: [_ymd2ord] *)
Definition toordinal (d : date) : Z :=
  days_before_year (d_year d) + days_before_month (d_year d) (d_month d)
  + d_day d.

(** [date.fromordinal]: [_ord2ymd] *)
Definition fromordinal (n : Z) : date :=
  let n := n - 1 in
  let n400 := n / 146097 in
  let n := n mod 146097 in
  let n100 := n / 36524 in
  let n := n mod 36524 in
  let n4 := n / 1461 in
  let n := n mod 1461 in
  let n1 := n / 365 in
  let n := n mod 365 in
  let year := n400 * 400 + 1 + n100 * 100 + n4 * 4 + n1 in
  if (n1 =? 4) || (n100 =? 4) then mkdate (year - 1) 12 31
  else
    let leapyear := (n1 =? 3) && (negb (n4 =? 24) || (n100 =? 3)) in
    let month := Z.shiftr (n + 50) 5 in
    let preceding :=
      nth (Z.to_nat month) DAYS_BEFORE_MONTH 0
      + (if (2 <? month) && leapyear then 1 else 0) in
    if n <? preceding then
      let month := month - 1 in
      let preceding :=
        preceding - (nth (Z.to_nat month) DAYS_IN_MONTH 0
                     + (if (month =? 2) && leapyear then 1 else 0)) in
      mkdate year month (n - preceding + 1)
    else mkdate year month (n - preceding + 1).

(** [date.weekday]: Monday is 0 *)
Definition weekday (d : date) : Z := (toordinal d + 6) mod 7.

(** [date + timedelta(days=k)] *)
Definition date_add_days (d : date) (k : Z) : result date :=
  let o := toordinal d + k in
  if (0 <? o) && (o <=? MAXORDINAL) then Ok (fromordinal o)
  else Raise OverflowError.

(** [str(n)] for an integer *)
Definition str_of_Z (n : Z) : string :=
  NilZero.string_of_int (Z.to_int n).

Fixpoint zeros (k : nat) : string :=
  match k with
  | O => EmptyString
  | S k' => String "0" (zeros k')
  end.

(** ["%0wd" % n] for a non-negative [n] *)
Definition zero_pad (w : nat) (n : Z) : string :=
  let s := str_of_Z n in
  (zeros (w - String.length s) ++ s)%string.

(** [date.isoformat]: ["%04d-%02d-%02d"] *)
Definition isoformat (d : date) : string :=
  (zero_pad 4 (d_year d) ++ "-" ++ zero_pad 2 (d_month d) ++ "-"
   ++ zero_pad 2 (d_day d))%string.

Record datetime : Type := mkdatetime {
  dt_date : date;
  dt_hour : Z;
  dt_minute : Z;
  dt_second : Z;
  dt_microsecond : Z
}.

Definition valid_time (h mi s us : Z) : bool :=
  (0 <=? h) && (h <=? 23) && (0 <=? mi) && (mi <=? 59)
  && (0 <=? s) && (s <=? 59) && (0 <=? us) && (us <=? 999999).

Definition valid_datetime (d : datetime) : bool :=
  valid_date (dt_date d)
  && valid_time (dt_hour d) (dt_minute d) (dt_second d) (dt_microsecond d).

(** The constructor [datetime(year, month, day, hour, minute, second,
    microsecond, tzinfo)], which [replace] calls and which checks every
    field. *)
Definition make_datetime (y m d h mi s us : Z) : result datetime :=
  if valid_date (mkdate y m d) && valid_time h mi s us
  then Ok (mkdatetime (mkdate y m d) h mi s us)
  else Raise ValueError.

(** [d.replace(year=y, month=m, day=day)] *)
Definition replace_ymd (d : datetime) (y m day : Z) : result datetime :=
  make_datetime y m day (dt_hour d) (dt_minute d) (dt_second d)
    (dt_microsecond d).

(** [d.replace(hour=0, minute=0, second=0, microsecond=0)] *)
Definition replace_midnight (d : datetime) : result datetime :=
  make_datetime (d_year (dt_date d)) (d_month (dt_date d))
    (d_day (dt_date d)) 0 0 0 0.

(** [d + timedelta(days=k)] on a [datetime] *)
Definition datetime_add_days (d : datetime) (k : Z) : result datetime :=
  nd <- date_add_days (dt_date d) k ;;
  Ok (mkdatetime nd (dt_hour d) (dt_minute d) (dt_second d)
        (dt_microsecond d)).

(** Microseconds between the epoch and an aware UTC [datetime]:
    [(d - _EPOCH)] as a [timedelta]. *)
Definition micros_since_epoch (d : datetime) : Z :=
  (((toordinal (dt_date d) - EPOCH_ORDINAL) * 86400
    + dt_hour d * 3600 + dt_minute d * 60 + dt_second d) * 1000000)
  + dt_microsecond d.

(** The integer nearest to [a / b], ties to the even one, for [0 <= a]
    and [0 < b] *)
Definition round_half_even (a b : Z) : Z :=
  let q := a / b in
  let r := a mod b in
  if 2 * r <? b then q
  else if b <? 2 * r then q + 1
  else if Z.even q then q else q + 1.

(** The number of binary digits that a binary64 number near [a / b] has
    after the point, for [0 < a] and [0 < b]: 52 less the binary exponent
    of the quotient *)
Definition fraction_bits (a b : Z) : Z :=
  if b <=? a then 52 - Z.log2 (a / b)
  else 52 + Z.log2_up ((b + a - 1) / a).

(** [int(n / d)] for integers [n] and [0 < d]: the true division rounds
    the exact quotient to the nearest binary64 number, ties to even, and
    [int] truncates that number towards zero. The quotient is taken to be
    in the range of binary64. *)
Definition int_true_div (n d : Z) : Z :=
  let a := Z.abs n in
  if a =? 0 then 0
  else
    let s := fraction_bits a d in
    Z.sgn n
    * (if 0 <=? s then round_half_even (a * 2 ^ s) d / 2 ^ s
       else round_half_even a (d * 2 ^ (- s)) * 2 ^ (- s)).

(** [int(d.timestamp())]: [timestamp] is [(d - _EPOCH).total_seconds()],
    the microseconds divided by [10**6]. *)
Definition int_timestamp (d : datetime) : Z :=
  int_true_div (micros_since_epoch d) 1000000.

(** [datetime.fromtimestamp(ts, tz=timezone.utc)] for an integer [ts] *)
Definition fromtimestamp (ts : Z) : result datetime :=
  let o := ts / 86400 + EPOCH_ORDINAL in
  let r := ts mod 86400 in
  if (1 <=? o) && (o <=? MAXORDINAL)
  then Ok (mkdatetime (fromordinal o) (r / 3600) (r mod 3600 / 60)
             (r mod 60) 0)
  else Raise ValueError.

End Calendar.

Import Calendar.

(** [datetime.isoformat] of an aware UTC value *)
Definition datetime_isoformat (d : datetime) : string :=
  (isoformat (dt_date d) ++ "T" ++ zero_pad 2 (dt_hour d) ++ ":"
   ++ zero_pad 2 (dt_minute d) ++ ":" ++ zero_pad 2 (dt_second d)
   ++ (if (dt_microsecond d =? 0)%Z then EmptyString
       else "." ++ zero_pad 6 (dt_microsecond d))
   ++ "+00:00")%string.

(** ** The external API

    One page of the questions endpoint. [json] is [None] when the body does
    not decode; an absent ["items"] is the empty list and an absent or falsy
    ["has_more"] is [false]. *)

Record item : Type := mkitem { creation_date : option Z }.

Record payload : Type := mkpayload {
  quota_remaining : option Z;
  backoff : option Z;
  items : list item;
  has_more : bool
}.

Record response : Type := mkresponse {
  status_code : Z;
  text : string;
  json : option payload
}.

(** The [params] dictionary of a request *)
Record request : Type := mkrequest {
  site : string;
  tagged : string;
  fromdate : Z;
  todate : Z;
  page : Z;
  pagesize : Z;
  order : string;
  sort : string;
  filter : string
}.

(** [requests.get] either returns a response or raises. *)
Inductive http_result : Type :=
| Resp (r : response)
| Failed.

(** The server: what the [n]-th request of the run receives. *)
Definition server : Type := nat -> request -> http_result.

(** How a generator stops. *)
Inductive ending : Type :=
| Exhausted                (* [has_more] false: [break] *)
| PageCap                  (* the loop condition [page <= max_pages] fails *)
| Returned                 (* [return] inside the loop *)
| Raised (e : exn)
| OutOfFuel.

(** The run of a generator to its end: the items it yields in order, how it
    stops, the number of requests of the run after it, the seconds slept
    and the lines it prints. *)
Record stream : Type := mkstream {
  yielded : list item;
  stop : ending;
  requests : nat;
  slept : Z;
  printed : list string
}.

Definition halt (e : ending) (n : nat) : stream :=
  mkstream [] e n 0 [].

(** The items of one page, after a pause of [b] seconds, followed by the
    rest of the stream. *)
Definition page_then (b : Z) (its : list item) (rest : stream) : stream :=
  mkstream (its ++ yielded rest) (stop rest) (requests rest)
    (b + slept rest) (printed rest).

(** ** The count table: [defaultdict(int)] keyed by [(date, tag)]

    A dictionary keeps its keys in insertion order; [counts[k] += 1] leaves
    the position of an existing key and appends a new one. *)

Definition count_key : Type := (string * string)%type.
Definition count_table : Type := list (count_key * Z).

Definition key_eqb (a b : count_key) : bool :=
  String.eqb (fst a) (fst b) && String.eqb (snd a) (snd b).

Fixpoint incr (k : count_key) (t : count_table) : count_table :=
  match t with
  | [] => [(k, 0 + 1)]
  | (k', v) :: t' =>
      if key_eqb k k' then (k', v + 1) :: t' else (k', v) :: incr k t'
  end.

Fixpoint get (k : count_key) (t : count_table) : Z :=
  match t with
  | [] => 0
  | (k', v) :: t' => if key_eqb k k' then v else get k t'
  end.

(** The sum of the counts of the keys of one tag *)
Fixpoint tag_total (tag : string) (t : count_table) : Z :=
  match t with
  | [] => 0
  | (k, v) :: t' =>
      (if String.eqb (snd k) tag then v else 0) + tag_total tag t'
  end.

(** ** The table writer *)

Record row : Type := mkrow {
  r_date : string;
  r_tag : string;
  questions_count : Z
}.

(** [[{...} for (d, tag), cnt in counts.items()]] *)
Definition rows_of (t : count_table) : list row :=
  map (fun e => mkrow (fst (fst e)) (snd (fst e)) (snd e)) t.

(** [(x["date"], x["tag"])] and the order of tuples of strings *)
Definition sort_key (r : row) : count_key := (r_date r, r_tag r).

Definition key_leb (a b : count_key) : bool :=
  match String.compare (fst a) (fst b) with
  | Lt => true
  | Gt => false
  | Eq => String.leb (snd a) (snd b)
  end.

Fixpoint insert_row (r : row) (l : list row) : list row :=
  match l with
  | [] => [r]
  | x :: l' =>
      if key_leb (sort_key r) (sort_key x) then r :: x :: l'
      else x :: insert_row r l'
  end.

(** [rows.sort(key=...)]: a stable sort by the key *)
Definition sort_rows (l : list row) : list row :=
  fold_right insert_row [] l.

Record csv_file : Type := mkcsv {
  path : string;
  header : list string;
  data : list row
}.

Definition write_csv (out : string) (rows : list row) : csv_file :=
  mkcsv out ["date"; "tag"; "questions_count"]%string rows.

(** What a run of a script leaves: the file and the printed lines, or the
    exception that ends the process before anything is written. *)
Inductive process : Type :=
| Completed (file : csv_file) (stdout : list string)
| Crashed (e : exn).

(** ** [scripts/fetch_data.py] *)

Module FetchData.

Definition to_unix (d : datetime) : Z := int_timestamp d.

Definition month_delta (d : datetime) (months : Z) : result datetime :=
  let y := d_year (dt_date d) + (d_month (dt_date d) - 1 + months) / 12 in
  let m := (d_month (dt_date d) - 1 + months) mod 12 + 1 in
  let days_in_month :=
    nth (Z.to_nat (m - 1))
      [31;
       if (y mod 4 =? 0) && (negb (y mod 100 =? 0) || (y mod 400 =? 0))
       then 29 else 28;
       31; 30; 31; 30; 31; 31; 30; 31; 30; 31] 0 in
  let day := Z.min (d_day (dt_date d)) days_in_month in
  replace_ymd d y m day.

Definition day_bucket (created_utc : datetime) : string :=
  isoformat (dt_date created_utc).

Section Fetcher.

Variable api : server.
Variables (tag : string) (fromdate todate pagesize max_pages : Z).

Definition params (page : Z) : request :=
  mkrequest "stackoverflow" tag fromdate todate page pagesize
    "asc" "creation" "default".

Definition http_error (r : response) (page : Z) : exn :=
  RuntimeError
    ("HTTP " ++ str_of_Z (status_code r) ++ " | tag=" ++ tag ++ " | page="
     ++ str_of_Z page ++ " | body=" ++ substring 0 1500 (text r))%string.

Definition quota_error (page : Z) : exn :=
  RuntimeError
    ("Quota exhausted (quota_remaining=0) | tag=" ++ tag ++ " | page="
     ++ str_of_Z page)%string.

(** The loop [while page <= max_pages] from the state [page], before the
    [n]-th request of the run. [fuel] bounds the iterations. *)
Fixpoint fetch_from (fuel : nat) (page : Z) (n : nat) : stream :=
  if page <=? max_pages then
    match fuel with
    | O => halt OutOfFuel n
    | S fuel' =>
        match api n (params page) with
        | Failed => halt (Raised RequestException) (S n)
        | Resp r =>
            if negb (status_code r =? 200)
            then halt (Raised (http_error r page)) (S n)
            else
              match json r with
              | None => halt (Raised JSONDecodeError) (S n)
              | Some payload =>
                  if match quota_remaining payload with
                     | Some q => q =? 0
                     | None => false
                     end
                  then halt (Raised (quota_error page)) (S n)
                  else
                    let backoff :=
                      match backoff payload with
                      | Some b => b
                      | None => 0
                      end in
                    let pause := if 0 <? backoff then backoff else 0 in
                    if negb (has_more payload)
                    then page_then pause (items payload)
                           (halt Exhausted (S n))
                    else page_then pause (items payload)
                           (fetch_from fuel' (page + 1) (S n))
              end
        end
    end
  else halt PageCap n.

(** The generator from its start, before the [n]-th request of the run *)
Definition fetch_questions (n : nat) : stream :=
  fetch_from (Z.to_nat max_pages) 1 n.

End Fetcher.

Record args : Type := mkargs {
  tags : list string;
  out : string;
  max_pages : Z;
  months_from : Z;
  months_to : Z
}.

Record window : Type := mkwindow {
  start_dt : datetime;
  end_dt : datetime;
  w_fromdate : Z;
  w_todate : Z
}.

(** Lines 90 to 100 of [main] *)
Definition query_window (now : datetime) (months_from months_to : Z)
  : result window :=
  s <- month_delta now (- months_from) ;;
  start_dt <- replace_midnight s ;;
  e <- month_delta now (- months_to) ;;
  end_dt <- replace_midnight e ;;
  to_dt_exclusive <- datetime_add_days end_dt 1 ;;
  Ok (mkwindow start_dt end_dt (to_unix start_dt) (to_unix to_dt_exclusive)).

(** The local state of the loop over the items of one tag *)
Record tally : Type := mktally {
  counts : count_table;
  last_created : option datetime;
  fetched : Z
}.

(** The body of [for q in fetch_questions(...)] *)
Definition count_question (tag : string) (t : tally) (q : item)
  : result tally :=
  match creation_date q with
  | None => Raise (KeyError "creation_date")
  | Some ts =>
      created <- fromtimestamp ts ;;
      Ok (mktally (incr (day_bucket created, tag) (counts t))
            (Some created) (fetched t + 1))
  end.

(** The body run over the items, stopping at the first exception; the
    tally is the one reached when the loop stops. *)
Fixpoint count_all (tag : string) (t : tally) (qs : list item)
  : tally * option exn :=
  match qs with
  | [] => (t, None)
  | q :: qs' =>
      match count_question tag t q with
      | Ok t' => count_all tag t' qs'
      | Raise e => (t, Some e)
      end
  end.

(** The state of the loop over the tags *)
Record state : Type := mkstate {
  table : count_table;
  stdout : list string;
  served : nat
}.

Section Run.

Variable api : server.
Variable a : args.
Variable w : window.

Definition tag_line (tag : string) : string :=
  ("TAG=" ++ tag ++ " | period_utc: " ++ isoformat (dt_date (start_dt w))
   ++ " .. " ++ isoformat (dt_date (end_dt w)) ++ " (inclusive)")%string.

Definition error_line (msg : string) : string := ("ERROR: " ++ msg)%string.

Definition stopped_line (tag : string) (fetched : Z) : string :=
  ("Stopped: tag=" ++ tag ++ " | fetched=" ++ str_of_Z fetched)%string.

Definition done_line (tag : string) (t : tally) : string :=
  match last_created t with
  | Some d =>
      ("Done: tag=" ++ tag ++ " | fetched=" ++ str_of_Z (fetched t)
       ++ " | last_created_utc=" ++ datetime_isoformat d)%string
  | None => ("Done: tag=" ++ tag ++ " | fetched=0")%string
  end.

(** The stream that [fetch_questions(tag, fromdate, todate,
    max_pages=args.max_pages)] produces before the [n]-th request *)
Definition questions (tag : string) (n : nat) : stream :=
  fetch_questions api tag (w_fromdate w) (w_todate w) 100 (max_pages a) n.

(** One iteration of [for tag in args.tags]: [Raise] is an exception that
    leaves the loop. *)
Definition run_tag (tag : string) (st : state) : result state :=
  let s := questions tag (served st) in
  let out0 := (stdout st ++ [tag_line tag])%list in
  let '(t, raised) :=
    count_all tag (mktally (table st) None 0) (yielded s) in
  let raised :=
    match raised with
    | Some e => Some e
    | None =>
        match stop s with
        | Raised e => Some e
        | _ => None
        end
    end in
  match raised with
  | Some (RuntimeError msg) =>
      Ok (mkstate (counts t)
            (out0 ++ [error_line msg; stopped_line tag (fetched t)])
            (requests s))
  | Some e => Raise e
  | None =>
      Ok (mkstate (counts t) (out0 ++ [done_line tag t]) (requests s))
  end.

Fixpoint run_tags (ts : list string) (st : state) : result state :=
  match ts with
  | [] => Ok st
  | tag :: ts' =>
      st' <- run_tag tag st ;;
      run_tags ts' st'
  end.

End Run.

Definition saved_line (out : string) (rows : list row) : string :=
  ("Saved: " ++ out ++ " | rows="
   ++ str_of_Z (Z.of_nat (List.length rows)))%string.

(** [main], given the instant that [datetime.now] returns. An exception
    that leaves [main] ends the process before the table is written. *)
Definition main (api : server) (now : datetime) (a : args) : process :=
  match query_window now (months_from a) (months_to a) with
  | Raise e => Crashed e
  | Ok w =>
      match run_tags api a w (tags a) (mkstate [] [] 0) with
      | Raise e => Crashed e
      | Ok st =>
          let rows := sort_rows (rows_of (table st)) in
          Completed (write_csv (out a) rows)
            (stdout st ++ [saved_line (out a) rows])
      end
  end.

End FetchData.

(** ** [scripts/starting_fetch_data.py] *)

Module StartingFetchData.

Definition to_unix (d : datetime) : Z := int_timestamp d.

Definition month_delta (d : datetime) (months : Z) : result datetime :=
  let y := d_year (dt_date d) + (d_month (dt_date d) - 1 + months) / 12 in
  let m := (d_month (dt_date d) - 1 + months) mod 12 + 1 in
  let day :=
    Z.min (d_day (dt_date d))
      (nth (Z.to_nat (m - 1))
         [31;
          if (y mod 4 =? 0) && (negb (y mod 100 =? 0) || (y mod 400 =? 0))
          then 29 else 28;
          31; 30; 31; 30; 31; 31; 30; 31; 30; 31] 0) in
  replace_ymd d y m day.

Definition bucket_date (creation_utc : datetime) (grain : string)
  : result string :=
  if String.eqb grain "day" then Ok (isoformat (dt_date creation_utc))
  else
    monday <- date_add_days (dt_date creation_utc)
                (- weekday (dt_date creation_utc)) ;;
    Ok (isoformat monday).

Section Fetcher.

Variable api : server.
Variables (tag : string) (fromdate todate pagesize max_pages : Z).

Definition params (page : Z) : request :=
  mkrequest "stackoverflow" tag fromdate todate page pagesize
    "asc" "creation" "default".

(** [print("HTTP", r.status_code)] and [print(r.text[:2000])] *)
Definition http_lines (r : response) : list string :=
  [("HTTP " ++ str_of_Z (status_code r))%string; substring 0 2000 (text r)].

Fixpoint fetch_from (fuel : nat) (page : Z) (n : nat) : stream :=
  if page <=? max_pages then
    match fuel with
    | O => halt OutOfFuel n
    | S fuel' =>
        match api n (params page) with
        | Failed => halt (Raised RequestException) (S n)
        | Resp r =>
            if negb (status_code r =? 200)
            then mkstream [] Returned (S n) 0 (http_lines r)
            else
              match json r with
              | None => halt (Raised JSONDecodeError) (S n)
              | Some payload =>
                  match backoff payload with
                  | Some b =>
                      (* [time.sleep] refuses a negative length *)
                      if b <? 0 then halt (Raised ValueError) (S n)
                      else if negb (has_more payload)
                      then page_then b (items payload) (halt Exhausted (S n))
                      else page_then b (items payload)
                             (fetch_from fuel' (page + 1) (S n))
                  | None =>
                      if negb (has_more payload)
                      then page_then 0 (items payload) (halt Exhausted (S n))
                      else page_then 0 (items payload)
                             (fetch_from fuel' (page + 1) (S n))
                  end
              end
        end
    end
  else halt PageCap n.

Definition fetch_questions (n : nat) : stream :=
  fetch_from (Z.to_nat max_pages) 1 n.

End Fetcher.

Record args : Type := mkargs {
  tags : list string;
  grain : string;
  out : string;
  max_pages : Z
}.

Record window : Type := mkwindow {
  w_start : datetime;
  w_end : datetime;
  w_fromdate : Z;
  w_todate : Z
}.

(** Lines 86 to 91 of [main] *)
Definition query_window (now : datetime) : result window :=
  start <- month_delta now (-6) ;;
  end_ <- month_delta now (-2) ;;
  Ok (mkwindow start end_ (to_unix start) (to_unix end_)).

(** The body of [for q in fetch_questions(...)] *)
Definition count_question (grain tag : string) (counts : count_table)
  (q : item) : result count_table :=
  match creation_date q with
  | None => Raise (KeyError "creation_date")
  | Some ts =>
      created <- fromtimestamp ts ;;
      d <- bucket_date created grain ;;
      Ok (incr (d, tag) counts)
  end.

Fixpoint count_all (grain tag : string) (counts : count_table)
  (qs : list item) : result count_table :=
  match qs with
  | [] => Ok counts
  | q :: qs' =>
      counts' <- count_question grain tag counts q ;;
      count_all grain tag counts' qs'
  end.

Record state : Type := mkstate {
  table : count_table;
  stdout : list string;
  served : nat
}.

Section Run.

Variable api : server.
Variable a : args.
Variable w : window.

Definition questions (tag : string) (n : nat) : stream :=
  fetch_questions api tag (w_fromdate w) (w_todate w) 100 (max_pages a) n.

(** One iteration of [for tag in args.tags]; nothing is caught. *)
Definition run_tag (tag : string) (st : state) : result state :=
  let s := questions tag (served st) in
  counts <- count_all (grain a) tag (table st) (yielded s) ;;
  match stop s with
  | Raised e => Raise e
  | _ => Ok (mkstate counts (stdout st ++ printed s) (requests s))
  end.

Fixpoint run_tags (ts : list string) (st : state) : result state :=
  match ts with
  | [] => Ok st
  | tag :: ts' =>
      st' <- run_tag tag st ;;
      run_tags ts' st'
  end.

End Run.

Definition saved_line (a : args) (w : window) (rows : list row) : string :=
  ("Saved: " ++ out a ++ " | rows: "
   ++ str_of_Z (Z.of_nat (List.length rows)) ++ " | period_utc: "
   ++ isoformat (dt_date (w_start w)) ++ ".."
   ++ isoformat (dt_date (w_end w)) ++ " | grain: " ++ grain a)%string.

(** [main], given the instant that [datetime.now] returns. The directory of
    [args.out] is taken to exist or to be creatable. *)
Definition main (api : server) (now : datetime) (a : args) : process :=
  match query_window now with
  | Raise e => Crashed e
  | Ok w =>
      match run_tags api a w (tags a) (mkstate [] [] 0) with
      | Raise e => Crashed e
      | Ok st =>
          let rows := sort_rows (rows_of (table st)) in
          Completed (write_csv (out a) rows)
            (stdout st ++ [saved_line a w rows])
      end
  end.

End StartingFetchData.

(** ** Auxiliary definitions for the proofs *)

(** The month and day that [fromordinal] computes from the offset [n] of a
    day in its year. *)
Definition month_day (leapyear : bool) (n : Z) : Z * Z :=
  let month := Z.shiftr (n + 50) 5 in
  let preceding :=
    nth (Z.to_nat month) DAYS_BEFORE_MONTH 0
    + (if (2 <? month) && leapyear then 1 else 0) in
  if n <? preceding then
    let month := month - 1 in
    let preceding :=
      preceding - (nth (Z.to_nat month) DAYS_IN_MONTH 0
                   + (if (month =? 2) && leapyear then 1 else 0)) in
    (month, n - preceding + 1)
  else (month, n - preceding + 1).

Definition month_day_ok (leapyear : bool) (n : Z) : bool :=
  let '(m, d) := month_day leapyear n in
  (1 <=? m) && (m <=? 12) && (1 <=? d)
  && (d <=? (if m =? 2 then (if leapyear then 29 else 28)
             else if (m =? 4) || (m =? 6) || (m =? 9) || (m =? 11) then 30
             else 31))
  && (nth (Z.to_nat m) DAYS_BEFORE_MONTH 0
      + (if (2 <? m) && leapyear then 1 else 0) + d =? n + 1).

(** The order of the rows of the written table: by date, then by tag *)
Definition row_le (r1 r2 : row) : Prop :=
  String.ltb (r_date r1) (r_date r2) = true
  \/ (r_date r1 = r_date r2 /\ String.leb (r_tag r1) (r_tag r2) = true).

(** The order that the sort key induces *)
Definition row_key_le (r1 r2 : row) : Prop :=
  key_leb (sort_key r1) (sort_key r2) = true.

(** A row with an earlier date stands before every row with a later one. *)
Definition earlier_date_first (rows : list row) : Prop :=
  forall i j r1 r2,
    nth_error rows i = Some r1 -> nth_error rows j = Some r2 ->
    String.ltb (r_date r1) (r_date r2) = true -> (i < j)%nat.


(** Bounds that cover whole calendar days: the start bound is midnight of
    the date of [s] and the end bound is midnight of the day after the date
    of [e]. *)
Definition whole_day_bounds (s e : datetime) (fromdate todate : Z) : Prop :=
  fromdate = int_timestamp (mkdatetime (dt_date s) 0 0 0 0)
  /\ todate = int_timestamp (mkdatetime (dt_date e) 0 0 0 0) + 86400.

(** 15 August 2024, 10:30:00 UTC *)
Definition sample_now : datetime :=
  mkdatetime (mkdate 2024 8 15) 10 30 0 0.

Definition is_digit (c : ascii) : bool :=
  let n := nat_of_ascii c in ((48 <=? n) && (n <=? 57))%nat.

(** [w] characters, all of them decimal digits *)
Definition all_digits (w : nat) (s : string) : bool :=
  (String.length s =? w)%nat && forallb is_digit (list_ascii_of_string s).

(** The form [YYYY-MM-DD] *)
Definition iso_date_form (s : string) : bool :=
  match list_ascii_of_string s with
  | [y1; y2; y3; y4; h1; m1; m2; h2; d1; d2] =>
      is_digit y1 && is_digit y2 && is_digit y3 && is_digit y4
      && Ascii.eqb h1 "-"
      && is_digit m1 && is_digit m2
      && Ascii.eqb h2 "-"
      && is_digit d1 && is_digit d2
  | _ => false
  end.

(** The number of items that the fetcher yields for the tag [tg] over the
    loop on the tags [ts], where [questions tag n] is the stream of one
    call made before the [n]-th request of the run. *)
Fixpoint items_yielded (questions : string -> nat -> stream) (tg : string)
  (ts : list string) (n : nat) : Z :=
  match ts with
  | [] => 0
  | tag :: ts' =>
      let s := questions tag n in
      (if String.eqb tag tg then Z.of_nat (List.length (yielded s)) else 0)
      + items_yielded questions tg ts' (requests s)
  end.

(** An item whose ["creation_date"] is present and is a time that
    [fromtimestamp] accepts *)
Definition well_formed (q : item) : bool :=
  match creation_date q with
  | Some ts =>
      match fromtimestamp ts with
      | Ok _ => true
      | Raise _ => false
      end
  | None => false
  end.

(** A server for two tags: the first tag gets a page of two questions and
    then status 500 on its second page; the second tag gets one page of one
    question. *)
Definition sample_server : server :=
  fun n _ =>
    match n with
    | O =>
        Resp (mkresponse 200 "{...}"
                (Some (mkpayload (Some 9000) None
                         [mkitem (Some 1709251200); mkitem (Some 1709337600)]
                         true)))
    | S O => Resp (mkresponse 500 "internal error" None)
    | S (S O) =>
        Resp (mkresponse 200 "{...}"
                (Some (mkpayload (Some 8998) None
                         [mkitem (Some 1709251260)] false)))
    | _ => Failed
    end.

Definition sample_args : FetchData.args :=
  FetchData.mkargs ["python"; "java"]%string "data/questions_by_date.csv"
    50 6 2.

Definition sample_starting_args : StartingFetchData.args :=
  StartingFetchData.mkargs ["python"; "java"]%string "day"
    "data/questions_count.csv" 50.

(** The window of [fetch_data.py] at [sample_now] with the default offsets:
    15 February 2024 to 15 June 2024, the end bound at midnight of
    16 June. *)
Definition sample_window : FetchData.window :=
  FetchData.mkwindow
    (mkdatetime (mkdate 2024 2 15) 0 0 0 0)
    (mkdatetime (mkdate 2024 6 15) 0 0 0 0)
    1707955200 1718496000.

(** The state of the loop of [fetch_data.py] after the two tags of
    [sample_args] against [sample_server] *)
Definition sample_final_state : FetchData.state :=
  FetchData.mkstate
    [(("2024-03-01", "python"), 1); (("2024-03-02", "python"), 1);
     (("2024-03-01", "java"), 1)]%string
    ["TAG=python | period_utc: 2024-02-15 .. 2024-06-15 (inclusive)";
     "ERROR: HTTP 500 | tag=python | page=2 | body=internal error";
     "Stopped: tag=python | fetched=2";
     "TAG=java | period_utc: 2024-02-15 .. 2024-06-15 (inclusive)";
     ("Done: tag=java | fetched=1 | last_created_utc="
      ++ "2024-03-01T00:01:00+00:00")]%string
    3.

(** A server that answers every request with status 500. *)
Definition failing_server : server :=
  fun _ _ => Resp (mkresponse 500 "internal error" None).

(** A server whose only page reports an exhausted quota and carries one
    question. *)
Definition quota_server : server :=
  fun _ _ =>
    Resp (mkresponse 200 "{...}"
            (Some (mkpayload (Some 0) None [mkitem (Some 1709251200)]
                     false))).

(** A server whose only page carries a question without
    ["creation_date"] between two complete ones. *)
Definition malformed_server : server :=
  fun _ _ =>
    Resp (mkresponse 200 "{...}"
            (Some (mkpayload None None
                     [mkitem (Some 1709251200); mkitem None;
                      mkitem (Some 1709337600)] false))).

(** ** Further auxiliary definitions *)

(** The character of a decimal digit *)
Definition digit_of (k : Z) : ascii := ascii_of_nat (48 + Z.to_nat k).

(** Four and two decimal digits, the most significant first *)
Definition fixed4 (n : Z) : string :=
  String (digit_of (n / 1000))
    (String (digit_of (n / 100 mod 10))
       (String (digit_of (n / 10 mod 10))
          (String (digit_of (n mod 10)) EmptyString))).

Definition fixed2 (n : Z) : string :=
  String (digit_of (n / 10)) (String (digit_of (n mod 10)) EmptyString).

(** The server answers the requests from the [n]-th on, for the pages from
    [page] on, with status 200 and the payloads [ps] in order. *)
Definition serves (api : server) (params : Z -> request) (n : nat)
  (page : Z) (ps : list payload) : Prop :=
  forall i p,
    nth_error ps i = Some p ->
    exists body,
      api (n + i)%nat (params (page + Z.of_nat i))
      = Resp (mkresponse 200 body (Some p)).

(** The pause that [fetch_data.py] makes for a page: its [backoff] when
    that is positive *)
Definition pause_of (p : payload) : Z :=
  match backoff p with
  | Some b => if 0 <? b then b else 0
  | None => 0
  end.

(** The pause that [starting_fetch_data.py] makes for a page: its
    [backoff] when there is one *)
Definition starting_pause_of (p : payload) : Z :=
  match backoff p with
  | Some b => b
  | None => 0
  end.

Definition total (l : list Z) : Z := fold_right Z.add 0 l.

(** A server with two pages for any tag: two questions, a [backoff] of 2
    seconds and more to come, then one question and the end. *)
Definition paged_server : server :=
  fun n _ =>
    match n with
    | O =>
        Resp (mkresponse 200 "{...}"
                (Some (mkpayload (Some 9000) (Some 2)
                         [mkitem (Some 1709251200); mkitem (Some 1709337600)]
                         true)))
    | S O =>
        Resp (mkresponse 200 "{...}"
                (Some (mkpayload (Some 8999) None
                         [mkitem (Some 1709424000)] false)))
    | _ => Failed
    end.

Definition sample_args3 : FetchData.args :=
  FetchData.mkargs ["python"; "java"; "go"]%string
    "data/questions_by_date.csv" 50 6 2.

(** The keys of a table are distinct and its counts are at least 1. *)
Definition table_ok (t : count_table) : Prop :=
  NoDup (map fst t) /\ Forall (fun e => 1 <= snd e) t.

(** The day under which [fetch_data.py] counts an item, if it can *)
Definition day_of (q : item) : option string :=
  match creation_date q with
  | Some ts =>
      match fromtimestamp ts with
      | Ok c => Some (FetchData.day_bucket c)
      | Raise _ => None
      end
  | None => None
  end.

(** The bucket under which [starting_fetch_data.py] counts an item, if it
    can *)
Definition bucket_of (grain : string) (q : item) : option string :=
  match creation_date q with
  | Some ts =>
      match fromtimestamp ts with
      | Ok c =>
          match StartingFetchData.bucket_date c grain with
          | Ok d => Some d
          | Raise _ => None
          end
      | Raise _ => None
      end
  | None => None
  end.

Definition in_bucket (bucket : item -> option string) (d : string)
  (q : item) : bool :=
  match bucket q with
  | Some d' => String.eqb d' d
  | None => false
  end.

(** The number of items of the bucket and tag of [k] that the fetcher
    yields over the loop on the tags [ts] *)
Fixpoint items_in_bucket (bucket : item -> option string)
  (questions : string -> nat -> stream) (k : count_key)
  (ts : list string) (n : nat) : Z :=
  match ts with
  | [] => 0
  | tag :: ts' =>
      let s := questions tag n in
      (if String.eqb tag (snd k)
       then Z.of_nat
              (List.length (List.filter (in_bucket bucket (fst k)) (yielded s)))
       else 0)
      + items_in_bucket bucket questions k ts' (requests s)
  end.

(** A server on which the two fetchers have no reason to differ: every
    response has status 200, no payload reports an exhausted quota and no
    [backoff] is negative. *)
Definition well_behaved (api : server) : Prop :=
  forall n req r,
    api n req = Resp r ->
    status_code r = 200
    /\ forall p, json r = Some p ->
         quota_remaining p <> Some 0 /\ 0 <= starting_pause_of p.

(** * Properties *)

(** ** Ordinals and dates *)

Lemma days_before_year_succ y :
  days_before_year (y + 1)
  = days_before_year y + (if is_leap y then 366 else 365).
Proof.
  unfold days_before_year, is_leap.
  replace (y + 1 - 1) with y by lia.
  destruct (y mod 4 =? 0) eqn:E4; destruct (y mod 100 =? 0) eqn:E100;
  destruct (y mod 400 =? 0) eqn:E400; simpl;
  rewrite ?Z.eqb_eq, ?Z.eqb_neq in *;
  Z.to_euclidean_division_equations; lia.
Qed.

Lemma month_day_table leap :
  forallb (fun k => month_day_ok leap (Z.of_nat k)) (seq 0 365) = true.
Proof. destruct leap; vm_compute; reflexivity. Qed.

Lemma month_day_correct leap n :
  0 <= n < 365 -> month_day_ok leap n = true.
Proof.
  intros H.
  pose proof (month_day_table leap) as T.
  rewrite forallb_forall in T.
  specialize (T (Z.to_nat n)).
  rewrite Z2Nat.id in T by lia.
  apply T. apply in_seq. lia.
Qed.

Lemma fromordinal_eq n :
  fromordinal n =
  let n0 := n - 1 in
  let n400 := n0 / 146097 in
  let r400 := n0 mod 146097 in
  let n100 := r400 / 36524 in
  let r100 := r400 mod 36524 in
  let n4 := r100 / 1461 in
  let r4 := r100 mod 1461 in
  let n1 := r4 / 365 in
  let r1 := r4 mod 365 in
  let year := n400 * 400 + 1 + n100 * 100 + n4 * 4 + n1 in
  if (n1 =? 4) || (n100 =? 4) then mkdate (year - 1) 12 31
  else
    let md := month_day ((n1 =? 3) && (negb (n4 =? 24) || (n100 =? 3))) r1 in
    mkdate year (fst md) (snd md).
Proof.
  unfold fromordinal, month_day. cbv zeta.
  destruct (_ || _); [reflexivity|].
  destruct (_ <? _); reflexivity.
Qed.

(** The leap flag that [fromordinal] computes from the cycles is the leap
    rule of the year. *)
Lemma leapyear_flag n400 n100 n4 n1 :
  0 <= n100 <= 3 -> 0 <= n4 <= 24 -> 0 <= n1 <= 3 ->
  is_leap (n400 * 400 + 1 + n100 * 100 + n4 * 4 + n1)
  = (n1 =? 3) && (negb (n4 =? 24) || (n100 =? 3)).
Proof.
  intros H100 H4 H1. unfold is_leap.
  destruct (n1 =? 3) eqn:A; destruct (n4 =? 24) eqn:B;
    destruct (n100 =? 3) eqn:C;
    rewrite ?Z.eqb_eq, ?Z.eqb_neq in *; simpl;
    repeat match goal with
           | |- context [?x mod ?k =? 0] =>
               let e := fresh in
               destruct (x mod k =? 0) eqn:e;
               rewrite ?Z.eqb_eq, ?Z.eqb_neq in e
           end; simpl; try reflexivity; exfalso;
    Z.to_euclidean_division_equations; lia.
Qed.

Lemma toordinal_fromordinal n : 1 <= n -> toordinal (fromordinal n) = n.
Proof.
  intros Hn. rewrite fromordinal_eq. cbv zeta.
  set (n0 := n - 1).
  set (n400 := n0 / 146097). set (r400 := n0 mod 146097).
  set (n100 := r400 / 36524). set (r100 := r400 mod 36524).
  set (n4 := r100 / 1461). set (r4 := r100 mod 1461).
  set (n1 := r4 / 365). set (r1 := r4 mod 365).
  assert (E400 : n0 = 146097 * n400 + r400 /\ 0 <= r400 < 146097)
    by (subst n400 r400; Z.to_euclidean_division_equations; lia).
  assert (E100 : r400 = 36524 * n100 + r100 /\ 0 <= r100 < 36524)
    by (subst n100 r100; Z.to_euclidean_division_equations; lia).
  assert (E4 : r100 = 1461 * n4 + r4 /\ 0 <= r4 < 1461)
    by (subst n4 r4; Z.to_euclidean_division_equations; lia).
  assert (E1 : r4 = 365 * n1 + r1 /\ 0 <= r1 < 365)
    by (subst n1 r1; Z.to_euclidean_division_equations; lia).
  assert (0 <= n0) by (subst n0; lia).
  clearbody n400 r400 n100 r100 n4 r4 n1 r1.
  destruct ((n1 =? 4) || (n100 =? 4)) eqn:Edge.
  - unfold toordinal, days_before_month, days_before_year, is_leap.
    cbn [d_year d_month d_day].
    change (nth (Z.to_nat 12) DAYS_BEFORE_MONTH 0) with 334.
    change (2 <? 12) with true. cbv iota. rewrite andb_true_l.
    apply orb_true_iff in Edge. rewrite !Z.eqb_eq in Edge.
    match goal with |- context [if ?b then _ else _] => destruct b eqn:EL end;
    repeat (rewrite ?andb_true_iff, ?andb_false_iff, ?orb_true_iff,
              ?orb_false_iff, ?negb_true_iff, ?negb_false_iff, ?Z.eqb_eq,
              ?Z.eqb_neq in EL);
    Z.to_euclidean_division_equations; lia.
  - apply orb_false_iff in Edge. rewrite !Z.eqb_neq in Edge.
    pose proof (month_day_correct
                  ((n1 =? 3) && (negb (n4 =? 24) || (n100 =? 3))) r1
                  ltac:(lia)) as MD.
    unfold month_day_ok in MD.
    destruct (month_day _ r1) as [m d]. simpl fst; simpl snd.
    rewrite !andb_true_iff in MD. destruct MD as [[[[M1 M2] D1] D2] S].
    apply Z.eqb_eq in S.
    unfold toordinal, days_before_month. cbn [d_year d_month d_day].
    assert (L := leapyear_flag n400 n100 n4 n1
                   ltac:(lia) ltac:(lia) ltac:(lia)).
    rewrite L.
    unfold days_before_year. Z.to_euclidean_division_equations; lia.
Qed.

(** ** Dates and ordinals *)

Lemma month_cases m :
  1 <= m <= 12 ->
  m = 1 \/ m = 2 \/ m = 3 \/ m = 4 \/ m = 5 \/ m = 6 \/ m = 7 \/ m = 8
  \/ m = 9 \/ m = 10 \/ m = 11 \/ m = 12.
Proof. lia. Qed.

Ltac each_month H :=
  apply month_cases in H;
  repeat (destruct H as [H|H]); subst.

Lemma valid_date_iff d :
  valid_date d = true <->
  1 <= d_year d <= 9999 /\ 1 <= d_month d <= 12
  /\ 1 <= d_day d <= days_in_month (d_year d) (d_month d).
Proof.
  unfold valid_date, MINYEAR, MAXYEAR.
  rewrite !andb_true_iff, !Z.leb_le. tauto.
Qed.

Lemma days_in_month_bounds y m : 28 <= days_in_month y m <= 31.
Proof.
  unfold days_in_month.
  destruct (m =? 2); [destruct (is_leap y); lia|].
  destruct (_ || _); lia.
Qed.

Lemma days_before_month_next y m :
  1 <= m <= 11 ->
  days_before_month y (m + 1) = days_before_month y m + days_in_month y m.
Proof.
  intros H. assert (H' : 1 <= m <= 12) by lia.
  unfold days_before_month, days_in_month.
  each_month H'; try lia; destruct (is_leap y); reflexivity.
Qed.

Lemma days_before_month_mono y m1 m2 :
  1 <= m1 -> m1 < m2 -> m2 <= 12 ->
  days_before_month y m1 + days_in_month y m1 <= days_before_month y m2.
Proof.
  intros H1 H12 H2.
  assert (Ha : 1 <= m1 <= 12) by lia. assert (Hb : 1 <= m2 <= 12) by lia.
  unfold days_before_month, days_in_month.
  each_month Ha; each_month Hb; try lia; destruct (is_leap y); simpl; lia.
Qed.

Lemma days_before_month_last y :
  days_before_month y 12 + days_in_month y 12
  = if is_leap y then 366 else 365.
Proof.
  unfold days_before_month, days_in_month. destruct (is_leap y); reflexivity.
Qed.

Lemma days_before_month_nonneg y m : 1 <= m <= 12 -> 0 <= days_before_month y m.
Proof.
  intros H. unfold days_before_month.
  each_month H; destruct (is_leap y); simpl; lia.
Qed.

Lemma days_before_year_mono y1 y2 :
  y1 <= y2 -> days_before_year y1 + 365 * (y2 - y1) <= days_before_year y2.
Proof.
  intros H.
  assert (G : forall k : nat,
             days_before_year y1 + 365 * Z.of_nat k
             <= days_before_year (y1 + Z.of_nat k)).
  { induction k as [|k IH].
    - change (Z.of_nat 0) with 0. replace (y1 + 0) with y1 by lia. lia.
    - rewrite Nat2Z.inj_succ.
      replace (y1 + Z.succ (Z.of_nat k)) with (y1 + Z.of_nat k + 1) by lia.
      rewrite days_before_year_succ.
      destruct (is_leap _); lia. }
  specialize (G (Z.to_nat (y2 - y1))).
  rewrite Z2Nat.id in G by lia.
  replace (y1 + (y2 - y1)) with y2 in G by lia. exact G.
Qed.

(** The ordinal of a valid date lies in its year. *)
Lemma toordinal_in_year d :
  valid_date d = true ->
  days_before_year (d_year d) < toordinal d
  <= days_before_year (d_year d + 1).
Proof.
  rewrite valid_date_iff. intros (Hy & Hm & Hd).
  unfold toordinal. rewrite days_before_year_succ.
  pose proof (days_before_month_nonneg (d_year d) (d_month d) Hm).
  rewrite <- days_before_month_last.
  destruct (Z.eq_dec (d_month d) 12) as [E|E].
  - rewrite E in *. lia.
  - pose proof (days_before_month_mono (d_year d) (d_month d) 12).
    pose proof (days_in_month_bounds (d_year d) 12). lia.
Qed.

Lemma toordinal_range d :
  valid_date d = true -> 1 <= toordinal d <= MAXORDINAL.
Proof.
  intros H. pose proof (toordinal_in_year d H) as [H1 H2].
  apply valid_date_iff in H. destruct H as (Hy & _).
  pose proof (days_before_year_mono 1 (d_year d) ltac:(lia)).
  pose proof (days_before_year_mono (d_year d + 1) 10000 ltac:(lia)).
  change (days_before_year 1) with 0 in *.
  change (days_before_year 10000) with 3652059 in *.
  unfold MAXORDINAL. lia.
Qed.

(** An earlier month of the calendar holds earlier days. *)
Lemma toordinal_month_lt d1 d2 :
  valid_date d1 = true -> valid_date d2 = true ->
  12 * d_year d1 + d_month d1 < 12 * d_year d2 + d_month d2 ->
  toordinal d1 < toordinal d2.
Proof.
  intros V1 V2 H.
  pose proof (toordinal_in_year d1 V1) as [A1 B1].
  pose proof (toordinal_in_year d2 V2) as [A2 B2].
  apply valid_date_iff in V1, V2.
  destruct V1 as (Hy1 & Hm1 & Hd1), V2 as (Hy2 & Hm2 & Hd2).
  destruct (Z.eq_dec (d_year d1) (d_year d2)) as [E|E].
  - unfold toordinal. rewrite E in *.
    pose proof (days_before_month_mono (d_year d2) (d_month d1) (d_month d2)).
    lia.
  - pose proof (days_before_year_mono (d_year d1 + 1) (d_year d2)). lia.
Qed.

Lemma fromordinal_valid n :
  1 <= n <= MAXORDINAL -> valid_date (fromordinal n) = true.
Proof.
  intros Hn.
  pose proof (toordinal_fromordinal n ltac:(lia)) as RT.
  revert RT. rewrite fromordinal_eq. cbv zeta.
  set (n0 := n - 1).
  set (n400 := n0 / 146097). set (r400 := n0 mod 146097).
  set (n100 := r400 / 36524). set (r100 := r400 mod 36524).
  set (n4 := r100 / 1461). set (r4 := r100 mod 1461).
  set (n1 := r4 / 365). set (r1 := r4 mod 365).
  assert (E400 : n0 = 146097 * n400 + r400 /\ 0 <= r400 < 146097)
    by (subst n400 r400; Z.to_euclidean_division_equations; lia).
  assert (E100 : r400 = 36524 * n100 + r100 /\ 0 <= r100 < 36524)
    by (subst n100 r100; Z.to_euclidean_division_equations; lia).
  assert (E4 : r100 = 1461 * n4 + r4 /\ 0 <= r4 < 1461)
    by (subst n4 r4; Z.to_euclidean_division_equations; lia).
  assert (E1 : r4 = 365 * n1 + r1 /\ 0 <= r1 < 365)
    by (subst n1 r1; Z.to_euclidean_division_equations; lia).
  assert (0 <= n0 < 3652059) by (subst n0; unfold MAXORDINAL in Hn; lia).
  clearbody n400 r400 n100 r100 n4 r4 n1 r1.
  assert (Q : 0 <= n400 <= 24 /\ 0 <= n100 <= 4 /\ 0 <= n4 <= 24
              /\ 0 <= n1 <= 4) by lia.
  destruct ((n1 =? 4) || (n100 =? 4)) eqn:Edge.
  - intros _. apply valid_date_iff. simpl.
    apply orb_true_iff in Edge. rewrite !Z.eqb_eq in Edge.
    change (days_in_month _ 12) with 31. lia.
  - apply orb_false_iff in Edge. rewrite !Z.eqb_neq in Edge.
    pose proof (month_day_correct
                  ((n1 =? 3) && (negb (n4 =? 24) || (n100 =? 3))) r1
                  ltac:(lia)) as MD.
    unfold month_day_ok in MD.
    destruct (month_day _ r1) as [m d]. simpl fst; simpl snd.
    rewrite !andb_true_iff in MD. destruct MD as [[[[M1 M2] D1] D2] S].
    rewrite !Z.leb_le in *.
    intros RT. apply valid_date_iff. simpl.
    assert (L := leapyear_flag n400 n100 n4 n1
                   ltac:(lia) ltac:(lia) ltac:(lia)).
    unfold days_in_month. rewrite L.
    repeat split; lia.
Qed.

Lemma toordinal_inj d1 d2 :
  valid_date d1 = true -> valid_date d2 = true ->
  toordinal d1 = toordinal d2 -> d1 = d2.
Proof.
  intros V1 V2 E.
  destruct (Z.lt_trichotomy (12 * d_year d1 + d_month d1)
              (12 * d_year d2 + d_month d2)) as [H|[H|H]].
  - pose proof (toordinal_month_lt d1 d2 V1 V2 H). lia.
  - apply valid_date_iff in V1, V2.
    assert (d_year d1 = d_year d2) by lia.
    assert (d_month d1 = d_month d2) by lia.
    unfold toordinal in E.
    destruct d1, d2; simpl in *; subst. f_equal. lia.
  - pose proof (toordinal_month_lt d2 d1 V2 V1 H). lia.
Qed.

Lemma fromordinal_toordinal d :
  valid_date d = true -> fromordinal (toordinal d) = d.
Proof.
  intros V. pose proof (toordinal_range d V) as R.
  apply toordinal_inj; [now apply fromordinal_valid|exact V|].
  apply toordinal_fromordinal. lia.
Qed.

(** ** The month shift *)


Lemma month_delta_same :
  StartingFetchData.month_delta = FetchData.month_delta.
Proof. reflexivity. Qed.

(** The inline table of [month_delta] holds the lengths of the months. *)
Lemma month_table y m :
  1 <= m <= 12 ->
  nth (Z.to_nat (m - 1))
    [31;
     if (y mod 4 =? 0) && (negb (y mod 100 =? 0) || (y mod 400 =? 0))
     then 29 else 28;
     31; 30; 31; 30; 31; 31; 30; 31; 30; 31] 0
  = days_in_month y m.
Proof.
  intros H. unfold days_in_month, is_leap.
  each_month H; reflexivity.
Qed.

Lemma make_datetime_ok y m d h mi s us r :
  make_datetime y m d h mi s us = Ok r ->
  r = mkdatetime (mkdate y m d) h mi s us /\ valid_datetime r = true.
Proof.
  unfold make_datetime.
  destruct (valid_date _ && valid_time _ _ _ _) eqn:E; [|discriminate].
  intros [= <-]. split; [reflexivity|exact E].
Qed.

Lemma month_delta_ok d months d' :
  FetchData.month_delta d months = Ok d' ->
  let y := d_year (dt_date d) + (d_month (dt_date d) - 1 + months) / 12 in
  let m := (d_month (dt_date d) - 1 + months) mod 12 + 1 in
  d' = mkdatetime
         (mkdate y m (Z.min (d_day (dt_date d)) (days_in_month y m)))
         (dt_hour d) (dt_minute d) (dt_second d) (dt_microsecond d)
  /\ valid_datetime d' = true.
Proof.
  unfold FetchData.month_delta, replace_ymd. cbv zeta.
  rewrite month_table
    by (pose proof (Z.mod_pos_bound (d_month (dt_date d) - 1 + months) 12);
        lia).
  apply make_datetime_ok.
Qed.

Lemma month_delta_defined d months :
  valid_datetime d = true ->
  1 <= d_year (dt_date d) + (d_month (dt_date d) - 1 + months) / 12 <= 9999 ->
  exists d', FetchData.month_delta d months = Ok d'.
Proof.
  intros V Hy.
  unfold FetchData.month_delta, replace_ymd, make_datetime. cbv zeta.
  pose proof (Z.mod_pos_bound (d_month (dt_date d) - 1 + months) 12
                ltac:(lia)) as Hm.
  rewrite month_table by lia.
  unfold valid_datetime in V. apply andb_true_iff in V. destruct V as [Vd Vt].
  rewrite Vt, andb_true_r.
  match goal with |- context [valid_date ?x] =>
    assert (Vx : valid_date x = true) end.
  { apply valid_date_iff in Vd. apply valid_date_iff. simpl.
    match goal with |- context [days_in_month ?a ?b] =>
      pose proof (days_in_month_bounds a b) end.
    lia. }
  rewrite Vx. eauto.
Qed.



(** 31 March 1900 shifted one month back is 28 February, since 1900 is
    divisible by 100 and not by 400; 31 March 2024 gives 29 February; and
    a shift past the year 9999 raises. *)
Example month_delta_century :
  FetchData.month_delta (mkdatetime (mkdate 1900 3 31) 10 30 0 0) (-1)
  = Ok (mkdatetime (mkdate 1900 2 28) 10 30 0 0)
  /\ StartingFetchData.month_delta
       (mkdatetime (mkdate 2024 3 31) 10 30 0 0) (-1)
     = Ok (mkdatetime (mkdate 2024 2 29) 10 30 0 0)
  /\ FetchData.month_delta (mkdatetime (mkdate 9999 12 31) 0 0 0 0) 1
     = Raise ValueError.
Proof. repeat split. Qed.

(** C7. Shifting a date by [N] months and then by [-N] months gives back
    the original year and month; the day can only be smaller. The second
    shift always succeeds. It holds for [month_delta] of either script. *)
Theorem month_delta_round_trip
  (shift : datetime -> Z -> result datetime) (d : datetime) (N : Z)
  (d1 : datetime) :
  shift = FetchData.month_delta \/ shift = StartingFetchData.month_delta ->
  valid_datetime d = true ->
  shift d N = Ok d1 ->
  exists d2,
    shift d1 (- N) = Ok d2
    /\ d_year (dt_date d2) = d_year (dt_date d)
    /\ d_month (dt_date d2) = d_month (dt_date d)
    /\ d_day (dt_date d2) <= d_day (dt_date d).
Proof.
  rewrite month_delta_same. intros S V H.
  assert (shift = FetchData.month_delta) by tauto. subst shift. clear S.
  apply month_delta_ok in H. cbv zeta in H. destruct H as [E V1].
  pose proof V as V0.
  unfold valid_datetime in V0. apply andb_true_iff in V0.
  destruct V0 as [Vd _]. apply valid_date_iff in Vd.
  assert (Hy : d_year (dt_date d1) + (d_month (dt_date d1) - 1 + - N) / 12
               = d_year (dt_date d)).
  { subst d1. simpl. Z.to_euclidean_division_equations. lia. }
  assert (Hm : (d_month (dt_date d1) - 1 + - N) mod 12 + 1
               = d_month (dt_date d)).
  { subst d1. simpl. Z.to_euclidean_division_equations. lia. }
  destruct (month_delta_defined d1 (- N) V1) as [d2 H2]; [lia|].
  exists d2. split; [exact H2|].
  apply month_delta_ok in H2. cbv zeta in H2. destruct H2 as [E2 _].
  rewrite Hy, Hm in E2. subst d2. subst d1. simpl. lia.
Qed.

Lemma month_delta_round_trip_witness :
  exists d2,
    FetchData.month_delta (mkdatetime (mkdate 2024 2 29) 10 30 0 0) (- (-1))
    = Ok d2
    /\ d_year (dt_date d2) = 2024
    /\ d_month (dt_date d2) = 3
    /\ d_day (dt_date d2) <= 31.
Proof.
  apply (month_delta_round_trip FetchData.month_delta
           (mkdatetime (mkdate 2024 3 31) 10 30 0 0) (-1)
           (mkdatetime (mkdate 2024 2 29) 10 30 0 0)).
  - left. reflexivity.
  - reflexivity.
  - reflexivity.
Defined.

(** ** The truncated timestamp *)

Lemma fraction_bits_nonneg a d :
  0 < a -> 0 < d -> a / d < 2 ^ 53 -> 0 <= fraction_bits a d.
Proof.
  intros Ha Hd Hq. unfold fraction_bits.
  destruct (d <=? a) eqn:E.
  - apply Z.leb_le in E.
    assert (0 < a / d) by (apply Z.div_str_pos; lia).
    assert (Z.log2 (a / d) < 53) by (apply Z.log2_lt_pow2; lia).
    lia.
  - pose proof (Z.log2_up_nonneg ((d + a - 1) / a)). lia.
Qed.

Lemma fraction_bits_fine a d :
  0 < a -> 0 < d -> a / d < 2 ^ 34 -> 19 <= fraction_bits a d.
Proof.
  intros Ha Hd Hq. unfold fraction_bits.
  destruct (d <=? a) eqn:E.
  - apply Z.leb_le in E.
    assert (0 < a / d) by (apply Z.div_str_pos; lia).
    assert (Z.log2 (a / d) < 34) by (apply Z.log2_lt_pow2; lia).
    lia.
  - pose proof (Z.log2_up_nonneg ((d + a - 1) / a)). lia.
Qed.

(** Rounding [a * P / d] stays between the multiples of [P] around it. *)
Lemma round_half_even_between a d P :
  0 <= a -> 0 < d -> 0 < P ->
  a / d * P <= round_half_even (a * P) d <= (a / d + 1) * P.
Proof.
  intros Ha Hd HP.
  assert (E : a = d * (a / d) + a mod d) by (apply Z.div_mod; lia).
  pose proof (Z.mod_pos_bound a d Hd) as R.
  set (k := a / d) in *. set (f := a mod d) in *.
  assert (E2 : a * P = d * (a * P / d) + (a * P) mod d)
    by (apply Z.div_mod; lia).
  pose proof (Z.mod_pos_bound (a * P) d Hd) as R2.
  unfold round_half_even. cbv zeta.
  set (q := a * P / d) in *. set (r := (a * P) mod d) in *.
  assert (Lo : k * P <= q).
  { apply Z.div_le_lower_bound; [lia|]. nia. }
  assert (Hi : q < (k + 1) * P).
  { apply Z.div_lt_upper_bound; [lia|]. nia. }
  destruct (2 * r <? d); [lia|].
  destruct (d <? 2 * r); [lia|].
  destruct (Z.even q); lia.
Qed.

Lemma round_half_even_exact k d P :
  0 < d -> round_half_even (k * d * P) d = k * P.
Proof.
  intros Hd. unfold round_half_even. cbv zeta.
  replace (k * d * P) with (k * P * d) by ring.
  rewrite Z.div_mul, Z.mod_mul by lia.
  replace (2 * 0 <? d) with true by (symmetry; apply Z.ltb_lt; lia).
  reflexivity.
Qed.

(** With at least 19 binary digits after the point, a quotient by
    1000000 is not rounded up to the next integer. *)
Lemma round_half_even_fine a P :
  0 <= a -> 2 ^ 19 <= P ->
  a / 1000000 * P <= round_half_even (a * P) 1000000
  < (a / 1000000 + 1) * P.
Proof.
  intros Ha HP. change (2 ^ 19) with 524288 in HP.
  assert (E : a = 1000000 * (a / 1000000) + a mod 1000000)
    by (apply Z.div_mod; lia).
  pose proof (Z.mod_pos_bound a 1000000 ltac:(lia)) as R.
  set (k := a / 1000000) in *. set (f := a mod 1000000) in *.
  assert (E2 : a * P = 1000000 * (a * P / 1000000) + (a * P) mod 1000000)
    by (apply Z.div_mod; lia).
  pose proof (Z.mod_pos_bound (a * P) 1000000 ltac:(lia)) as R2.
  unfold round_half_even. cbv zeta.
  set (q := a * P / 1000000) in *. set (r := (a * P) mod 1000000) in *.
  assert (Lo : k * P <= q).
  { apply Z.div_le_lower_bound; [lia|]. nia. }
  assert (Hi : q < (k + 1) * P).
  { apply Z.div_lt_upper_bound; [lia|]. nia. }
  assert (A : a * P <= 1000000 * ((k + 1) * P) - P) by nia.
  destruct (2 * r <? 1000000) eqn:C1; [lia|].
  apply Z.ltb_ge in C1.
  assert (q <= (k + 1) * P - 2) by nia.
  destruct (1000000 <? 2 * r); [lia|].
  destruct (Z.even q); lia.
Qed.

Lemma int_true_div_exact k d :
  0 < d -> Z.abs k < 2 ^ 53 -> int_true_div (k * d) d = k.
Proof.
  intros Hd Hk. unfold int_true_div. cbv zeta.
  destruct (Z.abs (k * d) =? 0) eqn:E0.
  - apply Z.eqb_eq in E0. nia.
  - apply Z.eqb_neq in E0.
    assert (Ea : Z.abs (k * d) = Z.abs k * d)
      by (rewrite Z.abs_mul; f_equal; lia).
    rewrite Ea in *.
    assert (0 < Z.abs k) by nia.
    assert (S : 0 <= fraction_bits (Z.abs k * d) d).
    { apply fraction_bits_nonneg; try nia. rewrite Z.div_mul by lia. lia. }
    replace (0 <=? fraction_bits (Z.abs k * d) d) with true
      by (symmetry; now apply Z.leb_le).
    rewrite round_half_even_exact by lia.
    rewrite Z.div_mul by (apply Z.pow_nonzero; lia).
    rewrite Z.sgn_mul. replace (Z.sgn d) with 1 by lia.
    rewrite Z.mul_1_r.
    destruct (Z.sgn_spec k) as [[? ->]|[[? ->]|[? ->]]]; lia.
Qed.

Lemma int_true_div_near n d :
  0 < d -> Z.abs n / d < 2 ^ 53 ->
  n / d - 1 <= int_true_div n d <= n / d + 1.
Proof.
  intros Hd Hq. unfold int_true_div. cbv zeta.
  destruct (Z.abs n =? 0) eqn:E0.
  - apply Z.eqb_eq in E0. replace n with 0 by lia.
    rewrite Z.div_0_l by lia. lia.
  - apply Z.eqb_neq in E0.
    assert (S : 0 <= fraction_bits (Z.abs n) d)
      by (apply fraction_bits_nonneg; lia).
    replace (0 <=? fraction_bits (Z.abs n) d) with true
      by (symmetry; now apply Z.leb_le).
    set (P := 2 ^ fraction_bits (Z.abs n) d).
    assert (HP : 0 < P) by (apply Z.pow_pos_nonneg; lia).
    pose proof (round_half_even_between (Z.abs n) d P ltac:(lia) Hd HP)
      as [Lo Hi].
    set (m := round_half_even (Z.abs n * P) d) in *.
    assert (V1 : Z.abs n / d <= m / P)
      by (apply Z.div_le_lower_bound; lia).
    assert (V2 : m / P <= Z.abs n / d + 1)
      by (apply Z.div_le_upper_bound; lia).
    destruct (Z.abs_spec n) as [[Hn Ha]|[Hn Ha]]; rewrite Ha in *.
    + replace (Z.sgn n) with 1 by lia. lia.
    + replace (Z.sgn n) with (-1) by lia.
      assert (- n / d <= - (n / d)).
      { Z.to_euclidean_division_equations. nia. }
      assert (- (n / d) - 1 <= - n / d).
      { Z.to_euclidean_division_equations. nia. }
      lia.
Qed.

Lemma int_true_div_fine n :
  0 <= n -> n / 1000000 < 2 ^ 34 ->
  int_true_div n 1000000 = n / 1000000.
Proof.
  intros Hn Hq. unfold int_true_div. cbv zeta.
  rewrite Z.abs_eq by lia.
  destruct (n =? 0) eqn:E0.
  - apply Z.eqb_eq in E0. subst n. reflexivity.
  - apply Z.eqb_neq in E0.
    assert (S : 19 <= fraction_bits n 1000000)
      by (apply fraction_bits_fine; lia).
    replace (0 <=? fraction_bits n 1000000) with true
      by (symmetry; apply Z.leb_le; lia).
    set (P := 2 ^ fraction_bits n 1000000).
    assert (HP : 2 ^ 19 <= P) by (apply Z.pow_le_mono_r; lia).
    pose proof (round_half_even_fine n P Hn HP) as [Lo Hi].
    set (m := round_half_even (n * P) 1000000) in *.
    replace (Z.sgn n) with 1 by lia. rewrite Z.mul_1_l.
    change (2 ^ 19) with 524288 in HP.
    symmetry. apply (Z.div_unique m P _ (m - n / 1000000 * P)); lia.
Qed.

(** The seconds between the epoch and a valid time are far inside the
    integers that binary64 holds exactly. *)
Lemma seconds_bound d :
  valid_datetime d = true ->
  let secs := (toordinal (dt_date d) - EPOCH_ORDINAL) * 86400
              + dt_hour d * 3600 + dt_minute d * 60 + dt_second d in
  micros_since_epoch d = secs * 1000000 + dt_microsecond d
  /\ 0 <= dt_microsecond d < 1000000
  /\ -62135596800 <= secs < 253402300800.
Proof.
  intros V secs.
  unfold valid_datetime, valid_time in V.
  rewrite !andb_true_iff, !Z.leb_le in V.
  destruct V as (Vd & ((((((H0 & H1) & M0) & M1) & S0) & S1) & U0) & U1).
  pose proof (toordinal_range _ Vd) as R.
  unfold MAXORDINAL, EPOCH_ORDINAL in *.
  split; [reflexivity|]. split; [lia|]. subst secs. lia.
Qed.

Lemma int_timestamp_near d :
  valid_datetime d = true ->
  micros_since_epoch d / 1000000 - 1 <= int_timestamp d
  <= micros_since_epoch d / 1000000 + 1.
Proof.
  intros V. destruct (seconds_bound d V) as (E & U & B).
  apply int_true_div_near; [lia|].
  change (2 ^ 53) with 9007199254740992.
  apply Z.div_lt_upper_bound; lia.
Qed.

(** ** The query window *)

Lemma int_timestamp_midnight (d : date) :
  valid_date d = true ->
  int_timestamp (mkdatetime d 0 0 0 0)
  = (toordinal d - EPOCH_ORDINAL) * 86400.
Proof.
  intros V. pose proof (toordinal_range _ V) as R.
  unfold int_timestamp, micros_since_epoch.
  cbn [dt_date dt_hour dt_minute dt_second dt_microsecond].
  replace ((toordinal d - EPOCH_ORDINAL) * 86400 + 0 * 3600 + 0 * 60 + 0)
    with ((toordinal d - EPOCH_ORDINAL) * 86400) by lia.
  rewrite Z.add_0_r. apply int_true_div_exact; [lia|].
  unfold MAXORDINAL, EPOCH_ORDINAL in *.
  change (2 ^ 53) with 9007199254740992. lia.
Qed.

Lemma replace_midnight_ok d r :
  replace_midnight d = Ok r ->
  r = mkdatetime (dt_date d) 0 0 0 0 /\ valid_date (dt_date d) = true.
Proof.
  unfold replace_midnight. intros H. apply make_datetime_ok in H.
  destruct H as [-> V]. destruct d as [[y m dd] h mi s us]; simpl in *.
  split; [reflexivity|].
  unfold valid_datetime in V. apply andb_true_iff in V. tauto.
Qed.

(** What [query_window] of [fetch_data.py] computes when nothing raises *)
Lemma query_window_ok now months_from months_to w :
  FetchData.query_window now months_from months_to = Ok w ->
  exists s e,
    FetchData.month_delta now (- months_from) = Ok s
    /\ FetchData.month_delta now (- months_to) = Ok e
    /\ FetchData.start_dt w = mkdatetime (dt_date s) 0 0 0 0
    /\ FetchData.end_dt w = mkdatetime (dt_date e) 0 0 0 0
    /\ FetchData.w_fromdate w
       = (toordinal (dt_date s) - EPOCH_ORDINAL) * 86400
    /\ FetchData.w_todate w
       = (toordinal (dt_date e) + 1 - EPOCH_ORDINAL) * 86400.
Proof.
  unfold FetchData.query_window.
  destruct (FetchData.month_delta now (- months_from)) as [s|] eqn:Es;
    [|discriminate]. simpl.
  destruct (replace_midnight s) as [s0|] eqn:Es0; [|discriminate]. simpl.
  destruct (FetchData.month_delta now (- months_to)) as [e|] eqn:Ee;
    [|discriminate]. simpl.
  destruct (replace_midnight e) as [e0|] eqn:Ee0; [|discriminate]. simpl.
  apply replace_midnight_ok in Es0, Ee0.
  destruct Es0 as [-> Vs], Ee0 as [-> Ve].
  unfold datetime_add_days, date_add_days. simpl.
  destruct (_ && _) eqn:R; [|discriminate]. simpl.
  intros [= <-]. exists s, e. simpl.
  repeat split; try reflexivity.
  - now apply int_timestamp_midnight.
  - apply andb_true_iff in R. rewrite Z.ltb_lt, Z.leb_le in R.
    unfold FetchData.to_unix.
    rewrite int_timestamp_midnight by (apply fromordinal_valid; lia).
    rewrite toordinal_fromordinal; [reflexivity|lia].
Qed.

Lemma month_delta_index d months d' :
  FetchData.month_delta d months = Ok d' ->
  12 * d_year (dt_date d') + d_month (dt_date d')
  = 12 * d_year (dt_date d) + d_month (dt_date d) + months.
Proof.
  intros H. apply month_delta_ok in H. cbv zeta in H.
  destruct H as [-> _]. cbn [dt_date d_year d_month].
  Z.to_euclidean_division_equations. lia.
Qed.

Lemma month_delta_valid d months d' :
  FetchData.month_delta d months = Ok d' -> valid_date (dt_date d') = true.
Proof.
  intros H. apply month_delta_ok in H. cbv zeta in H. destruct H as [_ V].
  unfold valid_datetime in V. apply andb_true_iff in V. tauto.
Qed.

Lemma starting_query_window_ok now w :
  StartingFetchData.query_window now = Ok w ->
  FetchData.month_delta now (-6) = Ok (StartingFetchData.w_start w)
  /\ FetchData.month_delta now (-2) = Ok (StartingFetchData.w_end w)
  /\ StartingFetchData.w_fromdate w
     = int_timestamp (StartingFetchData.w_start w)
  /\ StartingFetchData.w_todate w
     = int_timestamp (StartingFetchData.w_end w).
Proof.
  unfold StartingFetchData.query_window. rewrite month_delta_same.
  destruct (FetchData.month_delta now (-6)) as [s|]; [|discriminate].
  destruct (FetchData.month_delta now (-2)) as [e|]; [|discriminate].
  simpl. intros [= <-]. simpl. auto.
Qed.

(** C4. When the offsets satisfy [months_from > months_to], the window
    that [fetch_data.py] computes has [fromdate < todate]; the window of
    [starting_fetch_data.py], whose offsets are the constants 6 and 2, has
    [fromdate < todate] as well. *)
Theorem window_start_before_end :
  (forall now months_from months_to w,
      months_to < months_from ->
      FetchData.query_window now months_from months_to = Ok w ->
      FetchData.w_fromdate w < FetchData.w_todate w)
  /\ (forall now w,
         StartingFetchData.query_window now = Ok w ->
         StartingFetchData.w_fromdate w < StartingFetchData.w_todate w).
Proof.
  split.
  - intros now mf mt w Hlt H.
    apply query_window_ok in H.
    destruct H as (s & e & Hs & He & _ & _ & -> & ->).
    pose proof (month_delta_index _ _ _ Hs).
    pose proof (month_delta_index _ _ _ He).
    pose proof (toordinal_month_lt (dt_date s) (dt_date e)
                  (month_delta_valid _ _ _ Hs) (month_delta_valid _ _ _ He)
                  ltac:(lia)).
    lia.
  - intros now w H.
    apply starting_query_window_ok in H.
    destruct H as (Hs & He & -> & ->).
    pose proof (month_delta_index _ _ _ Hs).
    pose proof (month_delta_index _ _ _ He).
    pose proof (toordinal_month_lt _ _
                  (month_delta_valid _ _ _ Hs) (month_delta_valid _ _ _ He)
                  ltac:(lia)) as Hord.
    apply month_delta_ok in Hs, He. cbv zeta in Hs, He.
    destruct Hs as [Es Vs], He as [Ee Ve].
    pose proof (int_timestamp_near _ Vs) as Ns.
    pose proof (int_timestamp_near _ Ve) as Ne.
    assert (D : micros_since_epoch (StartingFetchData.w_start w)
                + 86400 * 1000000
                <= micros_since_epoch (StartingFetchData.w_end w)).
    { unfold micros_since_epoch. rewrite Es, Ee in *. simpl in *. lia. }
    Z.to_euclidean_division_equations. lia.
Qed.

Lemma window_start_before_end_witness :
  exists w,
    FetchData.query_window sample_now 6 2 = Ok w
    /\ FetchData.w_fromdate w < FetchData.w_todate w.
Proof.
  eexists. split; [reflexivity|].
  apply (proj1 window_start_before_end sample_now 6 2); [lia|reflexivity].
Defined.

(** The window of [fetch_data.py] is computed whenever the shifted years
    stay inside the calendar. *)
Lemma query_window_defined now months_from months_to :
  valid_datetime now = true ->
  months_to <= months_from ->
  1 <= d_year (dt_date now)
       + (d_month (dt_date now) - 1 - months_from) / 12 ->
  d_year (dt_date now) + (d_month (dt_date now) - 1 - months_to) / 12
  < 9999 ->
  exists w, FetchData.query_window now months_from months_to = Ok w.
Proof.
  intros V Hle H1 H2.
  assert (Hq : (d_month (dt_date now) - 1 - months_from) / 12
               <= (d_month (dt_date now) - 1 - months_to) / 12)
    by (apply Z.div_le_mono; lia).
  destruct (month_delta_defined now (- months_from) V) as [s Hs].
  { replace (d_month (dt_date now) - 1 + - months_from)
      with (d_month (dt_date now) - 1 - months_from) by lia. lia. }
  destruct (month_delta_defined now (- months_to) V) as [e He].
  { replace (d_month (dt_date now) - 1 + - months_to)
      with (d_month (dt_date now) - 1 - months_to) by lia. lia. }
  unfold FetchData.query_window. rewrite Hs, He. simpl.
  pose proof (month_delta_valid _ _ _ Hs) as Vs.
  pose proof (month_delta_valid _ _ _ He) as Ve.
  assert (Ye : d_year (dt_date e) < 9999).
  { apply month_delta_ok in He. cbv zeta in He. destruct He as [-> _].
    simpl.
    replace (d_month (dt_date now) - 1 + - months_to)
      with (d_month (dt_date now) - 1 - months_to) by lia. lia. }
  unfold replace_midnight, make_datetime.
  destruct s as [[ys ms ds] ? ? ? ?], e as [[ye me de] ? ? ? ?].
  simpl in *. rewrite Vs, Ve. simpl.
  unfold datetime_add_days, date_add_days. simpl.
  pose proof (toordinal_in_year _ Ve) as [A B]. simpl in A, B.
  pose proof (toordinal_range _ Ve) as R.
  pose proof (days_before_year_mono (ye + 1) 9999 ltac:(lia)) as M.
  change (days_before_year 9999) with 3651694 in M.
  unfold MAXORDINAL in *.
  destruct (_ && _) eqn:E; [simpl; eauto|].
  apply andb_false_iff in E. rewrite Z.ltb_ge, Z.leb_gt in E. lia.
Qed.

(** C5, as it holds. In [fetch_data.py] the bounds passed to the fetcher
    are midnight of the shifted start date and midnight of the day after
    the shifted end date, so that a creation timestamp falls on the end
    date exactly when it lies in the last 86400 seconds before the end
    bound. In [starting_fetch_data.py] the bounds are the instants shifted
    by 6 and by 2 months, with their time of day and no day added. *)
Theorem window_bounds :
  (forall now months_from months_to w,
      FetchData.query_window now months_from months_to = Ok w ->
      exists s e,
        FetchData.month_delta now (- months_from) = Ok s
        /\ FetchData.month_delta now (- months_to) = Ok e
        /\ whole_day_bounds s e
             (FetchData.w_fromdate w) (FetchData.w_todate w)
        /\ forall ts created,
             fromtimestamp ts = Ok created ->
             (dt_date created = dt_date e
              <-> FetchData.w_todate w - 86400 <= ts
                  < FetchData.w_todate w))
  /\ (forall now w,
         StartingFetchData.query_window now = Ok w ->
         exists s e,
           StartingFetchData.month_delta now (-6) = Ok s
           /\ StartingFetchData.month_delta now (-2) = Ok e
           /\ StartingFetchData.w_fromdate w = int_timestamp s
           /\ StartingFetchData.w_todate w = int_timestamp e).
Proof.
  split.
  - intros now mf mt w H. apply query_window_ok in H.
    destruct H as (s & e & Hs & He & _ & _ & Hf & Ht).
    exists s, e. split; [exact Hs|]. split; [exact He|]. split.
    + unfold whole_day_bounds.
      rewrite !int_timestamp_midnight
        by (eapply month_delta_valid; eassumption).
      lia.
    + intros ts created Hc. rewrite Ht.
      pose proof (month_delta_valid _ _ _ He) as Ve.
      unfold fromtimestamp in Hc.
      destruct (_ && _) eqn:R; [|discriminate].
      injection Hc as <-. simpl.
      apply andb_true_iff in R. rewrite !Z.leb_le in R.
      split.
      * intros E.
        assert (toordinal (fromordinal (ts / 86400 + EPOCH_ORDINAL))
                = toordinal (dt_date e)) by now rewrite E.
        rewrite toordinal_fromordinal in H by lia.
        Z.to_euclidean_division_equations. lia.
      * intros B.
        assert (ts / 86400 + EPOCH_ORDINAL = toordinal (dt_date e))
          by (Z.to_euclidean_division_equations; lia).
        rewrite H. now apply fromordinal_toordinal.
  - intros now w H. apply starting_query_window_ok in H.
    rewrite month_delta_same.
    destruct H as (Hs & He & Hf & Ht).
    exists (StartingFetchData.w_start w), (StartingFetchData.w_end w).
    repeat split; assumption.
Qed.

Lemma window_bounds_witness :
  exists w s e,
    FetchData.query_window sample_now 6 2 = Ok w
    /\ FetchData.month_delta sample_now (- 6) = Ok s
    /\ FetchData.month_delta sample_now (- 2) = Ok e
    /\ whole_day_bounds s e (FetchData.w_fromdate w) (FetchData.w_todate w).
Proof.
  eexists.
  destruct (proj1 window_bounds sample_now 6 2 _ eq_refl)
    as (s & e & Hs & He & Hb & _).
  exists s, e. split; [reflexivity|]. auto.
Defined.

(** C5, as stated, fails on [starting_fetch_data.py]: at 10:30 on
    15 August 2024 its bounds are 10:30 on 15 February and 10:30 on
    15 June, neither of them a midnight. *)
Lemma starting_window_not_whole_days :
  exists w s e,
    StartingFetchData.query_window sample_now = Ok w
    /\ StartingFetchData.month_delta sample_now (-6) = Ok s
    /\ StartingFetchData.month_delta sample_now (-2) = Ok e
    /\ StartingFetchData.w_fromdate w = 1707993000
    /\ StartingFetchData.w_todate w = 1718447400
    /\ ~ whole_day_bounds s e
         (StartingFetchData.w_fromdate w) (StartingFetchData.w_todate w).
Proof.
  eexists. eexists. eexists.
  split; [reflexivity|]. split; [reflexivity|]. split; [reflexivity|].
  split; [reflexivity|]. split; [reflexivity|].
  unfold whole_day_bounds. intros [H _]. vm_compute in H. discriminate.
Qed.

(** ** The bucket of a creation time *)

Lemma zero_pad_table w bound :
  forallb (fun k => all_digits w (zero_pad w (Z.of_nat k)))
    (seq 0 (Z.to_nat bound)) = true ->
  forall n, 0 <= n < bound -> all_digits w (zero_pad w n) = true.
Proof.
  intros T n H. rewrite forallb_forall in T.
  specialize (T (Z.to_nat n)). rewrite Z2Nat.id in T by lia.
  apply T. apply in_seq. lia.
Qed.

Lemma zero_pad_4 n : 0 <= n < 10000 -> all_digits 4 (zero_pad 4 n) = true.
Proof. apply (zero_pad_table 4 10000). vm_compute. reflexivity. Qed.

Lemma zero_pad_2 n : 0 <= n < 100 -> all_digits 2 (zero_pad 2 n) = true.
Proof. apply (zero_pad_table 2 100). vm_compute. reflexivity. Qed.

Lemma iso_date_form_parts y m d :
  all_digits 4 y = true -> all_digits 2 m = true -> all_digits 2 d = true ->
  iso_date_form (y ++ "-" ++ m ++ "-" ++ d)%string = true.
Proof.
  unfold all_digits. rewrite !andb_true_iff, !Nat.eqb_eq.
  intros [Ly Dy] [Lm Dm] [Ld Dd].
  destruct y as [|y1 [|y2 [|y3 [|y4 [|? ?]]]]]; try discriminate.
  destruct m as [|m1 [|m2 [|? ?]]]; try discriminate.
  destruct d as [|d1 [|d2 [|? ?]]]; try discriminate.
  simpl in *. unfold iso_date_form. simpl.
  rewrite !andb_true_iff in *. tauto.
Qed.

Lemma isoformat_form d :
  valid_date d = true -> iso_date_form (isoformat d) = true.
Proof.
  intros V. apply valid_date_iff in V. destruct V as (Hy & Hm & Hd).
  pose proof (days_in_month_bounds (d_year d) (d_month d)).
  unfold isoformat.
  apply iso_date_form_parts;
    [apply zero_pad_4|apply zero_pad_2|apply zero_pad_2]; lia.
Qed.

Lemma week_start_ok d :
  valid_date d = true ->
  date_add_days d (- weekday d)
  = Ok (fromordinal (toordinal d - weekday d))
  /\ 1 <= toordinal d - weekday d <= MAXORDINAL.
Proof.
  intros V. pose proof (toordinal_range d V) as R.
  assert (B : 1 <= toordinal d - weekday d <= MAXORDINAL).
  { unfold weekday. Z.to_euclidean_division_equations. lia. }
  split; [|exact B].
  unfold date_add_days.
  replace (toordinal d + - weekday d) with (toordinal d - weekday d) by lia.
  destruct (_ && _) eqn:E; [reflexivity|].
  apply andb_false_iff in E. rewrite Z.ltb_ge, Z.leb_gt in E. lia.
Qed.

(** C8. With the week grain the bucket of a creation time is the ISO form
    of the date [monday] that lies [weekday] days before its date; that
    date is a Monday and its key has the form [YYYY-MM-DD]. Two creation
    times whose dates lie in the same span from a Monday to the following
    Sunday get the same key. *)
Theorem week_bucket_is_monday :
  (forall t,
      valid_date (dt_date t) = true ->
      exists monday,
        StartingFetchData.bucket_date t "week" = Ok (isoformat monday)
        /\ valid_date monday = true
        /\ toordinal monday
           = toordinal (dt_date t) - weekday (dt_date t)
        /\ weekday monday = 0
        /\ iso_date_form (isoformat monday) = true)
  /\ (forall t1 t2 M,
         valid_date (dt_date t1) = true ->
         valid_date (dt_date t2) = true ->
         (M + 6) mod 7 = 0 ->
         M <= toordinal (dt_date t1) <= M + 6 ->
         M <= toordinal (dt_date t2) <= M + 6 ->
         StartingFetchData.bucket_date t1 "week"
         = StartingFetchData.bucket_date t2 "week").
Proof.
  split.
  - intros t V.
    destruct (week_start_ok _ V) as [E B].
    exists (fromordinal (toordinal (dt_date t) - weekday (dt_date t))).
    assert (RT := toordinal_fromordinal _ (proj1 B)).
    assert (VM := fromordinal_valid _ B).
    split; [|split; [exact VM|split; [exact RT|split]]].
    + unfold StartingFetchData.bucket_date. simpl String.eqb.
      rewrite E. reflexivity.
    + unfold weekday at 1. rewrite RT. unfold weekday.
      Z.to_euclidean_division_equations. lia.
    + now apply isoformat_form.
  - intros t1 t2 M V1 V2 HM H1 H2.
    destruct (week_start_ok _ V1) as [E1 _].
    destruct (week_start_ok _ V2) as [E2 _].
    unfold StartingFetchData.bucket_date. simpl String.eqb.
    rewrite E1, E2.
    assert (A1 : toordinal (dt_date t1) - weekday (dt_date t1) = M)
      by (unfold weekday; Z.to_euclidean_division_equations; lia).
    assert (A2 : toordinal (dt_date t2) - weekday (dt_date t2) = M)
      by (unfold weekday; Z.to_euclidean_division_equations; lia).
    rewrite A1, A2. reflexivity.
Qed.

Lemma week_bucket_is_monday_witness :
  StartingFetchData.bucket_date
    (mkdatetime (mkdate 2024 3 1) 23 59 59 0) "week"
  = StartingFetchData.bucket_date
      (mkdatetime (mkdate 2024 2 26) 0 0 0 0) "week"
  /\ StartingFetchData.bucket_date
       (mkdatetime (mkdate 2024 3 1) 23 59 59 0) "week"
     = Ok "2024-02-26"%string.
Proof.
  split; [|reflexivity].
  apply (proj2 week_bucket_is_monday _ _ 738942);
    try reflexivity; vm_compute; split; discriminate.
Defined.

(** ** The order of strings and of keys *)

Lemma ascii_compare_refl c : Ascii.compare c c = Eq.
Proof. unfold Ascii.compare. apply N.compare_refl. Qed.

Lemma ascii_compare_lt_trans a b c :
  Ascii.compare a b = Lt -> Ascii.compare b c = Lt -> Ascii.compare a c = Lt.
Proof.
  unfold Ascii.compare. rewrite !N.compare_lt_iff. lia.
Qed.

Lemma str_compare_refl s : String.compare s s = Eq.
Proof.
  induction s as [|c s IH]; simpl; [reflexivity|].
  now rewrite ascii_compare_refl.
Qed.

Lemma str_compare_eq s1 s2 : String.compare s1 s2 = Eq <-> s1 = s2.
Proof.
  split; [apply String.compare_eq_iff|].
  intros ->. apply str_compare_refl.
Qed.

Lemma str_compare_gt_lt s1 s2 :
  String.compare s1 s2 = Gt <-> String.compare s2 s1 = Lt.
Proof.
  rewrite (String.compare_antisym s2 s1).
  destruct (String.compare s1 s2); simpl; split; congruence.
Qed.

Lemma str_lt_trans s1 : forall s2 s3,
  String.compare s1 s2 = Lt -> String.compare s2 s3 = Lt ->
  String.compare s1 s3 = Lt.
Proof.
  induction s1 as [|a s1 IH]; intros [|b s2] [|c s3]; simpl; try congruence.
  destruct (Ascii.compare a b) eqn:Eab; try discriminate.
  - apply Ascii.compare_eq_iff in Eab. subst b.
    destruct (Ascii.compare a c); try congruence. apply IH.
  - intros _.
    destruct (Ascii.compare b c) eqn:Ebc; try discriminate.
    + apply Ascii.compare_eq_iff in Ebc. subst c. now rewrite Eab.
    + now rewrite (ascii_compare_lt_trans _ _ _ Eab Ebc).
Qed.

Lemma str_leb_iff s1 s2 :
  String.leb s1 s2 = true <-> String.compare s1 s2 = Lt \/ s1 = s2.
Proof.
  unfold String.leb. rewrite <- str_compare_eq.
  destruct (String.compare s1 s2); split; intros; try tauto; try congruence.
  destruct H; congruence.
Qed.

Lemma str_leb_trans s1 s2 s3 :
  String.leb s1 s2 = true -> String.leb s2 s3 = true ->
  String.leb s1 s3 = true.
Proof.
  rewrite !str_leb_iff. intros [H1| ->] [H2| ->]; auto.
  left. eapply str_lt_trans; eauto.
Qed.

Lemma key_leb_iff a b :
  key_leb a b = true <->
  String.compare (fst a) (fst b) = Lt
  \/ (fst a = fst b /\ String.leb (snd a) (snd b) = true).
Proof.
  unfold key_leb. rewrite <- str_compare_eq.
  destruct (String.compare (fst a) (fst b)); split; intros H.
  - right; split; [reflexivity|exact H].
  - destruct H as [H|[_ H]]; [discriminate|exact H].
  - left; reflexivity.
  - reflexivity.
  - discriminate.
  - destruct H as [H|[H _]]; discriminate.
Qed.

Lemma key_leb_trans a b c :
  key_leb a b = true -> key_leb b c = true -> key_leb a c = true.
Proof.
  rewrite !key_leb_iff.
  intros [H1|[E1 L1]] [H2|[E2 L2]].
  - left. eapply str_lt_trans; eauto.
  - left. now rewrite <- E2.
  - left. now rewrite E1.
  - right. split; [congruence|]. eapply str_leb_trans; eauto.
Qed.

Lemma key_leb_total a b : key_leb a b = true \/ key_leb b a = true.
Proof.
  rewrite !key_leb_iff.
  destruct (String.compare (fst a) (fst b)) eqn:E.
  - apply str_compare_eq in E.
    destruct (String.leb_total (snd a) (snd b)); [left|right]; right; auto.
  - left; left; reflexivity.
  - right; left. now apply str_compare_gt_lt.
Qed.

(** ** The sort of the rows *)

Lemma insert_row_perm r l : Permutation (insert_row r l) (r :: l).
Proof.
  induction l as [|x l IH]; simpl; [reflexivity|].
  destruct (key_leb _ _); [reflexivity|].
  rewrite IH. apply perm_swap.
Qed.

Lemma sort_rows_perm l : Permutation (sort_rows l) l.
Proof.
  induction l as [|x l IH]; simpl; [constructor|].
  rewrite insert_row_perm. now constructor.
Qed.

Lemma insert_row_sorted r l :
  StronglySorted row_key_le l -> StronglySorted row_key_le (insert_row r l).
Proof.
  induction 1 as [|x l Hs IH Hx]; simpl.
  - repeat constructor.
  - destruct (key_leb (sort_key r) (sort_key x)) eqn:E.
    + constructor; [now constructor|].
      constructor; [exact E|].
      eapply Forall_impl; [|exact Hx].
      intros y Hy. unfold row_key_le in *. eapply key_leb_trans; eauto.
    + constructor; [exact IH|].
      apply (Permutation_Forall (Permutation_sym (insert_row_perm r l))).
      constructor; [|exact Hx].
      destruct (key_leb_total (sort_key r) (sort_key x)) as [H|H];
        [congruence|exact H].
Qed.

Lemma sort_rows_sorted l : StronglySorted row_key_le (sort_rows l).
Proof.
  induction l as [|x l IH]; simpl; [constructor|].
  now apply insert_row_sorted.
Qed.

Lemma sorted_nth_le (l : list row) :
  StronglySorted row_key_le l ->
  forall i j a b, nth_error l i = Some a -> nth_error l j = Some b ->
    (i < j)%nat -> row_key_le a b.
Proof.
  induction 1 as [|x l Hs IH Hx]; intros i j a b Hi Hj Hij.
  - destruct i; discriminate.
  - destruct j as [|j]; [lia|]. simpl in Hj.
    destruct i as [|i]; simpl in Hi.
    + injection Hi as <-. rewrite Forall_forall in Hx.
      apply Hx. eapply nth_error_In; eauto.
    + eapply IH; eauto. lia.
Qed.

Lemma row_key_le_date r1 r2 :
  row_key_le r1 r2 -> String.ltb (r_date r2) (r_date r1) = false.
Proof.
  unfold row_key_le, String.ltb. rewrite key_leb_iff. simpl.
  intros [H|[H _]].
  - apply (proj2 (str_compare_gt_lt _ _)) in H. rewrite H. reflexivity.
  - rewrite H, str_compare_refl. reflexivity.
Qed.

Lemma sorted_earlier_date_first l :
  StronglySorted row_key_le l -> earlier_date_first l.
Proof.
  intros Hs i j r1 r2 Hi Hj Hlt.
  destruct (Nat.lt_trichotomy i j) as [H|[H|H]]; [exact H| |].
  - subst j. rewrite Hi in Hj. injection Hj as <-.
    unfold String.ltb in Hlt. rewrite str_compare_refl in Hlt. discriminate.
  - pose proof (sorted_nth_le l Hs j i r2 r1 Hj Hi H) as Hle.
    apply row_key_le_date in Hle. congruence.
Qed.
(** ** The written table *)

Lemma row_le_key r1 r2 :
  key_leb (sort_key r1) (sort_key r2) = true <-> row_le r1 r2.
Proof.
  unfold row_le, String.ltb. rewrite key_leb_iff. unfold sort_key. simpl.
  destruct (String.compare (r_date r1) (r_date r2)); split;
    intros [H|H]; auto; discriminate.
Qed.

(** C9. The rows written from a count table are its entries, sorted in
    ascending order of the pair (date, tag): the dates are compared as
    strings first and the tags as strings when the dates are equal; a row
    with an earlier date stands before every row with a later date. Both
    scripts write their table this way. *)
Theorem written_rows_sorted :
  (forall t : count_table,
      Permutation (sort_rows (rows_of t)) (rows_of t)
      /\ StronglySorted row_le (sort_rows (rows_of t))
      /\ earlier_date_first (sort_rows (rows_of t)))
  /\ (forall api now a file out,
         FetchData.main api now a = Completed file out ->
         StronglySorted row_le (data file)
         /\ earlier_date_first (data file))
  /\ (forall api now a file out,
         StartingFetchData.main api now a = Completed file out ->
         StronglySorted row_le (data file)
         /\ earlier_date_first (data file)).
Proof.
  assert (S : forall l,
             StronglySorted row_le (sort_rows l)
             /\ earlier_date_first (sort_rows l)).
  { intros l. pose proof (sort_rows_sorted l) as H. split.
    - clear - H. induction H as [|x l0 Hs IH Hx]; constructor; auto.
      eapply Forall_impl; [|exact Hx]. intros y. apply row_le_key.
    - now apply sorted_earlier_date_first. }
  split; [|split].
  - intros t. split; [apply sort_rows_perm|apply S].
  - intros api now a file out. unfold FetchData.main.
    destruct (FetchData.query_window _ _ _); [|discriminate].
    destruct (FetchData.run_tags _ _ _ _ _); [|discriminate].
    intros [= <- _]. apply S.
  - intros api now a file out. unfold StartingFetchData.main.
    destruct (StartingFetchData.query_window _); [|discriminate].
    destruct (StartingFetchData.run_tags _ _ _ _ _); [|discriminate].
    intros [= <- _]. apply S.
Qed.

Lemma written_rows_sorted_witness :
  exists file out,
    FetchData.main sample_server sample_now sample_args = Completed file out
    /\ data file
       = [mkrow "2024-03-01" "java" 1; mkrow "2024-03-01" "python" 1;
          mkrow "2024-03-02" "python" 1]
    /\ StronglySorted row_le (data file)
    /\ earlier_date_first (data file).
Proof.
  eexists. eexists. split; [reflexivity|]. split; [reflexivity|].
  apply (proj1 (proj2 written_rows_sorted) sample_server sample_now
           sample_args _ _ eq_refl).
Defined.

(** The table of the design document: the row of 1 March is written
    before the row of 2 March. *)
Example rows_of_two_days :
  sort_rows
    (rows_of [(("2024-03-02", "go"), 3); (("2024-03-01", "go"), 5)]%string)
  = [mkrow "2024-03-01" "go" 5; mkrow "2024-03-02" "go" 3].
Proof. reflexivity. Qed.

(** ** The count table *)

Lemma key_eqb_eq a b : key_eqb a b = true <-> a = b.
Proof.
  unfold key_eqb. rewrite andb_true_iff, !String.eqb_eq.
  destruct a, b; simpl. split; [intros [-> ->]; reflexivity|].
  intros [= -> ->]. auto.
Qed.

Lemma key_eqb_refl a : key_eqb a a = true.
Proof. now apply key_eqb_eq. Qed.

(** [counts[k] += 1] adds one to the entry of [k] and to no other. *)
Lemma get_incr k k' t :
  get k' (incr k t) = get k' t + (if key_eqb k' k then 1 else 0).
Proof.
  induction t as [|[k0 v] t IH]; simpl.
  - destruct (key_eqb k' k); reflexivity.
  - destruct (key_eqb k k0) eqn:E; simpl.
    + apply key_eqb_eq in E. subst k0.
      destruct (key_eqb k' k); lia.
    + destruct (key_eqb k' k0) eqn:E'; [|exact IH].
      apply key_eqb_eq in E'. subst k0.
      destruct (key_eqb k' k) eqn:E''; [|lia].
      apply key_eqb_eq in E''. subst k'.
      rewrite key_eqb_refl in E. discriminate.
Qed.

Lemma tag_total_incr tg k t :
  tag_total tg (incr k t)
  = tag_total tg t + (if String.eqb (snd k) tg then 1 else 0).
Proof.
  induction t as [|[k0 v] t IH]; simpl.
  - destruct (String.eqb (snd k) tg); lia.
  - destruct (key_eqb k k0) eqn:E; simpl.
    + apply key_eqb_eq in E. subst k0.
      destruct (String.eqb (snd k) tg); lia.
    + rewrite IH. lia.
Qed.

Lemma get_in k t : get k t <> 0 -> In (k, get k t) t.
Proof.
  induction t as [|[k0 v] t IH]; simpl; [congruence|].
  destruct (key_eqb k k0) eqn:E.
  - apply key_eqb_eq in E. subst k0. auto.
  - auto.
Qed.

(** ** The counting loop of [fetch_data.py] *)

Lemma count_question_inv tag t q t' :
  FetchData.count_question tag t q = Ok t' ->
  exists ts c,
    creation_date q = Some ts /\ fromtimestamp ts = Ok c
    /\ t' = FetchData.mktally
              (incr (FetchData.day_bucket c, tag) (FetchData.counts t))
              (Some c) (FetchData.fetched t + 1).
Proof.
  unfold FetchData.count_question.
  destruct (creation_date q) as [ts|]; [|discriminate].
  destruct (fromtimestamp ts) as [c|] eqn:E; [|discriminate].
  simpl. intros [= <-]. exists ts, c. auto.
Qed.

Lemma count_question_wf tag t q :
  well_formed q = true -> exists t', FetchData.count_question tag t q = Ok t'.
Proof.
  unfold well_formed, FetchData.count_question.
  destruct (creation_date q) as [ts|]; [|discriminate].
  destruct (fromtimestamp ts) as [c|]; [|discriminate].
  simpl. eauto.
Qed.

(** The loop body raises [KeyError] or the error of [fromtimestamp], never
    the fetcher's [RuntimeError]. *)
Lemma count_question_exn tag t q e :
  FetchData.count_question tag t q = Raise e ->
  e = KeyError "creation_date" \/ e = ValueError.
Proof.
  unfold FetchData.count_question, fromtimestamp.
  destruct (creation_date q) as [ts|]; [|intros [= <-]; auto].
  destruct (_ && _); simpl; [discriminate|intros [= <-]; auto].
Qed.

Lemma count_all_exn tag qs : forall t t' e,
  FetchData.count_all tag t qs = (t', Some e) ->
  e = KeyError "creation_date" \/ e = ValueError.
Proof.
  induction qs as [|q qs IH]; simpl; intros t t' e H; [discriminate|].
  destruct (FetchData.count_question tag t q) as [t1|e1] eqn:E.
  - eapply IH; eauto.
  - injection H as _ <-. eapply count_question_exn; eauto.
Qed.

Lemma count_all_done tag qs : forall t t',
  FetchData.count_all tag t qs = (t', None) ->
  (forall tg,
      tag_total tg (FetchData.counts t')
      = tag_total tg (FetchData.counts t)
        + (if String.eqb tag tg then Z.of_nat (List.length qs) else 0))
  /\ FetchData.fetched t' = FetchData.fetched t + Z.of_nat (List.length qs)
  /\ (forall k, get k (FetchData.counts t) <= get k (FetchData.counts t')).
Proof.
  induction qs as [|q qs IH]; intros t t' H.
  - simpl in H. injection H as <-. simpl.
    repeat split; intros; try destruct (String.eqb tag tg); lia.
  - cbn [FetchData.count_all] in H.
    destruct (FetchData.count_question tag t q) as [t1|e1] eqn:E;
      [|discriminate].
    apply IH in H. destruct H as (Ht & Hf & Hg).
    apply count_question_inv in E. destruct E as (ts & c & _ & _ & ->).
    cbn [FetchData.counts FetchData.fetched List.length] in *.
    rewrite Nat2Z.inj_succ.
    repeat split.
    + intros tg. rewrite Ht, tag_total_incr. cbn [snd].
      destruct (String.eqb tag tg); lia.
    + lia.
    + intros k. specialize (Hg k). rewrite get_incr in Hg.
      destruct (key_eqb _ _); lia.
Qed.

Lemma count_all_wf tag qs : forall t,
  forallb well_formed qs = true ->
  exists t', FetchData.count_all tag t qs = (t', None).
Proof.
  induction qs as [|q qs IH]; simpl; intros t H; [eauto|].
  apply andb_true_iff in H. destruct H as [Hq Hqs].
  destruct (count_question_wf tag t q Hq) as [t1 ->]. auto.
Qed.

Lemma count_all_missing tag pre q post : forall t,
  forallb well_formed pre = true ->
  creation_date q = None ->
  exists t',
    FetchData.count_all tag t (pre ++ q :: post)
    = (t', Some (KeyError "creation_date")).
Proof.
  induction pre as [|p pre IH]; simpl; intros t H Hq.
  - unfold FetchData.count_question. rewrite Hq. eauto.
  - apply andb_true_iff in H. destruct H as [Hp Hpre].
    destruct (count_question_wf tag t p Hp) as [t1 ->]. auto.
Qed.

Section FetchDataRun.

Variable api : server.
Variable a : FetchData.args.
Variable w : FetchData.window.

(** A tag that is left normally has had every yielded item counted. *)
Lemma run_tag_ok tag st st' :
  FetchData.run_tag api a w tag st = Ok st' ->
  exists t,
    FetchData.count_all tag (FetchData.mktally (FetchData.table st) None 0)
      (yielded (FetchData.questions api a w tag (FetchData.served st)))
    = (t, None)
    /\ FetchData.table st' = FetchData.counts t
    /\ FetchData.served st'
       = requests (FetchData.questions api a w tag (FetchData.served st)).
Proof.
  unfold FetchData.run_tag.
  destruct (FetchData.count_all _ _ _) as [t [e|]] eqn:E.
  - apply count_all_exn in E. destruct E as [-> | ->]; discriminate.
  - intros H. exists t. split; [reflexivity|].
    destruct (stop _) as [| | |[]|]; try discriminate;
      injection H as <-; auto.
Qed.

Lemma run_tag_total tag st st' tg :
  FetchData.run_tag api a w tag st = Ok st' ->
  tag_total tg (FetchData.table st')
  = tag_total tg (FetchData.table st)
    + (if String.eqb tag tg
       then Z.of_nat
              (List.length
                 (yielded
                    (FetchData.questions api a w tag (FetchData.served st))))
       else 0).
Proof.
  intros H. apply run_tag_ok in H. destruct H as (t & Hc & -> & _).
  apply count_all_done in Hc. destruct Hc as (Ht & _). apply Ht.
Qed.

Lemma run_tags_total ts : forall st st' tg,
  FetchData.run_tags api a w ts st = Ok st' ->
  tag_total tg (FetchData.table st')
  = tag_total tg (FetchData.table st)
    + items_yielded (FetchData.questions api a w) tg ts (FetchData.served st).
Proof.
  induction ts as [|tag ts IH]; simpl; intros st st' tg H.
  - injection H as <-. lia.
  - destruct (FetchData.run_tag api a w tag st) as [st1|] eqn:E;
      [|discriminate].
    simpl in H. apply IH with (tg := tg) in H. rewrite H.
    rewrite (run_tag_total _ _ _ tg E).
    apply run_tag_ok in E. destruct E as (_ & _ & _ & ->).
    lia.
Qed.

Lemma run_tags_mono ts : forall st st' k,
  FetchData.run_tags api a w ts st = Ok st' ->
  get k (FetchData.table st) <= get k (FetchData.table st').
Proof.
  induction ts as [|tag ts IH]; simpl; intros st st' k H.
  - injection H as <-. lia.
  - destruct (FetchData.run_tag api a w tag st) as [st1|] eqn:E;
      [|discriminate].
    simpl in H. apply IH with (k := k) in H.
    apply run_tag_ok in E. destruct E as (t & Hc & Et & _).
    apply count_all_done in Hc. destruct Hc as (_ & _ & Hg).
    specialize (Hg k). simpl in Hg. rewrite Et in H. lia.
Qed.

Lemma run_tags_app ts1 ts2 st :
  FetchData.run_tags api a w (ts1 ++ ts2) st
  = (st' <- FetchData.run_tags api a w ts1 st ;;
     FetchData.run_tags api a w ts2 st').
Proof.
  revert st. induction ts1 as [|tag ts1 IH]; simpl; intros st; [reflexivity|].
  destruct (FetchData.run_tag api a w tag st); simpl; auto.
Qed.

End FetchDataRun.

(** ** The counting loop of [starting_fetch_data.py] *)

Lemma fromtimestamp_valid ts c :
  fromtimestamp ts = Ok c -> valid_date (dt_date c) = true.
Proof.
  unfold fromtimestamp. destruct (_ && _) eqn:R; [|discriminate].
  intros [= <-]. simpl. apply fromordinal_valid.
  apply andb_true_iff in R. rewrite !Z.leb_le in R. exact R.
Qed.

(** The bucketing function is total on valid dates. *)
Lemma bucket_date_total c grain :
  valid_date (dt_date c) = true ->
  exists d, StartingFetchData.bucket_date c grain = Ok d.
Proof.
  intros V. unfold StartingFetchData.bucket_date.
  destruct (String.eqb grain "day"); [eauto|].
  destruct (week_start_ok _ V) as [-> _]. simpl. eauto.
Qed.

Lemma starting_count_question_inv grain tag counts q counts' :
  StartingFetchData.count_question grain tag counts q = Ok counts' ->
  exists d, counts' = incr (d, tag) counts.
Proof.
  unfold StartingFetchData.count_question.
  destruct (creation_date q) as [ts|]; [|discriminate].
  destruct (fromtimestamp ts) as [c|]; [|discriminate]. simpl.
  destruct (StartingFetchData.bucket_date c grain) as [d|]; [|discriminate].
  simpl. intros [= <-]. eauto.
Qed.

Lemma starting_count_question_wf grain tag counts q :
  well_formed q = true ->
  exists counts',
    StartingFetchData.count_question grain tag counts q = Ok counts'.
Proof.
  unfold well_formed, StartingFetchData.count_question.
  destruct (creation_date q) as [ts|]; [|discriminate].
  destruct (fromtimestamp ts) as [c|] eqn:E; [|discriminate].
  intros _. simpl.
  destruct (bucket_date_total c grain (fromtimestamp_valid _ _ E)) as [d ->].
  simpl. eauto.
Qed.

Lemma starting_count_all_done grain tag qs : forall counts counts',
  StartingFetchData.count_all grain tag counts qs = Ok counts' ->
  (forall tg,
      tag_total tg counts'
      = tag_total tg counts
        + (if String.eqb tag tg then Z.of_nat (List.length qs) else 0))
  /\ (forall k, get k counts <= get k counts').
Proof.
  induction qs as [|q qs IH]; intros counts counts' H.
  - simpl in H. injection H as <-. simpl.
    split; intros; try destruct (String.eqb tag tg); lia.
  - cbn [StartingFetchData.count_all] in H.
    destruct (StartingFetchData.count_question grain tag counts q)
      as [c1|] eqn:E; [|discriminate].
    simpl in H. apply IH in H. destruct H as (Ht & Hg).
    apply starting_count_question_inv in E. destruct E as (d & ->).
    cbn [List.length]. rewrite Nat2Z.inj_succ. split.
    + intros tg. rewrite Ht, tag_total_incr. cbn [snd].
      destruct (String.eqb tag tg); lia.
    + intros k. specialize (Hg k). rewrite get_incr in Hg.
      destruct (key_eqb _ _); lia.
Qed.

Lemma starting_count_all_missing grain tag pre q post : forall counts,
  forallb well_formed pre = true ->
  creation_date q = None ->
  StartingFetchData.count_all grain tag counts (pre ++ q :: post)
  = Raise (KeyError "creation_date").
Proof.
  induction pre as [|p pre IH]; simpl; intros counts H Hq.
  - unfold StartingFetchData.count_question. rewrite Hq. reflexivity.
  - apply andb_true_iff in H. destruct H as [Hp Hpre].
    destruct (starting_count_question_wf grain tag counts p Hp) as [c1 ->].
    simpl. auto.
Qed.

Section StartingRun.

Variable api : server.
Variable a : StartingFetchData.args.
Variable w : StartingFetchData.window.

Lemma starting_run_tag_ok tag st st' :
  StartingFetchData.run_tag api a w tag st = Ok st' ->
  StartingFetchData.count_all (StartingFetchData.grain a) tag
    (StartingFetchData.table st)
    (yielded
       (StartingFetchData.questions api a w tag
          (StartingFetchData.served st)))
  = Ok (StartingFetchData.table st')
  /\ StartingFetchData.served st'
     = requests
         (StartingFetchData.questions api a w tag
            (StartingFetchData.served st)).
Proof.
  unfold StartingFetchData.run_tag.
  destruct (StartingFetchData.count_all _ _ _ _) as [c|]; [|discriminate].
  simpl. destruct (stop _); try discriminate; intros [= <-]; auto.
Qed.

Lemma starting_run_tags_total ts : forall st st' tg,
  StartingFetchData.run_tags api a w ts st = Ok st' ->
  tag_total tg (StartingFetchData.table st')
  = tag_total tg (StartingFetchData.table st)
    + items_yielded (StartingFetchData.questions api a w) tg ts
        (StartingFetchData.served st).
Proof.
  induction ts as [|tag ts IH]; simpl; intros st st' tg H.
  - injection H as <-. lia.
  - destruct (StartingFetchData.run_tag api a w tag st) as [st1|] eqn:E;
      [|discriminate].
    simpl in H. apply IH with (tg := tg) in H. rewrite H.
    apply starting_run_tag_ok in E. destruct E as (Hc & ->).
    apply starting_count_all_done in Hc. destruct Hc as (Ht & _).
    rewrite Ht. lia.
Qed.

Lemma starting_run_tags_app ts1 ts2 st :
  StartingFetchData.run_tags api a w (ts1 ++ ts2) st
  = (st' <- StartingFetchData.run_tags api a w ts1 st ;;
     StartingFetchData.run_tags api a w ts2 st').
Proof.
  revert st. induction ts1 as [|tag ts1 IH]; simpl; intros st; [reflexivity|].
  destruct (StartingFetchData.run_tag api a w tag st); simpl; auto.
Qed.

End StartingRun.

(** C1. In a run that reaches the writing of the table, the counts of the
    keys of a tag add up to the number of items that the fetcher yielded
    for that tag; each yielded item adds one to the entry of its own key
    and to no other. It holds for both scripts. *)
Theorem counts_sum_to_yielded :
  (forall k k' t,
      get k' (incr k t) = get k' t + (if key_eqb k' k then 1 else 0))
  /\ (forall api a w st tg,
         FetchData.run_tags api a w (FetchData.tags a)
           (FetchData.mkstate [] [] 0) = Ok st ->
         tag_total tg (FetchData.table st)
         = items_yielded (FetchData.questions api a w) tg
             (FetchData.tags a) 0)
  /\ (forall api a w st tg,
         StartingFetchData.run_tags api a w (StartingFetchData.tags a)
           (StartingFetchData.mkstate [] [] 0) = Ok st ->
         tag_total tg (StartingFetchData.table st)
         = items_yielded (StartingFetchData.questions api a w) tg
             (StartingFetchData.tags a) 0).
Proof.
  split; [exact get_incr|]. split.
  - intros api a w st tg H.
    apply (run_tags_total api a w _ _ _ tg) in H. exact H.
  - intros api a w st tg H.
    apply (starting_run_tags_total api a w _ _ _ tg) in H. exact H.
Qed.

Lemma counts_sum_to_yielded_witness :
  FetchData.run_tags sample_server sample_args sample_window
    (FetchData.tags sample_args) (FetchData.mkstate [] [] 0)
  = Ok sample_final_state
  /\ tag_total "python" (FetchData.table sample_final_state) = 2
  /\ 2 = items_yielded
           (FetchData.questions sample_server sample_args sample_window)
           "python" (FetchData.tags sample_args) 0.
Proof.
  split; [reflexivity|]. split; [reflexivity|].
  apply (proj1 (proj2 counts_sum_to_yielded)
           sample_server sample_args sample_window sample_final_state
           "python"%string).
  reflexivity.
Defined.

(** ** A fatal error of the fetcher inside the run *)

Section FetchDataFatal.

Variable api : server.
Variable a : FetchData.args.
Variable w : FetchData.window.

Lemma run_tag_fatal tag st msg :
  let s := FetchData.questions api a w tag (FetchData.served st) in
  stop s = Raised (RuntimeError msg) ->
  forallb well_formed (yielded s) = true ->
  exists st',
    FetchData.run_tag api a w tag st = Ok st'
    /\ (forall tg,
           tag_total tg (FetchData.table st')
           = tag_total tg (FetchData.table st)
             + (if String.eqb tag tg
                then Z.of_nat (List.length (yielded s)) else 0))
    /\ (forall k, get k (FetchData.table st) <= get k (FetchData.table st'))
    /\ FetchData.stdout st'
       = (FetchData.stdout st
          ++ [FetchData.tag_line w tag; FetchData.error_line msg;
              FetchData.stopped_line tag
                (Z.of_nat (List.length (yielded s)))])%list
    /\ FetchData.served st' = requests s.
Proof.
  intros s Hstop Hwf.
  destruct (count_all_wf tag (yielded s)
              (FetchData.mktally (FetchData.table st) None 0) Hwf)
    as [t Hc].
  unfold FetchData.run_tag. fold s. rewrite Hc, Hstop.
  eexists. split; [reflexivity|].
  apply count_all_done in Hc. destruct Hc as (Ht & Hf & Hg).
  cbn [FetchData.table FetchData.stdout FetchData.served
       FetchData.counts FetchData.fetched] in *.
  repeat split; auto.
  rewrite Hf, <- app_assoc. reflexivity.
Qed.

Lemma run_tag_stdout tag st st' :
  FetchData.run_tag api a w tag st = Ok st' ->
  exists more,
    FetchData.stdout st' = (FetchData.stdout st ++ more)%list.
Proof.
  unfold FetchData.run_tag.
  destruct (FetchData.count_all _ _ _) as [t r].
  destruct r as [[]|]; try discriminate.
  - intros [= <-]. simpl. rewrite <- app_assoc. eauto.
  - destruct (stop _) as [| | |[]|]; try discriminate;
      intros [= <-]; simpl; rewrite <- app_assoc; eauto.
Qed.

Lemma run_tags_stdout ts : forall st st',
  FetchData.run_tags api a w ts st = Ok st' ->
  exists more,
    FetchData.stdout st' = (FetchData.stdout st ++ more)%list.
Proof.
  induction ts as [|tag ts IH]; simpl; intros st st' H.
  - injection H as <-. exists []. now rewrite app_nil_r.
  - destruct (FetchData.run_tag api a w tag st) as [st1|] eqn:E;
      [|discriminate].
    simpl in H. apply IH in H. destruct H as [m2 ->].
    apply run_tag_stdout in E. destruct E as [m1 ->].
    rewrite <- app_assoc. eauto.
Qed.

End FetchDataFatal.

Lemma main_completed api now a w fin :
  FetchData.query_window now (FetchData.months_from a)
    (FetchData.months_to a) = Ok w ->
  FetchData.run_tags api a w (FetchData.tags a) (FetchData.mkstate [] [] 0)
  = Ok fin ->
  FetchData.main api now a
  = Completed
      (write_csv (FetchData.out a) (sort_rows (rows_of (FetchData.table fin))))
      (FetchData.stdout fin
       ++ [FetchData.saved_line (FetchData.out a)
             (sort_rows (rows_of (FetchData.table fin)))]).
Proof.
  intros Hw Hr. unfold FetchData.main. rewrite Hw, Hr. reflexivity.
Qed.

Lemma counted_key_written k t :
  get k t <> 0 ->
  In (mkrow (fst k) (snd k) (get k t)) (sort_rows (rows_of t)).
Proof.
  intros H. apply (Permutation_in _ (Permutation_sym (sort_rows_perm _))).
  unfold rows_of.
  change (mkrow (fst k) (snd k) (get k t))
    with ((fun e : count_key * Z => mkrow (fst (fst e)) (snd (fst e)) (snd e))
            (k, get k t)).
  apply in_map. now apply get_in.
Qed.

Lemma starting_count_all_wf grain tag qs : forall counts,
  forallb well_formed qs = true ->
  exists counts', StartingFetchData.count_all grain tag counts qs = Ok counts'.
Proof.
  induction qs as [|q qs IH]; simpl; intros counts H; [eauto|].
  apply andb_true_iff in H. destruct H as [Hq Hqs].
  destruct (starting_count_question_wf grain tag counts q Hq) as [c1 ->].
  simpl. auto.
Qed.

(** C2, as it holds. In [fetch_data.py], when the fetcher stops with its
    fatal error ([RuntimeError]) while a tag is collected, the tag is left
    normally: the items yielded before the error stay counted, the error
    and the number fetched are printed, and the loop goes on with the
    remaining tags. If these are completed, the run writes the table: the
    output holds the two printed lines, no count has decreased, every key
    counted so far has its row, and the counts of the remaining tags add
    up to all the items yielded for them. In [starting_fetch_data.py] the
    fetcher raises no fatal error: when it returns on a status other than
    200, the items yielded before stay counted, the lines of the fetcher
    are the only ones printed and the loop goes on with the remaining
    tags. *)
Theorem fatal_error_does_not_abort :
  (forall api now a w before tag rest st msg,
      let init := FetchData.mkstate [] [] 0 in
      let s := FetchData.questions api a w tag (FetchData.served st) in
      FetchData.query_window now (FetchData.months_from a)
        (FetchData.months_to a) = Ok w ->
      FetchData.tags a = (before ++ tag :: rest)%list ->
      FetchData.run_tags api a w before init = Ok st ->
      stop s = Raised (RuntimeError msg) ->
      forallb well_formed (yielded s) = true ->
      exists st',
        FetchData.run_tag api a w tag st = Ok st'
        /\ (forall tg,
               tag_total tg (FetchData.table st')
               = tag_total tg (FetchData.table st)
                 + (if String.eqb tag tg
                    then Z.of_nat (List.length (yielded s)) else 0))
        /\ FetchData.stdout st'
           = (FetchData.stdout st
              ++ [FetchData.tag_line w tag; FetchData.error_line msg;
                  FetchData.stopped_line tag
                    (Z.of_nat (List.length (yielded s)))])%list
        /\ FetchData.run_tags api a w (FetchData.tags a) init
           = FetchData.run_tags api a w rest st'
        /\ forall fin,
             FetchData.run_tags api a w rest st' = Ok fin ->
             (exists out,
                 FetchData.main api now a
                 = Completed
                     (write_csv (FetchData.out a)
                        (sort_rows (rows_of (FetchData.table fin)))) out
                 /\ In (FetchData.error_line msg) out
                 /\ In (FetchData.stopped_line tag
                          (Z.of_nat (List.length (yielded s)))) out)
             /\ (forall k,
                    get k (FetchData.table st')
                    <= get k (FetchData.table fin))
             /\ (forall k,
                    get k (FetchData.table st') <> 0 ->
                    In (mkrow (fst k) (snd k) (get k (FetchData.table fin)))
                      (sort_rows (rows_of (FetchData.table fin))))
             /\ (forall tg,
                    tag_total tg (FetchData.table fin)
                    = tag_total tg (FetchData.table st')
                      + items_yielded (FetchData.questions api a w) tg rest
                          (FetchData.served st')))
  /\ (forall api a w tag rest st,
         let s :=
           StartingFetchData.questions api a w tag
             (StartingFetchData.served st) in
         stop s = Returned ->
         forallb well_formed (yielded s) = true ->
         exists st',
           StartingFetchData.run_tag api a w tag st = Ok st'
           /\ (forall tg,
                  tag_total tg (StartingFetchData.table st')
                  = tag_total tg (StartingFetchData.table st)
                    + (if String.eqb tag tg
                       then Z.of_nat (List.length (yielded s)) else 0))
           /\ StartingFetchData.stdout st'
              = (StartingFetchData.stdout st ++ printed s)%list
           /\ StartingFetchData.run_tags api a w (tag :: rest) st
              = StartingFetchData.run_tags api a w rest st').
Proof.
  split.
  - intros api now a w before tag rest st msg init s Hw Htags Hbefore Hstop
      Hwf.
    subst init.
    destruct (run_tag_fatal api a w tag st msg Hstop Hwf)
      as (st' & Hrun & Htot & Hmono & Hout & Hserved).
    exists st'. split; [exact Hrun|]. split; [exact Htot|].
    split; [exact Hout|].
    assert (Hpre : FetchData.run_tags api a w (before ++ [tag])%list
                     (FetchData.mkstate [] [] 0) = Ok st').
    { rewrite run_tags_app, Hbefore. simpl. rewrite Hrun. reflexivity. }
    assert (Hall : FetchData.run_tags api a w (FetchData.tags a)
                     (FetchData.mkstate [] [] 0)
                   = FetchData.run_tags api a w rest st').
    { rewrite Htags, run_tags_app, Hbefore. simpl. rewrite Hrun.
      reflexivity. }
    split; [exact Hall|].
    intros fin Hfin. rewrite Hfin in Hall.
    pose proof (run_tags_mono api a w rest st' fin) as Hm.
    split; [|split; [|split]].
    + eexists. split; [apply (main_completed api now a w fin Hw Hall)|].
      destruct (run_tags_stdout api a w rest st' fin Hfin) as [more ->].
      rewrite Hout. split; apply in_or_app; left; apply in_or_app; left;
        apply in_or_app; right; simpl; auto.
    + intros k. now apply Hm.
    + intros k Hk. apply counted_key_written.
      specialize (Hm k Hfin).
      pose proof (run_tags_mono api a w _ _ _ k Hpre) as H0.
      simpl in H0. lia.
    + intros tg. now apply run_tags_total.
  - intros api a w tag rest st s Hstop Hwf.
    destruct (starting_count_all_wf (StartingFetchData.grain a) tag
                (yielded s) (StartingFetchData.table st) Hwf) as [c Hc].
    assert (Hrun : StartingFetchData.run_tag api a w tag st
                   = Ok (StartingFetchData.mkstate c
                           (StartingFetchData.stdout st ++ printed s)
                           (requests s))).
    { unfold StartingFetchData.run_tag. fold s. rewrite Hc. simpl.
      rewrite Hstop. reflexivity. }
    eexists. split; [exact Hrun|]. simpl.
    apply starting_count_all_done in Hc. destruct Hc as (Ht & _).
    repeat split; auto. rewrite Hrun. reflexivity.
Qed.

Lemma fatal_error_does_not_abort_witness :
  exists st',
    FetchData.run_tag sample_server sample_args sample_window "python"
      (FetchData.mkstate [] [] 0) = Ok st'
    /\ FetchData.table st'
       = [(("2024-03-01", "python"), 1); (("2024-03-02", "python"), 1)]%string
    /\ FetchData.run_tags sample_server sample_args sample_window
         (FetchData.tags sample_args) (FetchData.mkstate [] [] 0)
       = FetchData.run_tags sample_server sample_args sample_window
           ["java"%string] st'.
Proof.
  destruct (proj1 fatal_error_does_not_abort
              sample_server sample_now sample_args
              sample_window [] "python"%string ["java"%string]
              (FetchData.mkstate [] [] 0)
              "HTTP 500 | tag=python | page=2 | body=internal error"%string
              eq_refl eq_refl eq_refl eq_refl eq_refl)
    as (st' & Hrun & _ & _ & Hall & _).
  exists st'. split; [exact Hrun|]. split; [|exact Hall].
  vm_compute in Hrun. injection Hrun as <-. reflexivity.
Defined.

(** C2, as stated, fails on [starting_fetch_data.py]: when the second page
    of the first tag comes back with status 500, the run goes on and
    writes the counts, and prints the status and the body, but no line
    gives the number of items counted for the tag. *)
Lemma starting_run_prints_no_partial_count :
  StartingFetchData.main sample_server sample_now sample_starting_args
  = Completed
      (mkcsv "data/questions_count.csv"
         ["date"; "tag"; "questions_count"]%string
         [mkrow "2024-03-01" "java" 1; mkrow "2024-03-01" "python" 1;
          mkrow "2024-03-02" "python" 1])
      ["HTTP 500"; "internal error";
       ("Saved: data/questions_count.csv | rows: 3 | "
        ++ "period_utc: 2024-02-15..2024-06-15 | grain: day")]%string.
Proof. reflexivity. Qed.

(** ** The fetcher *)

Section FetchDataFetcher.

Variable api : server.
Variables (tag : string) (fromdate todate pagesize max_pages : Z).

(** The fuel of [fetch_questions] is never used up. *)
Lemma fetch_from_fuel fuel : forall page n,
  max_pages - page + 1 <= Z.of_nat fuel ->
  stop (FetchData.fetch_from api tag fromdate todate pagesize max_pages
          fuel page n) <> OutOfFuel.
Proof.
  induction fuel as [|fuel IH]; intros page n H; simpl.
  - destruct (page <=? max_pages) eqn:E; [|simpl; discriminate].
    apply Z.leb_le in E. simpl in H. lia.
  - destruct (page <=? max_pages) eqn:E; [|simpl; discriminate].
    destruct (api n _) as [r|]; [|simpl; discriminate].
    destruct (negb _); [simpl; discriminate|].
    destruct (json r) as [p|]; [|simpl; discriminate].
    destruct (match quota_remaining p with
              | Some q => q =? 0
              | None => false
              end);
      [simpl; discriminate|].
    destruct (negb (has_more p)); [simpl; discriminate|].
    simpl. apply IH. lia.
Qed.

Lemma fetch_questions_fuel n :
  stop (FetchData.fetch_questions api tag fromdate todate pagesize max_pages n)
  <> OutOfFuel.
Proof.
  unfold FetchData.fetch_questions. apply fetch_from_fuel. lia.
Qed.

(** A page that is accepted: its items come first, the rest of the stream
    follows. *)
Lemma fetch_from_page fuel page n r p :
  page <= max_pages ->
  api n (FetchData.params tag fromdate todate pagesize page) = Resp r ->
  status_code r = 200 ->
  json r = Some p ->
  quota_remaining p <> Some 0 ->
  exists pause,
    FetchData.fetch_from api tag fromdate todate pagesize max_pages
      (S fuel) page n
    = page_then pause (items p)
        (if has_more p
         then FetchData.fetch_from api tag fromdate todate pagesize max_pages
                fuel (page + 1) (S n)
         else halt Exhausted (S n)).
Proof.
  intros Hp Hr Hs Hj Hq. simpl.
  apply Z.leb_le in Hp. rewrite Hp, Hr, Hs, Hj. simpl.
  destruct (quota_remaining p) as [q|].
  - destruct (q =? 0) eqn:E; [apply Z.eqb_eq in E; congruence|].
    destruct (has_more p); simpl; eauto.
  - destruct (has_more p); simpl; eauto.
Qed.

End FetchDataFetcher.

Section StartingFetcher.

Variable api : server.
Variables (tag : string) (fromdate todate pagesize max_pages : Z).

Lemma starting_fetch_from_fuel fuel : forall page n,
  max_pages - page + 1 <= Z.of_nat fuel ->
  stop (StartingFetchData.fetch_from api tag fromdate todate pagesize
          max_pages fuel page n) <> OutOfFuel.
Proof.
  induction fuel as [|fuel IH]; intros page n H; simpl.
  - destruct (page <=? max_pages) eqn:E; [|simpl; discriminate].
    apply Z.leb_le in E. simpl in H. lia.
  - destruct (page <=? max_pages) eqn:E; [|simpl; discriminate].
    destruct (api n _) as [r|]; [|simpl; discriminate].
    destruct (negb _); [simpl; discriminate|].
    destruct (json r) as [p|]; [|simpl; discriminate].
    destruct (backoff p) as [b|].
    + destruct (b <? 0); [simpl; discriminate|].
      destruct (negb (has_more p)); [simpl; discriminate|].
      simpl. apply IH. lia.
    + destruct (negb (has_more p)); [simpl; discriminate|].
      simpl. apply IH. lia.
Qed.

Lemma starting_fetch_questions_fuel n :
  stop (StartingFetchData.fetch_questions api tag fromdate todate pagesize
          max_pages n) <> OutOfFuel.
Proof.
  unfold StartingFetchData.fetch_questions. apply starting_fetch_from_fuel.
  lia.
Qed.

End StartingFetcher.

(** C3, as it holds. In [fetch_data.py], at every page of the loop, a
    response whose status is not 200 ends the stream at once with the
    fatal error that carries the status and the first 1500 characters of
    the body, and a response with [quota_remaining] equal to 0 ends it at
    once with the fatal error of the quota; nothing of the page is
    yielded. In [starting_fetch_data.py] a status other than 200 prints the
    status and the first 2000 characters of the body and ends the stream
    by a plain [return], nothing of the page being yielded. *)
Theorem failed_page_ends_stream :
  (forall api tag fromdate todate pagesize max_pages fuel page n r,
      page <= max_pages ->
      api n (FetchData.params tag fromdate todate pagesize page) = Resp r ->
      (status_code r <> 200 ->
       FetchData.fetch_from api tag fromdate todate pagesize max_pages
         (S fuel) page n
       = mkstream []
           (Raised
              (RuntimeError
                 ("HTTP " ++ str_of_Z (status_code r) ++ " | tag=" ++ tag
                  ++ " | page=" ++ str_of_Z page ++ " | body="
                  ++ substring 0 1500 (text r))%string))
           (S n) 0 [])
      /\ (forall p,
             status_code r = 200 -> json r = Some p ->
             quota_remaining p = Some 0 ->
             FetchData.fetch_from api tag fromdate todate pagesize max_pages
               (S fuel) page n
             = mkstream []
                 (Raised
                    (RuntimeError
                       ("Quota exhausted (quota_remaining=0) | tag=" ++ tag
                        ++ " | page=" ++ str_of_Z page)%string))
                 (S n) 0 []))
  /\ (forall api tag fromdate todate pagesize max_pages fuel page n r,
         page <= max_pages ->
         api n (StartingFetchData.params tag fromdate todate pagesize page)
         = Resp r ->
         status_code r <> 200 ->
         StartingFetchData.fetch_from api tag fromdate todate pagesize
           max_pages (S fuel) page n
         = mkstream [] Returned (S n) 0
             [("HTTP " ++ str_of_Z (status_code r))%string;
              substring 0 2000 (text r)]).
Proof.
  split.
  - intros api tag fd td ps mp fuel page n r Hp Hr. split.
    + intros Hs. simpl. apply Z.leb_le in Hp. rewrite Hp, Hr.
      apply Z.eqb_neq in Hs. rewrite Hs. reflexivity.
    + intros p Hs Hj Hq. simpl. apply Z.leb_le in Hp.
      rewrite Hp, Hr, Hs, Hj, Hq. reflexivity.
  - intros api tag fd td ps mp fuel page n r Hp Hr Hs. simpl.
    apply Z.leb_le in Hp. rewrite Hp, Hr.
    apply Z.eqb_neq in Hs. rewrite Hs. reflexivity.
Qed.

Lemma failed_page_ends_stream_witness :
  FetchData.fetch_from sample_server "python" 1707955200 1718496000 100 50
    (S 48) 2 1
  = mkstream []
      (Raised
         (RuntimeError
            "HTTP 500 | tag=python | page=2 | body=internal error"))
      2 0 [].
Proof.
  apply (proj1 (proj1 failed_page_ends_stream sample_server "python"%string
                  1707955200 1718496000 100 50 48%nat 2 1%nat
                  (mkresponse 500 "internal error" None)
                  ltac:(lia) eq_refl)).
  discriminate.
Defined.

(** C3, as stated, fails on [starting_fetch_data.py]: a response with
    status 500 ends its stream without an error, and a page with
    [quota_remaining] equal to 0 has its item yielded. *)
Lemma starting_fetcher_raises_no_fatal_error :
  stop (StartingFetchData.fetch_questions failing_server "python"
          1707993000 1718447400 100 50 0) = Returned
  /\ FetchData.fetch_questions quota_server "python"
       1707955200 1718496000 100 50 0
     = mkstream []
         (Raised
            (RuntimeError
               "Quota exhausted (quota_remaining=0) | tag=python | page=1"))
         1 0 []
  /\ StartingFetchData.fetch_questions quota_server "python"
       1707993000 1718447400 100 50 0
     = mkstream [mkitem (Some 1709251200)] Exhausted 1 0 [].
Proof. repeat split. Qed.

(** C10. When the fetcher yields an item without ["creation_date"], the
    [KeyError] of the loop body leaves the iteration of its tag, which in
    [fetch_data.py] catches [RuntimeError] only and in
    [starting_fetch_data.py] catches nothing, and ends the process: no
    table is written, neither for the remaining tags nor for the tags
    already counted. *)
Theorem missing_creation_date_aborts :
  (forall api now a w before tag rest st pre q post,
      FetchData.query_window now (FetchData.months_from a)
        (FetchData.months_to a) = Ok w ->
      FetchData.tags a = (before ++ tag :: rest)%list ->
      FetchData.run_tags api a w before (FetchData.mkstate [] [] 0) = Ok st ->
      yielded (FetchData.questions api a w tag (FetchData.served st))
      = (pre ++ q :: post)%list ->
      forallb well_formed pre = true ->
      creation_date q = None ->
      FetchData.run_tag api a w tag st = Raise (KeyError "creation_date")
      /\ FetchData.main api now a = Crashed (KeyError "creation_date"))
  /\ (forall api now a w before tag rest st pre q post,
         StartingFetchData.query_window now = Ok w ->
         StartingFetchData.tags a = (before ++ tag :: rest)%list ->
         StartingFetchData.run_tags api a w before
           (StartingFetchData.mkstate [] [] 0) = Ok st ->
         yielded (StartingFetchData.questions api a w tag
                    (StartingFetchData.served st))
         = (pre ++ q :: post)%list ->
         forallb well_formed pre = true ->
         creation_date q = None ->
         StartingFetchData.run_tag api a w tag st
         = Raise (KeyError "creation_date")
         /\ StartingFetchData.main api now a
            = Crashed (KeyError "creation_date")).
Proof.
  split.
  - intros api now a w before tag rest st pre q post Hw Ht Hb Hy Hpre Hq.
    assert (Hrun : FetchData.run_tag api a w tag st
                   = Raise (KeyError "creation_date")).
    { unfold FetchData.run_tag. rewrite Hy.
      destruct (count_all_missing tag pre q post
                  (FetchData.mktally (FetchData.table st) None 0) Hpre Hq)
        as [t ->]. reflexivity. }
    split; [exact Hrun|].
    unfold FetchData.main. rewrite Hw, Ht, run_tags_app, Hb. simpl.
    rewrite Hrun. reflexivity.
  - intros api now a w before tag rest st pre q post Hw Ht Hb Hy Hpre Hq.
    assert (Hrun : StartingFetchData.run_tag api a w tag st
                   = Raise (KeyError "creation_date")).
    { unfold StartingFetchData.run_tag. rewrite Hy.
      rewrite (starting_count_all_missing _ tag pre q post _ Hpre Hq).
      reflexivity. }
    split; [exact Hrun|].
    unfold StartingFetchData.main.
    rewrite Hw, Ht, starting_run_tags_app, Hb. simpl.
    rewrite Hrun. reflexivity.
Qed.

Lemma missing_creation_date_aborts_witness :
  FetchData.run_tag malformed_server sample_args sample_window "python"
    (FetchData.mkstate [] [] 0) = Raise (KeyError "creation_date")
  /\ FetchData.main malformed_server sample_now sample_args
     = Crashed (KeyError "creation_date").
Proof.
  apply (proj1 missing_creation_date_aborts malformed_server sample_now
           sample_args sample_window [] "python"%string ["java"%string]
           (FetchData.mkstate [] [] 0)
           [mkitem (Some 1709251200)] (mkitem None)
           [mkitem (Some 1709337600)]); reflexivity.
Defined.

Example sample_run :
  exists out,
    FetchData.main sample_server sample_now sample_args
    = Completed
        (mkcsv "data/questions_by_date.csv"
           ["date"; "tag"; "questions_count"]%string
           [mkrow "2024-03-01" "java" 1; mkrow "2024-03-01" "python" 1;
            mkrow "2024-03-02" "python" 1]) out.
Proof. eexists. vm_compute. reflexivity. Qed.

(** * Further properties of the scripts *)

(** ** The order of the keys of the days *)

Lemma range_table (P : Z -> bool) bound :
  forallb (fun k => P (Z.of_nat k)) (seq 0 (Z.to_nat bound)) = true ->
  forall n, 0 <= n < bound -> P n = true.
Proof.
  intros T n H. rewrite forallb_forall in T.
  specialize (T (Z.to_nat n)). rewrite Z2Nat.id in T by lia.
  apply T. apply in_seq. lia.
Qed.

Lemma zero_pad_fixed4 n : 0 <= n < 10000 -> zero_pad 4 n = fixed4 n.
Proof.
  intros H. apply String.eqb_eq.
  apply (range_table (fun k => String.eqb (zero_pad 4 k) (fixed4 k)) 10000);
    [vm_compute; reflexivity|exact H].
Qed.

Lemma zero_pad_fixed2 n : 0 <= n < 100 -> zero_pad 2 n = fixed2 n.
Proof.
  intros H. apply String.eqb_eq.
  apply (range_table (fun k => String.eqb (zero_pad 2 k) (fixed2 k)) 100);
    [vm_compute; reflexivity|exact H].
Qed.

Lemma digit_compare a b :
  0 <= a <= 9 -> 0 <= b <= 9 ->
  Ascii.compare (digit_of a) (digit_of b) = (a ?= b).
Proof.
  intros Ha Hb.
  assert (T : forall k, 0 <= k < 10 ->
              (N_of_ascii (digit_of k) =? 48 + Z.to_N k)%N = true).
  { apply (range_table
             (fun k => (N_of_ascii (digit_of k) =? 48 + Z.to_N k)%N) 10).
    vm_compute. reflexivity. }
  unfold Ascii.compare.
  rewrite (proj1 (N.eqb_eq _ _) (T a ltac:(lia))).
  rewrite (proj1 (N.eqb_eq _ _) (T b ltac:(lia))).
  rewrite <- N2Z.inj_compare, !N2Z.inj_add, !Z2N.id by lia.
  apply Z.add_compare_mono_l.
Qed.

Lemma cmp_eq_iff a b : (a ?= b) = Eq <-> a = b.
Proof. apply Z.compare_eq_iff. Qed.

Ltac digits_compare :=
  repeat match goal with
         | |- context [Ascii.compare (digit_of ?a) (digit_of ?b)] =>
             rewrite (digit_compare a b)
               by (Z.to_euclidean_division_equations; lia);
             let E := fresh "E" in
             destruct (Z.compare_spec a b) as [E|E|E]
         end.

Lemma fixed4_compare a b :
  0 <= a < 10000 -> 0 <= b < 10000 ->
  String.compare (fixed4 a) (fixed4 b) = (a ?= b).
Proof.
  intros Ha Hb. unfold fixed4. cbn [String.compare].
  digits_compare; symmetry;
    first [apply Z.compare_eq_iff | apply Z.compare_lt_iff
          | apply Z.compare_gt_iff];
    Z.to_euclidean_division_equations; lia.
Qed.

Lemma fixed2_compare a b :
  0 <= a < 100 -> 0 <= b < 100 ->
  String.compare (fixed2 a) (fixed2 b) = (a ?= b).
Proof.
  intros Ha Hb. unfold fixed2. cbn [String.compare].
  digits_compare; symmetry;
    first [apply Z.compare_eq_iff | apply Z.compare_lt_iff
          | apply Z.compare_gt_iff];
    Z.to_euclidean_division_equations; lia.
Qed.

Lemma compare_app a : forall b x y,
  String.length a = String.length b ->
  String.compare (a ++ x) (b ++ y)
  = match String.compare a b with
    | Eq => String.compare x y
    | c => c
    end.
Proof.
  induction a as [|c a IH]; intros [|c' b] x y H; try discriminate.
  - reflexivity.
  - simpl in *. destruct (Ascii.compare c c'); auto.
Qed.

(** The ISO forms of two valid dates compare as the dates do. *)
Lemma isoformat_compare d1 d2 :
  valid_date d1 = true -> valid_date d2 = true ->
  String.compare (isoformat d1) (isoformat d2)
  = (toordinal d1 ?= toordinal d2).
Proof.
  intros V1 V2.
  pose proof V1 as W1. pose proof V2 as W2.
  apply valid_date_iff in W1, W2.
  destruct W1 as (Hy1 & Hm1 & Hd1), W2 as (Hy2 & Hm2 & Hd2).
  pose proof (days_in_month_bounds (d_year d1) (d_month d1)).
  pose proof (days_in_month_bounds (d_year d2) (d_month d2)).
  unfold isoformat.
  rewrite !zero_pad_fixed4, !zero_pad_fixed2 by lia.
  rewrite compare_app, fixed4_compare by (reflexivity || lia).
  rewrite (compare_app "-" "-") by reflexivity.
  change (String.compare "-" "-") with Eq. cbv iota.
  rewrite compare_app, fixed2_compare by (reflexivity || lia).
  rewrite (compare_app "-" "-") by reflexivity.
  change (String.compare "-" "-") with Eq. cbv iota.
  rewrite fixed2_compare by lia.
  symmetry.
  destruct (Z.compare_spec (d_year d1) (d_year d2)) as [Ey|Ey|Ey].
  - destruct (Z.compare_spec (d_month d1) (d_month d2)) as [Em|Em|Em].
    + unfold toordinal. rewrite Ey, Em.
      rewrite !Z.add_compare_mono_l. reflexivity.
    + apply Z.compare_lt_iff. apply toordinal_month_lt; auto. lia.
    + apply Z.compare_gt_iff. apply toordinal_month_lt; auto. lia.
  - apply Z.compare_lt_iff. apply toordinal_month_lt; auto. lia.
  - apply Z.compare_gt_iff. apply toordinal_month_lt; auto. lia.
Qed.

Lemma fromtimestamp_ok ts c :
  fromtimestamp ts = Ok c ->
  c = mkdatetime (fromordinal (ts / 86400 + EPOCH_ORDINAL))
        (ts mod 86400 / 3600) (ts mod 86400 mod 3600 / 60)
        (ts mod 86400 mod 60) 0
  /\ toordinal (dt_date c) = ts / 86400 + EPOCH_ORDINAL
  /\ valid_date (dt_date c) = true.
Proof.
  intros H. pose proof (fromtimestamp_valid _ _ H) as V.
  unfold fromtimestamp in H. destruct (_ && _) eqn:R; [|discriminate].
  injection H as <-. split; [reflexivity|]. split; [|exact V].
  simpl. apply toordinal_fromordinal.
  apply andb_true_iff in R. rewrite !Z.leb_le in R. lia.
Qed.

(** X1. The day keys of two creation timestamps compare, as strings, the
    way the UTC days of the timestamps compare: the same day gives the
    same key, an earlier day a smaller key. It holds for [day_bucket] of
    [fetch_data.py] and for [bucket_date] with the grain [day]. *)
Theorem day_keys_compare_as_days :
  (forall ts1 ts2 c1 c2,
      fromtimestamp ts1 = Ok c1 -> fromtimestamp ts2 = Ok c2 ->
      String.compare (FetchData.day_bucket c1) (FetchData.day_bucket c2)
      = (ts1 / 86400 ?= ts2 / 86400))
  /\ (forall ts1 ts2 c1 c2 k1 k2,
         fromtimestamp ts1 = Ok c1 -> fromtimestamp ts2 = Ok c2 ->
         StartingFetchData.bucket_date c1 "day" = Ok k1 ->
         StartingFetchData.bucket_date c2 "day" = Ok k2 ->
         String.compare k1 k2 = (ts1 / 86400 ?= ts2 / 86400)).
Proof.
  assert (G : forall ts1 ts2 c1 c2,
             fromtimestamp ts1 = Ok c1 -> fromtimestamp ts2 = Ok c2 ->
             String.compare (isoformat (dt_date c1)) (isoformat (dt_date c2))
             = (ts1 / 86400 ?= ts2 / 86400)).
  { intros ts1 ts2 c1 c2 H1 H2.
    apply fromtimestamp_ok in H1, H2.
    destruct H1 as (_ & O1 & V1), H2 as (_ & O2 & V2).
    rewrite isoformat_compare, O1, O2 by assumption.
    rewrite !(Z.add_comm _ EPOCH_ORDINAL). apply Z.add_compare_mono_l. }
  split.
  - exact G.
  - intros ts1 ts2 c1 c2 k1 k2 H1 H2 B1 B2.
    unfold StartingFetchData.bucket_date in B1, B2. simpl in B1, B2.
    injection B1 as <-. injection B2 as <-. now apply G.
Qed.

Lemma day_keys_compare_as_days_witness :
  String.compare
    (FetchData.day_bucket (mkdatetime (mkdate 2024 2 29) 23 59 59 0))
    (FetchData.day_bucket (mkdatetime (mkdate 2024 3 1) 0 0 0 0))
  = (1709251199 / 86400 ?= 1709251200 / 86400).
Proof.
  apply (proj1 day_keys_compare_as_days 1709251199 1709251200);
    reflexivity.
Defined.

(** X2. With the week grain the keys of two creation timestamps compare,
    as strings, the way their weeks compare, a week running from Monday to
    Sunday: day [d] since the epoch lies in week [(d + 3) / 7]. *)
Theorem week_keys_compare_as_weeks ts1 ts2 c1 c2 k1 k2 :
  fromtimestamp ts1 = Ok c1 -> fromtimestamp ts2 = Ok c2 ->
  StartingFetchData.bucket_date c1 "week" = Ok k1 ->
  StartingFetchData.bucket_date c2 "week" = Ok k2 ->
  String.compare k1 k2
  = ((ts1 / 86400 + 3) / 7 ?= (ts2 / 86400 + 3) / 7).
Proof.
  intros H1 H2 B1 B2.
  apply fromtimestamp_ok in H1, H2.
  destruct H1 as (_ & O1 & V1), H2 as (_ & O2 & V2).
  destruct (week_start_ok _ V1) as [E1 R1].
  destruct (week_start_ok _ V2) as [E2 R2].
  unfold StartingFetchData.bucket_date in B1, B2.
  simpl String.eqb in B1, B2. cbv iota in B1, B2.
  rewrite E1 in B1. rewrite E2 in B2. simpl in B1, B2.
  injection B1 as <-. injection B2 as <-.
  rewrite isoformat_compare by (apply fromordinal_valid; assumption).
  rewrite !toordinal_fromordinal by lia.
  unfold weekday, EPOCH_ORDINAL in *. rewrite O1, O2.
  destruct (Z.compare_spec ((ts1 / 86400 + 3) / 7) ((ts2 / 86400 + 3) / 7));
    [apply Z.compare_eq_iff|apply Z.compare_lt_iff|apply Z.compare_gt_iff];
    Z.to_euclidean_division_equations; lia.
Qed.

Lemma week_keys_compare_as_weeks_witness :
  String.compare "2024-02-26" "2024-03-04"
  = ((1709424000 / 86400 + 3) / 7 ?= (1709510400 / 86400 + 3) / 7).
Proof.
  apply (week_keys_compare_as_weeks 1709424000 1709510400
           (mkdatetime (mkdate 2024 3 3) 0 0 0 0)
           (mkdatetime (mkdate 2024 3 4) 0 0 0 0));
    reflexivity.
Defined.

Lemma isoformat_leb d1 d2 :
  valid_date d1 = true -> valid_date d2 = true ->
  (String.leb (isoformat d1) (isoformat d2) = true
   <-> toordinal d1 <= toordinal d2).
Proof.
  intros V1 V2. unfold String.leb. rewrite isoformat_compare by assumption.
  destruct (Z.compare_spec (toordinal d1) (toordinal d2));
    split; intros; try lia; try reflexivity; discriminate.
Qed.

(** X3. [to_unix] inverts [fromtimestamp]: the creation time built from an
    integer timestamp converts back to that timestamp, in both scripts. In
    the other direction a valid UTC time comes back from its [to_unix]
    value with the same date, hour, minute and second and without
    microseconds when it has no microseconds, or when it is not before the
    epoch and less than [2 ** 34] seconds after it (until the year 2514):
    there the float that [timestamp] returns still holds enough of the
    fraction for [int] to drop exactly the microseconds. *)
Theorem to_unix_round_trip :
  (forall ts c,
      fromtimestamp ts = Ok c ->
      FetchData.to_unix c = ts /\ StartingFetchData.to_unix c = ts)
  /\ (forall d,
         valid_datetime d = true ->
         dt_microsecond d = 0
         \/ (0 <= micros_since_epoch d
             /\ micros_since_epoch d / 1000000 < 2 ^ 34) ->
         fromtimestamp (FetchData.to_unix d)
         = Ok (mkdatetime (dt_date d) (dt_hour d) (dt_minute d)
                 (dt_second d) 0)).
Proof.
  split.
  - intros ts c H. pose proof H as H'.
    apply fromtimestamp_ok in H'. destruct H' as (E & O & _).
    assert (G : int_timestamp c = ts); [|split; exact G].
    unfold int_timestamp, micros_since_epoch. rewrite O. rewrite E. simpl.
    rewrite Z.add_0_r.
    replace ((ts / 86400 + EPOCH_ORDINAL - EPOCH_ORDINAL) * 86400
             + ts mod 86400 / 3600 * 3600
             + ts mod 86400 mod 3600 / 60 * 60 + ts mod 86400 mod 60)
      with ts by (Z.to_euclidean_division_equations; lia).
    apply int_true_div_exact; [lia|].
    assert (P : 1 <= ts / 86400 + EPOCH_ORDINAL <= MAXORDINAL).
    { rewrite <- O. apply toordinal_range.
      apply fromtimestamp_valid in H. unfold valid_datetime in H.
      destruct (valid_date (dt_date c)); [reflexivity|discriminate H]. }
    unfold MAXORDINAL, EPOCH_ORDINAL in P.
    change (2 ^ 53) with 9007199254740992.
    Z.to_euclidean_division_equations. lia.
  - intros d V Hus.
    unfold valid_datetime, valid_time in V.
    rewrite !andb_true_iff, !Z.leb_le in V.
    destruct V as (Vd & ((((((H0 & H1) & M0) & M1) & S0) & S1) & U0) & U1).
    pose proof (toordinal_range _ Vd) as R.
    set (secs := (toordinal (dt_date d) - EPOCH_ORDINAL) * 86400
                 + dt_hour d * 3600 + dt_minute d * 60 + dt_second d).
    assert (G : FetchData.to_unix d = secs).
    { unfold FetchData.to_unix, int_timestamp, micros_since_epoch.
      fold secs. destruct Hus as [Hus|Hus].
      - rewrite Hus, Z.add_0_r. apply int_true_div_exact; [lia|].
        unfold MAXORDINAL, EPOCH_ORDINAL in *.
        change (2 ^ 53) with 9007199254740992. lia.
      - unfold micros_since_epoch in Hus. fold secs in Hus.
        destruct Hus as [Hn Hb].
        rewrite int_true_div_fine by assumption.
        Z.to_euclidean_division_equations. lia. }
    rewrite G. unfold fromtimestamp.
    assert (D : secs / 86400 = toordinal (dt_date d) - EPOCH_ORDINAL)
      by (subst secs; Z.to_euclidean_division_equations; lia).
    assert (Rm : secs mod 86400
                 = dt_hour d * 3600 + dt_minute d * 60 + dt_second d)
      by (subst secs; Z.to_euclidean_division_equations; lia).
    rewrite D, Rm.
    replace (toordinal (dt_date d) - EPOCH_ORDINAL + EPOCH_ORDINAL)
      with (toordinal (dt_date d)) by lia.
    rewrite fromordinal_toordinal by exact Vd.
    destruct (_ && _) eqn:B.
    + f_equal. f_equal; Z.to_euclidean_division_equations; lia.
    + apply andb_false_iff in B. rewrite !Z.leb_gt in B. lia.
Qed.

Lemma to_unix_round_trip_witness :
  FetchData.to_unix (mkdatetime (mkdate 2024 3 1) 0 1 0 0) = 1709251260
  /\ StartingFetchData.to_unix (mkdatetime (mkdate 2024 3 1) 0 1 0 0)
     = 1709251260.
Proof.
  apply (proj1 to_unix_round_trip 1709251260). reflexivity.
Defined.

(** Before the epoch a time with microseconds comes back one second
    later: [int] truncates its negative timestamp towards zero. *)
Example to_unix_before_epoch :
  FetchData.to_unix (mkdatetime (mkdate 1969 12 31) 23 59 59 500000) = 0
  /\ fromtimestamp 0 = Ok (mkdatetime (mkdate 1970 1 1) 0 0 0 0).
Proof. split; reflexivity. Qed.

(** Far after the epoch too: the float nearest to 32503680000.999999 is
    32503680001.0, so that the last microsecond of the first second of the
    year 3000 comes back as the next second. *)
Example to_unix_year_3000 :
  FetchData.to_unix (mkdatetime (mkdate 3000 1 1) 0 0 0 999999)
  = 32503680001
  /\ fromtimestamp 32503680001
     = Ok (mkdatetime (mkdate 3000 1 1) 0 0 1 0).
Proof. split; vm_compute; reflexivity. Qed.

(** X4. In [fetch_data.py] a creation timestamp lies inside the queried
    bounds exactly when its day key lies, as a string, between the start
    date and the end date that the run prints as its period, both
    included. *)
Theorem window_holds_its_days now months_from months_to w ts c :
  FetchData.query_window now months_from months_to = Ok w ->
  fromtimestamp ts = Ok c ->
  (FetchData.w_fromdate w <= ts < FetchData.w_todate w
   <-> String.leb (isoformat (dt_date (FetchData.start_dt w)))
         (FetchData.day_bucket c) = true
       /\ String.leb (FetchData.day_bucket c)
            (isoformat (dt_date (FetchData.end_dt w))) = true).
Proof.
  intros Hw Hc. apply query_window_ok in Hw.
  destruct Hw as (s & e & Hs & He & -> & -> & -> & ->).
  apply fromtimestamp_ok in Hc. destruct Hc as (_ & O & V).
  pose proof (month_delta_valid _ _ _ Hs) as Vs.
  pose proof (month_delta_valid _ _ _ He) as Ve.
  unfold FetchData.day_bucket. simpl dt_date.
  rewrite !isoformat_leb by assumption. rewrite O.
  unfold EPOCH_ORDINAL. Z.to_euclidean_division_equations. lia.
Qed.

Lemma window_holds_its_days_witness :
  FetchData.w_fromdate sample_window <= 1718495999
  < FetchData.w_todate sample_window
  <-> String.leb "2024-02-15" "2024-06-15" = true
      /\ String.leb "2024-06-15" "2024-06-15" = true.
Proof.
  apply (window_holds_its_days sample_now 6 2 sample_window 1718495999
           (mkdatetime (mkdate 2024 6 15) 23 59 59 0)); reflexivity.
Defined.



(** X6. Shifts compose on the month: shifting a valid time by [a] months
    and the result by [b] months reaches the year and month of the shift
    by [a + b], which then succeeds too; the day of the two steps is never
    after the day of the single shift, as the intermediate month may clamp
    it. A shift by 0 months returns the time unchanged. *)
Theorem month_delta_composes
  (shift : datetime -> Z -> result datetime) (d : datetime) :
  shift = FetchData.month_delta \/ shift = StartingFetchData.month_delta ->
  valid_datetime d = true ->
  shift d 0 = Ok d
  /\ forall a b d1 d2,
       shift d a = Ok d1 -> shift d1 b = Ok d2 ->
       exists d3,
         shift d (a + b) = Ok d3
         /\ d_year (dt_date d2) = d_year (dt_date d3)
         /\ d_month (dt_date d2) = d_month (dt_date d3)
         /\ d_day (dt_date d2) <= d_day (dt_date d3).
Proof.
  rewrite month_delta_same. intros S V.
  assert (shift = FetchData.month_delta) by tauto. subst shift. clear S.
  pose proof V as V0. unfold valid_datetime in V0.
  apply andb_true_iff in V0. destruct V0 as [Vd _].
  apply valid_date_iff in Vd.
  split.
  - destruct (month_delta_defined d 0 V) as [d' H].
    { Z.to_euclidean_division_equations. lia. }
    rewrite H. f_equal.
    apply month_delta_ok in H. cbv zeta in H. destruct H as [-> _].
    destruct d as [[y m dd] h mi s us]. simpl in *.
    replace (y + (m - 1 + 0) / 12) with y
      by (Z.to_euclidean_division_equations; lia).
    replace ((m - 1 + 0) mod 12 + 1) with m
      by (Z.to_euclidean_division_equations; lia).
    rewrite Z.min_l by lia. reflexivity.
  - intros a b d1 d2 H1 H2.
    pose proof (month_delta_index _ _ _ H1) as I1.
    pose proof (month_delta_index _ _ _ H2) as I2.
    pose proof (month_delta_valid _ _ _ H2) as V2.
    apply valid_date_iff in V2.
    apply month_delta_ok in H1, H2. cbv zeta in H1, H2.
    destruct H1 as [E1 V1], H2 as [E2 _].
    assert (Hy : d_year (dt_date d)
                 + (d_month (dt_date d) - 1 + (a + b)) / 12
                 = d_year (dt_date d2)).
    { rewrite E2 in *. simpl in *. rewrite E1 in *. simpl in *.
      Z.to_euclidean_division_equations. lia. }
    assert (Hm : (d_month (dt_date d) - 1 + (a + b)) mod 12 + 1
                 = d_month (dt_date d2)).
    { rewrite E2 in *. simpl in *. rewrite E1 in *. simpl in *.
      Z.to_euclidean_division_equations. lia. }
    destruct (month_delta_defined d (a + b) V) as [d3 H3]; [lia|].
    exists d3. split; [exact H3|].
    apply month_delta_ok in H3. cbv zeta in H3. destruct H3 as [E3 _].
    rewrite Hy, Hm in E3. rewrite E3. simpl.
    split; [reflexivity|]. split; [reflexivity|].
    rewrite E2 at 1. simpl. rewrite E1. simpl.
    rewrite E2 at 1 2. simpl. rewrite E1. simpl. lia.
Qed.

Lemma month_delta_composes_witness :
  exists d3,
    FetchData.month_delta (mkdatetime (mkdate 2024 1 31) 10 30 0 0) (1 + 1)
    = Ok d3
    /\ 2024 = d_year (dt_date d3)
    /\ 3 = d_month (dt_date d3)
    /\ 29 <= d_day (dt_date d3).
Proof.
  apply (proj2 (month_delta_composes FetchData.month_delta
                  (mkdatetime (mkdate 2024 1 31) 10 30 0 0)
                  (or_introl eq_refl) eq_refl)
           1 1 (mkdatetime (mkdate 2024 2 29) 10 30 0 0)
           (mkdatetime (mkdate 2024 3 29) 10 30 0 0));
    reflexivity.
Defined.

(** ** The fetcher over several pages *)

Lemma page_then_twice b1 i1 b2 i2 rest :
  page_then b1 i1 (page_then b2 i2 rest)
  = page_then (b1 + b2) (i1 ++ i2) rest.
Proof.
  unfold page_then. simpl. rewrite app_assoc, Z.add_assoc. reflexivity.
Qed.

Lemma serves_tail api params n page p ps :
  serves api params n page (p :: ps) ->
  (exists body, api n (params page) = Resp (mkresponse 200 body (Some p)))
  /\ serves api params (S n) (page + 1) ps.
Proof.
  intros H. split.
  - destruct (H 0%nat p eq_refl) as [body E]. exists body.
    rewrite Nat.add_0_r, Z.add_0_r in E. exact E.
  - intros i q Hq. destruct (H (S i) q Hq) as [body E]. exists body.
    rewrite Nat2Z.inj_succ in E.
    replace (page + 1 + Z.of_nat i) with (page + Z.succ (Z.of_nat i)) by lia.
    replace (S n + i)%nat with (n + S i)%nat by lia. exact E.
Qed.

Section FetchDataPages.

Variable api : server.
Variables (tag : string) (fromdate todate pagesize max_pages : Z).

(** Pages that are accepted and announce more: their items come in order
    and the loop goes on behind them. *)
Lemma fetch_from_pages ps : forall fuel page n,
  serves api (FetchData.params tag fromdate todate pagesize) n page ps ->
  Forall (fun p => quota_remaining p <> Some 0) ps ->
  Forall (fun p => has_more p = true) ps ->
  page + Z.of_nat (List.length ps) - 1 <= max_pages ->
  FetchData.fetch_from api tag fromdate todate pagesize max_pages
    (List.length ps + fuel) page n
  = page_then (total (map pause_of ps)) (flat_map items ps)
      (FetchData.fetch_from api tag fromdate todate pagesize max_pages
         fuel (page + Z.of_nat (List.length ps))
         (n + List.length ps)).
Proof.
  induction ps as [|p ps IH]; intros fuel page n Hs Hq Hm Hp.
  - simpl. rewrite Z.add_0_r, Nat.add_0_r.
    destruct (FetchData.fetch_from _ _ _ _ _ _ _ _ _). reflexivity.
  - apply serves_tail in Hs. destruct Hs as [[body E] Hs].
    inversion Hq as [|? ? Hq1 Hq2]; subst.
    inversion Hm as [|? ? Hm1 Hm2]; subst.
    cbn [List.length] in *. rewrite Nat2Z.inj_succ in *.
    change (S (List.length ps) + fuel)%nat
      with (S (List.length ps + fuel)).
    cbn [FetchData.fetch_from].
    replace (page <=? max_pages) with true by (symmetry; apply Z.leb_le; lia).
    rewrite E. cbn [status_code json negb Z.eqb Pos.eqb].
    assert (Q : match quota_remaining p with
                | Some q => q =? 0
                | None => false
                end = false).
    { destruct (quota_remaining p) as [q|]; [|reflexivity].
      apply Z.eqb_neq. congruence. }
    rewrite Q, Hm1. cbn [negb].
    rewrite IH by (auto; lia).
    rewrite page_then_twice. cbn [map total fold_right flat_map].
    fold (total (map pause_of ps)). unfold pause_of at 2.
    replace (page + 1 + Z.of_nat (List.length ps))
      with (page + Z.succ (Z.of_nat (List.length ps))) by lia.
    replace (S n + List.length ps)%nat
      with (n + S (List.length ps))%nat by lia.
    destruct (backoff p); reflexivity.
Qed.

End FetchDataPages.

Section FetchDataStream.

Variable api : server.
Variables (tag : string) (fromdate todate pagesize max_pages : Z).

Lemma fetch_from_last_page fuel page n p :
  page <= max_pages ->
  (exists body,
      api n (FetchData.params tag fromdate todate pagesize page)
      = Resp (mkresponse 200 body (Some p))) ->
  quota_remaining p <> Some 0 ->
  has_more p = false ->
  FetchData.fetch_from api tag fromdate todate pagesize max_pages
    (S fuel) page n
  = mkstream (items p) Exhausted (S n) (pause_of p) [].
Proof.
  intros Hp [body E] Hq Hm. cbn [FetchData.fetch_from].
  replace (page <=? max_pages) with true by (symmetry; apply Z.leb_le; lia).
  rewrite E. cbn [status_code json negb Z.eqb Pos.eqb].
  assert (Q : match quota_remaining p with
              | Some q => q =? 0
              | None => false
              end = false).
  { destruct (quota_remaining p) as [q|]; [|reflexivity].
    apply Z.eqb_neq. congruence. }
  rewrite Q, Hm. cbn [negb]. unfold page_then, halt, pause_of. simpl.
  rewrite app_nil_r, Z.add_0_r. destruct (backoff p); reflexivity.
Qed.

End FetchDataStream.

(** X7. When the server accepts every page (status 200, a payload, a
    quota that is not 0), the fetcher of [fetch_data.py] asks for the
    pages 1, 2, ... in this order, one request each, and yields all their
    items in the order of the pages. It stops behind the first page
    without [has_more], or, when all of [max_pages] pages announce more,
    behind page [max_pages], and it has slept the positive [backoff]
    values of the pages. *)
Theorem fetch_questions_yields_all_pages :
  (forall api tag fromdate todate pagesize max_pages n before last,
      serves api (FetchData.params tag fromdate todate pagesize) n 1
        (before ++ [last]) ->
      Forall (fun p => quota_remaining p <> Some 0) (before ++ [last]) ->
      Forall (fun p => has_more p = true) before ->
      has_more last = false ->
      Z.of_nat (List.length before) + 1 <= max_pages ->
      FetchData.fetch_questions api tag fromdate todate pagesize max_pages n
      = mkstream (flat_map items (before ++ [last])) Exhausted
          (n + List.length before + 1)
          (total (map pause_of (before ++ [last]))) [])
  /\ (forall api tag fromdate todate pagesize max_pages n ps,
         serves api (FetchData.params tag fromdate todate pagesize) n 1 ps ->
         Forall (fun p => quota_remaining p <> Some 0) ps ->
         Forall (fun p => has_more p = true) ps ->
         Z.of_nat (List.length ps) = max_pages ->
         FetchData.fetch_questions api tag fromdate todate pagesize
           max_pages n
         = mkstream (flat_map items ps) PageCap (n + List.length ps)
             (total (map pause_of ps)) []).
Proof.
  split.
  - intros api tag fd td psz mp n before last Hs Hq Hm Hl Hp.
    unfold FetchData.fetch_questions.
    replace (Z.to_nat mp)
      with (List.length before
            + S (Z.to_nat mp - List.length before - 1))%nat by lia.
    apply Forall_app in Hq. destruct Hq as [Hq1 Hq2].
    inversion Hq2 as [|? ? Hq3 _]; subst.
    rewrite (fetch_from_pages api tag fd td psz mp before).
    + rewrite (fetch_from_last_page api tag fd td psz mp _ _ _ last);
        try assumption; [|lia|].
      * unfold page_then. simpl.
        rewrite flat_map_app, map_app. simpl. rewrite app_nil_r.
        f_equal; [lia|].
        unfold total. rewrite !fold_right_app. simpl.
        generalize (map pause_of before) as l. intros l.
        induction l as [|x l IH]; simpl; lia.
      * destruct (Hs (List.length before) last) as [body E].
        { rewrite nth_error_app2, Nat.sub_diag by lia. reflexivity. }
        exists body. exact E.
    + intros i p Hi. apply Hs. rewrite nth_error_app1; [exact Hi|].
      apply nth_error_Some. congruence.
    + exact Hq1.
    + exact Hm.
    + lia.
  - intros api tag fd td psz mp n ps Hs Hq Hm Hp.
    unfold FetchData.fetch_questions.
    replace (Z.to_nat mp) with (List.length ps + 0)%nat by lia.
    rewrite (fetch_from_pages api tag fd td psz mp ps) by (auto; lia).
    assert (E : FetchData.fetch_from api tag fd td psz mp 0
                  (1 + Z.of_nat (List.length ps)) (n + List.length ps)
                = halt PageCap (n + List.length ps)).
    { cbn [FetchData.fetch_from].
      replace (_ <=? mp) with false; [reflexivity|].
      symmetry. apply Z.leb_gt. lia. }
    rewrite E. unfold page_then, halt. simpl.
    rewrite app_nil_r, Z.add_0_r. reflexivity.
Qed.

Lemma fetch_questions_yields_all_pages_witness :
  FetchData.fetch_questions paged_server "python" 1707955200 1718496000
    100 50 0
  = mkstream
      [mkitem (Some 1709251200); mkitem (Some 1709337600);
       mkitem (Some 1709424000)]
      Exhausted 2 2 [].
Proof.
  apply (proj1 fetch_questions_yields_all_pages paged_server
           "python"%string 1707955200 1718496000 100 50 0%nat
           [mkpayload (Some 9000) (Some 2)
              [mkitem (Some 1709251200); mkitem (Some 1709337600)] true]
           (mkpayload (Some 8999) None [mkitem (Some 1709424000)] false)).
  - intros [|[|[|i]]] p H; simpl in H; try discriminate;
      injection H as <-; eexists; reflexivity.
  - repeat constructor; discriminate.
  - repeat constructor.
  - reflexivity.
  - simpl. lia.
Defined.

Section StartingPages.

Variable api : server.
Variables (tag : string) (fromdate todate pagesize max_pages : Z).

Lemma starting_fetch_from_pages ps : forall fuel page n,
  serves api (StartingFetchData.params tag fromdate todate pagesize) n page
    ps ->
  Forall (fun p => 0 <= starting_pause_of p) ps ->
  Forall (fun p => has_more p = true) ps ->
  page + Z.of_nat (List.length ps) - 1 <= max_pages ->
  StartingFetchData.fetch_from api tag fromdate todate pagesize max_pages
    (List.length ps + fuel) page n
  = page_then (total (map starting_pause_of ps)) (flat_map items ps)
      (StartingFetchData.fetch_from api tag fromdate todate pagesize
         max_pages fuel (page + Z.of_nat (List.length ps))
         (n + List.length ps)).
Proof.
  induction ps as [|p ps IH]; intros fuel page n Hs Hb Hm Hp.
  - simpl. rewrite Z.add_0_r, Nat.add_0_r.
    destruct (StartingFetchData.fetch_from _ _ _ _ _ _ _ _ _). reflexivity.
  - apply serves_tail in Hs. destruct Hs as [[body E] Hs].
    inversion Hb as [|? ? Hb1 Hb2]; subst.
    inversion Hm as [|? ? Hm1 Hm2]; subst.
    cbn [List.length] in *. rewrite Nat2Z.inj_succ in *.
    change (S (List.length ps) + fuel)%nat
      with (S (List.length ps + fuel)).
    cbn [StartingFetchData.fetch_from].
    replace (page <=? max_pages) with true by (symmetry; apply Z.leb_le; lia).
    rewrite E. cbn [status_code json negb Z.eqb Pos.eqb].
    assert (T : total (map starting_pause_of (p :: ps))
                = starting_pause_of p + total (map starting_pause_of ps))
      by reflexivity.
    rewrite T. cbn [flat_map].
    unfold starting_pause_of in Hb1 |- * at 1.
    destruct (backoff p) as [b|].
    + replace (b <? 0) with false by (symmetry; apply Z.ltb_ge; lia).
      rewrite Hm1. cbn [negb].
      rewrite IH by (auto; lia). rewrite page_then_twice.
      replace (page + 1 + Z.of_nat (List.length ps))
        with (page + Z.succ (Z.of_nat (List.length ps))) by lia.
      replace (S n + List.length ps)%nat
        with (n + S (List.length ps))%nat by lia.
      reflexivity.
    + rewrite Hm1. cbn [negb].
      rewrite IH by (auto; lia). rewrite page_then_twice.
      replace (page + 1 + Z.of_nat (List.length ps))
        with (page + Z.succ (Z.of_nat (List.length ps))) by lia.
      replace (S n + List.length ps)%nat
        with (n + S (List.length ps))%nat by lia.
      reflexivity.
Qed.

Lemma starting_fetch_from_last_page fuel page n p :
  page <= max_pages ->
  (exists body,
      api n (StartingFetchData.params tag fromdate todate pagesize page)
      = Resp (mkresponse 200 body (Some p))) ->
  0 <= starting_pause_of p ->
  has_more p = false ->
  StartingFetchData.fetch_from api tag fromdate todate pagesize max_pages
    (S fuel) page n
  = mkstream (items p) Exhausted (S n) (starting_pause_of p) [].
Proof.
  intros Hp [body E] Hb Hm. cbn [StartingFetchData.fetch_from].
  replace (page <=? max_pages) with true by (symmetry; apply Z.leb_le; lia).
  rewrite E. cbn [status_code json negb Z.eqb Pos.eqb].
  rewrite Hm. cbn [negb]. unfold page_then, halt. simpl.
  rewrite app_nil_r. unfold starting_pause_of in *.
  destruct (backoff p) as [b|]; [|reflexivity].
  replace (b <? 0) with false by (symmetry; apply Z.ltb_ge; lia).
  rewrite Z.add_0_r. reflexivity.
Qed.

End StartingPages.

(** X8. When the server answers every page with status 200 and a payload
    whose [backoff], if any, is not negative, the fetcher of
    [starting_fetch_data.py] yields all the items of the pages
    1, 2, ... in order, up to the first page without [has_more] or up to
    page [max_pages], whatever [quota_remaining] says; it sleeps every
    [backoff] and prints nothing. *)
Theorem starting_fetch_questions_yields_all_pages :
  (forall api tag fromdate todate pagesize max_pages n before last,
      serves api (StartingFetchData.params tag fromdate todate pagesize) n 1
        (before ++ [last]) ->
      Forall (fun p => 0 <= starting_pause_of p) (before ++ [last]) ->
      Forall (fun p => has_more p = true) before ->
      has_more last = false ->
      Z.of_nat (List.length before) + 1 <= max_pages ->
      StartingFetchData.fetch_questions api tag fromdate todate pagesize
        max_pages n
      = mkstream (flat_map items (before ++ [last])) Exhausted
          (n + List.length before + 1)
          (total (map starting_pause_of (before ++ [last]))) [])
  /\ (forall api tag fromdate todate pagesize max_pages n ps,
         serves api (StartingFetchData.params tag fromdate todate pagesize)
           n 1 ps ->
         Forall (fun p => 0 <= starting_pause_of p) ps ->
         Forall (fun p => has_more p = true) ps ->
         Z.of_nat (List.length ps) = max_pages ->
         StartingFetchData.fetch_questions api tag fromdate todate pagesize
           max_pages n
         = mkstream (flat_map items ps) PageCap (n + List.length ps)
             (total (map starting_pause_of ps)) []).
Proof.
  split.
  - intros api tag fd td psz mp n before last Hs Hb Hm Hl Hp.
    unfold StartingFetchData.fetch_questions.
    replace (Z.to_nat mp)
      with (List.length before
            + S (Z.to_nat mp - List.length before - 1))%nat by lia.
    apply Forall_app in Hb. destruct Hb as [Hb1 Hb2].
    inversion Hb2 as [|? ? Hb3 _]; subst.
    rewrite (starting_fetch_from_pages api tag fd td psz mp before).
    + rewrite (starting_fetch_from_last_page api tag fd td psz mp _ _ _ last);
        try assumption; [|lia|].
      * unfold page_then. simpl.
        rewrite flat_map_app, map_app. simpl. rewrite app_nil_r.
        f_equal; [lia|].
        unfold total. rewrite !fold_right_app. simpl.
        generalize (map starting_pause_of before) as l. intros l.
        induction l as [|x l IH]; simpl; lia.
      * destruct (Hs (List.length before) last) as [body E].
        { rewrite nth_error_app2, Nat.sub_diag by lia. reflexivity. }
        exists body. exact E.
    + intros i p Hi. apply Hs. rewrite nth_error_app1; [exact Hi|].
      apply nth_error_Some. congruence.
    + exact Hb1.
    + exact Hm.
    + lia.
  - intros api tag fd td psz mp n ps Hs Hb Hm Hp.
    unfold StartingFetchData.fetch_questions.
    replace (Z.to_nat mp) with (List.length ps + 0)%nat by lia.
    rewrite (starting_fetch_from_pages api tag fd td psz mp ps)
      by (auto; lia).
    assert (E : StartingFetchData.fetch_from api tag fd td psz mp 0
                  (1 + Z.of_nat (List.length ps)) (n + List.length ps)
                = halt PageCap (n + List.length ps)).
    { cbn [StartingFetchData.fetch_from].
      replace (_ <=? mp) with false; [reflexivity|].
      symmetry. apply Z.leb_gt. lia. }
    rewrite E. unfold page_then, halt. simpl.
    rewrite app_nil_r, Z.add_0_r. reflexivity.
Qed.

Lemma starting_fetch_questions_yields_all_pages_witness :
  StartingFetchData.fetch_questions quota_server "python" 1707993000
    1718447400 100 50 0
  = mkstream [mkitem (Some 1709251200)] Exhausted 1 0 [].
Proof.
  apply (proj1 starting_fetch_questions_yields_all_pages quota_server
           "python"%string 1707993000 1718447400 100 50 0%nat []
           (mkpayload (Some 0) None [mkitem (Some 1709251200)] false)).
  - intros [|[|i]] p H; simpl in H; try discriminate;
      injection H as <-; eexists; reflexivity.
  - repeat constructor. unfold starting_pause_of. simpl. lia.
  - constructor.
  - reflexivity.
  - simpl. lia.
Defined.

(** ** The page cap *)

Section FetchDataCap.

Variable api : server.
Variables (tag : string) (fromdate todate pagesize max_pages : Z).

Lemma fetch_from_bounds fuel : forall page n,
  let s := FetchData.fetch_from api tag fromdate todate pagesize max_pages
             fuel page n in
  (n <= requests s <= n + fuel)%nat /\ 0 <= slept s /\ printed s = [].
Proof.
  induction fuel as [|fuel IH]; intros page n; cbn [FetchData.fetch_from].
  - destruct (page <=? max_pages); simpl; repeat split; lia.
  - destruct (page <=? max_pages); [|simpl; repeat split; lia].
    destruct (api n _) as [r|]; [|simpl; repeat split; lia].
    destruct (negb _); [simpl; repeat split; lia|].
    destruct (json r) as [p|]; [|simpl; repeat split; lia].
    destruct (match quota_remaining p with
              | Some q => q =? 0
              | None => false
              end); [simpl; repeat split; lia|].
    assert (P : 0 <= (if 0 <? match backoff p with
                               | Some b => b
                               | None => 0
                               end
                      then match backoff p with
                           | Some b => b
                           | None => 0
                           end
                      else 0)).
    { destruct (0 <? _) eqn:E; [apply Z.ltb_lt in E|]; lia. }
    destruct (negb (has_more p)).
    + simpl. repeat split; lia.
    + specialize (IH (page + 1) (S n)). cbv zeta in IH.
      destruct IH as ((A & B) & C & D).
      unfold page_then. cbn [yielded stop requests slept printed].
      repeat split; try lia. exact D.
Qed.

End FetchDataCap.

Section StartingCap.

Variable api : server.
Variables (tag : string) (fromdate todate pagesize max_pages : Z).

Lemma starting_fetch_from_bounds fuel : forall page n,
  let s := StartingFetchData.fetch_from api tag fromdate todate pagesize
             max_pages fuel page n in
  (n <= requests s <= n + fuel)%nat /\ 0 <= slept s.
Proof.
  induction fuel as [|fuel IH]; intros page n;
    cbn [StartingFetchData.fetch_from].
  - destruct (page <=? max_pages); simpl; repeat split; lia.
  - destruct (page <=? max_pages); [|simpl; repeat split; lia].
    destruct (api n _) as [r|]; [|simpl; repeat split; lia].
    destruct (negb _); [simpl; repeat split; lia|].
    destruct (json r) as [p|]; [|simpl; repeat split; lia].
    specialize (IH (page + 1) (S n)). cbv zeta in IH.
    destruct IH as ((A & B) & C).
    destruct (backoff p) as [b|].
    + destruct (b <? 0) eqn:E; [simpl; repeat split; lia|].
      apply Z.ltb_ge in E.
      destruct (negb (has_more p)); unfold page_then;
        cbn [yielded stop requests slept printed halt];
        repeat split; lia.
    + destruct (negb (has_more p)); unfold page_then;
        cbn [yielded stop requests slept printed halt];
        repeat split; lia.
Qed.

End StartingCap.

(** X9. The fetcher of either script sends at most [max_pages] requests,
    never sleeps a negative time in total, and ends in one of the ways of
    its source; with [max_pages] at 0 or below it sends no request and
    yields nothing. The fetcher of [fetch_data.py] prints nothing. *)
Theorem fetcher_keeps_the_page_cap :
  (forall api tag fromdate todate pagesize max_pages n,
      let s := FetchData.fetch_questions api tag fromdate todate pagesize
                 max_pages n in
      (n <= requests s <= n + Z.to_nat max_pages)%nat
      /\ 0 <= slept s /\ printed s = [] /\ stop s <> OutOfFuel
      /\ (max_pages <= 0 -> s = mkstream [] PageCap n 0 []))
  /\ (forall api tag fromdate todate pagesize max_pages n,
         let s := StartingFetchData.fetch_questions api tag fromdate todate
                    pagesize max_pages n in
         (n <= requests s <= n + Z.to_nat max_pages)%nat
         /\ 0 <= slept s /\ stop s <> OutOfFuel
         /\ (max_pages <= 0 -> s = mkstream [] PageCap n 0 [])).
Proof.
  split.
  - intros api tag fd td psz mp n s.
    destruct (fetch_from_bounds api tag fd td psz mp (Z.to_nat mp) 1 n)
      as (A & B & C).
    split; [exact A|]. split; [exact B|]. split; [exact C|].
    split; [apply fetch_questions_fuel|].
    intros H. unfold s, FetchData.fetch_questions.
    replace (Z.to_nat mp) with 0%nat by lia. cbn [FetchData.fetch_from].
    replace (1 <=? mp) with false by (symmetry; apply Z.leb_gt; lia).
    reflexivity.
  - intros api tag fd td psz mp n s.
    destruct (starting_fetch_from_bounds api tag fd td psz mp
                (Z.to_nat mp) 1 n) as (A & B).
    split; [exact A|]. split; [exact B|].
    split; [apply starting_fetch_questions_fuel|].
    intros H. unfold s, StartingFetchData.fetch_questions.
    replace (Z.to_nat mp) with 0%nat by lia.
    cbn [StartingFetchData.fetch_from].
    replace (1 <=? mp) with false by (symmetry; apply Z.leb_gt; lia).
    reflexivity.
Qed.

Lemma fetcher_keeps_the_page_cap_witness :
  FetchData.fetch_questions sample_server "python" 1707955200 1718496000
    100 0 0
  = mkstream [] PageCap 0 0 [].
Proof.
  destruct (proj1 fetcher_keeps_the_page_cap sample_server "python"%string
              1707955200 1718496000 100 0 0%nat) as (_ & _ & _ & _ & H).
  apply H. lia.
Defined.

(** X10. An exception of the fetcher that is not its [RuntimeError], such
    as a failed request or a body that does not decode, is not caught by
    [fetch_data.py]: it ends the run without a table, also for the tags
    already counted. [starting_fetch_data.py] is ended by every exception
    of its fetcher. *)
Theorem other_errors_end_the_run :
  (forall api now a w before tag rest st e,
      let s := FetchData.questions api a w tag (FetchData.served st) in
      FetchData.query_window now (FetchData.months_from a)
        (FetchData.months_to a) = Ok w ->
      FetchData.tags a = (before ++ tag :: rest)%list ->
      FetchData.run_tags api a w before (FetchData.mkstate [] [] 0) = Ok st ->
      stop s = Raised e ->
      (forall msg, e <> RuntimeError msg) ->
      forallb well_formed (yielded s) = true ->
      FetchData.main api now a = Crashed e)
  /\ (forall api now a w before tag rest st e,
         let s :=
           StartingFetchData.questions api a w tag
             (StartingFetchData.served st) in
         StartingFetchData.query_window now = Ok w ->
         StartingFetchData.tags a = (before ++ tag :: rest)%list ->
         StartingFetchData.run_tags api a w before
           (StartingFetchData.mkstate [] [] 0) = Ok st ->
         stop s = Raised e ->
         forallb well_formed (yielded s) = true ->
         StartingFetchData.main api now a = Crashed e).
Proof.
  split.
  - intros api now a w before tag rest st e s Hw Ht Hb Hs He Hwf.
    assert (Hrun : FetchData.run_tag api a w tag st = Raise e).
    { unfold FetchData.run_tag. fold s.
      destruct (count_all_wf tag (yielded s)
                  (FetchData.mktally (FetchData.table st) None 0) Hwf)
        as [t ->].
      rewrite Hs. destruct e; try reflexivity.
      exfalso. eapply He. reflexivity. }
    unfold FetchData.main. rewrite Hw, Ht, run_tags_app, Hb. simpl.
    rewrite Hrun. reflexivity.
  - intros api now a w before tag rest st e s Hw Ht Hb Hs Hwf.
    assert (Hrun : StartingFetchData.run_tag api a w tag st = Raise e).
    { unfold StartingFetchData.run_tag. fold s.
      destruct (starting_count_all_wf (StartingFetchData.grain a) tag
                  (yielded s) (StartingFetchData.table st) Hwf) as [c ->].
      simpl. rewrite Hs. reflexivity. }
    unfold StartingFetchData.main.
    rewrite Hw, Ht, starting_run_tags_app, Hb. simpl.
    rewrite Hrun. reflexivity.
Qed.

Lemma other_errors_end_the_run_witness :
  FetchData.main sample_server sample_now sample_args3
  = Crashed RequestException.
Proof.
  apply (proj1 other_errors_end_the_run sample_server sample_now
           sample_args3 sample_window ["python"; "java"]%string
           "go"%string [] sample_final_state RequestException);
    try reflexivity.
  discriminate.
Defined.

(** ** The rows of the table *)

Lemma incr_keys k t :
  map fst (incr k t)
  = if existsb (key_eqb k) (map fst t) then map fst t
    else (map fst t ++ [k])%list.
Proof.
  induction t as [|[k0 v] t IH]; simpl; [reflexivity|].
  destruct (key_eqb k k0); simpl; [reflexivity|].
  rewrite IH. destruct (existsb _ _); reflexivity.
Qed.

Lemma incr_ok k t : table_ok t -> table_ok (incr k t).
Proof.
  intros [Hn Hf]. split.
  - rewrite incr_keys. destruct (existsb _ _) eqn:E; [exact Hn|].
    apply NoDup_app; [exact Hn|repeat constructor; auto|].
    intros x Hx [Ex|[]]. subst x.
    assert (existsb (key_eqb k) (map fst t) = true); [|congruence].
    apply existsb_exists. exists k. split; [exact Hx|apply key_eqb_refl].
  - clear Hn. induction Hf as [|[k0 v] t Hv Hf IH]; simpl.
    + repeat constructor. simpl. lia.
    + simpl in Hv. destruct (key_eqb k k0); constructor; auto; simpl; lia.
Qed.

Lemma get_of_in t : forall k v,
  NoDup (map fst t) -> In (k, v) t -> get k t = v.
Proof.
  induction t as [|[k0 v0] t IH]; intros k v Hn Hi; [destruct Hi|].
  simpl in *. inversion Hn as [|? ? Hx Hn']; subst.
  destruct Hi as [[= -> ->]|Hi].
  - now rewrite key_eqb_refl.
  - destruct (key_eqb k k0) eqn:E; [|now apply IH].
    apply key_eqb_eq in E. subst k0. exfalso. apply Hx.
    change k with (fst (k, v)). now apply in_map.
Qed.

Lemma rows_keys t : map sort_key (rows_of t) = map fst t.
Proof.
  unfold rows_of. rewrite map_map. apply map_ext.
  intros [[d tg] c]. reflexivity.
Qed.

Lemma row_in_rows d tg c t :
  In (mkrow d tg c) (sort_rows (rows_of t)) <-> In ((d, tg), c) t.
Proof.
  split.
  - intros H. apply (Permutation_in _ (sort_rows_perm _)) in H.
    unfold rows_of in H. apply in_map_iff in H.
    destruct H as ([[d' tg'] c'] & [= -> -> ->] & H). exact H.
  - intros H.
    apply (Permutation_in _ (Permutation_sym (sort_rows_perm _))).
    unfold rows_of.
    change (mkrow d tg c)
      with ((fun e : count_key * Z =>
               mkrow (fst (fst e)) (snd (fst e)) (snd e)) ((d, tg), c)).
    now apply in_map.
Qed.

(** The rows written from a good table: distinct keys, and one row for
    each key with its count. *)
Lemma rows_of_table t :
  table_ok t ->
  NoDup (map sort_key (sort_rows (rows_of t)))
  /\ forall d tg c,
       In (mkrow d tg c) (sort_rows (rows_of t))
       <-> 1 <= c /\ c = get (d, tg) t.
Proof.
  intros [Hn Hf]. split.
  - apply (Permutation_NoDup
             (Permutation_map sort_key
                (Permutation_sym (sort_rows_perm (rows_of t))))).
    now rewrite rows_keys.
  - intros d tg c. rewrite row_in_rows. split.
    + intros H. split.
      * rewrite Forall_forall in Hf. apply (Hf _ H).
      * symmetry. now apply get_of_in.
    + intros [Hc ->]. apply get_in. lia.
Qed.

Lemma count_all_get tag qs : forall t t',
  FetchData.count_all tag t qs = (t', None) ->
  (table_ok (FetchData.counts t) -> table_ok (FetchData.counts t'))
  /\ forall k,
       get k (FetchData.counts t')
       = get k (FetchData.counts t)
         + (if String.eqb tag (snd k)
            then Z.of_nat
                   (List.length (List.filter (in_bucket day_of (fst k)) qs))
            else 0).
Proof.
  induction qs as [|q qs IH]; intros t t' H.
  - simpl in H. injection H as <-. split; [auto|]. intros k. simpl.
    destruct (String.eqb tag (snd k)); lia.
  - cbn [FetchData.count_all] in H.
    destruct (FetchData.count_question tag t q) as [t1|e1] eqn:E;
      [|discriminate].
    apply IH in H. destruct H as (Hok & Hg).
    apply count_question_inv in E. destruct E as (ts & c & Hq & Hc & ->).
    cbn [FetchData.counts] in *. split.
    + intros H. apply Hok. now apply incr_ok.
    + intros k. rewrite Hg, get_incr. cbn [List.filter].
      unfold in_bucket at 2, day_of. rewrite Hq, Hc.
      unfold key_eqb. cbn [fst snd].
      rewrite (String.eqb_sym (FetchData.day_bucket c) (fst k)).
      rewrite (String.eqb_sym tag (snd k)).
      destruct (String.eqb (fst k) (FetchData.day_bucket c));
        destruct (String.eqb (snd k) tag); cbn [andb List.length];
        rewrite ?Nat2Z.inj_succ; lia.
Qed.

Lemma run_tags_get api a w ts : forall st st',
  FetchData.run_tags api a w ts st = Ok st' ->
  (table_ok (FetchData.table st) -> table_ok (FetchData.table st'))
  /\ forall k,
       get k (FetchData.table st')
       = get k (FetchData.table st)
         + items_in_bucket day_of (FetchData.questions api a w) k ts
             (FetchData.served st).
Proof.
  induction ts as [|tag ts IH]; simpl; intros st st' H.
  - injection H as <-. split; [auto|]. intros k. lia.
  - destruct (FetchData.run_tag api a w tag st) as [st1|] eqn:E;
      [|discriminate].
    simpl in H. apply IH in H. destruct H as (Hok & Hg).
    apply run_tag_ok in E. destruct E as (t & Hc & Et & Es).
    apply count_all_get in Hc. cbn [FetchData.counts] in Hc.
    destruct Hc as (Hok1 & Hg1). rewrite <- Et in *. split.
    + auto.
    + intros k. rewrite Hg, Hg1, Es. lia.
Qed.

Lemma starting_count_all_get grain tag qs : forall counts counts',
  StartingFetchData.count_all grain tag counts qs = Ok counts' ->
  (table_ok counts -> table_ok counts')
  /\ forall k,
       get k counts'
       = get k counts
         + (if String.eqb tag (snd k)
            then Z.of_nat
                   (List.length
                      (List.filter (in_bucket (bucket_of grain) (fst k)) qs))
            else 0).
Proof.
  induction qs as [|q qs IH]; intros counts counts' H.
  - simpl in H. injection H as <-. split; [auto|]. intros k. simpl.
    destruct (String.eqb tag (snd k)); lia.
  - cbn [StartingFetchData.count_all] in H.
    destruct (StartingFetchData.count_question grain tag counts q)
      as [c1|] eqn:E; [|discriminate].
    simpl in H. apply IH in H. destruct H as (Hok & Hg).
    unfold StartingFetchData.count_question in E.
    destruct (creation_date q) as [ts|] eqn:Hq; [|discriminate].
    destruct (fromtimestamp ts) as [c|] eqn:Hc; [|discriminate].
    simpl in E.
    destruct (StartingFetchData.bucket_date c grain) as [d|] eqn:Hd;
      [|discriminate].
    simpl in E. injection E as <-. split.
    + intros H. apply Hok. now apply incr_ok.
    + intros k. rewrite Hg, get_incr. cbn [List.filter].
      unfold in_bucket at 2, bucket_of. rewrite Hq, Hc, Hd.
      unfold key_eqb. cbn [fst snd].
      rewrite (String.eqb_sym d (fst k)).
      rewrite (String.eqb_sym tag (snd k)).
      destruct (String.eqb (fst k) d);
        destruct (String.eqb (snd k) tag); cbn [andb List.length];
        rewrite ?Nat2Z.inj_succ; lia.
Qed.

Lemma starting_run_tags_get api a w ts : forall st st',
  StartingFetchData.run_tags api a w ts st = Ok st' ->
  (table_ok (StartingFetchData.table st)
   -> table_ok (StartingFetchData.table st'))
  /\ forall k,
       get k (StartingFetchData.table st')
       = get k (StartingFetchData.table st)
         + items_in_bucket (bucket_of (StartingFetchData.grain a))
             (StartingFetchData.questions api a w) k ts
             (StartingFetchData.served st).
Proof.
  induction ts as [|tag ts IH]; simpl; intros st st' H.
  - injection H as <-. split; [auto|]. intros k. lia.
  - destruct (StartingFetchData.run_tag api a w tag st) as [st1|] eqn:E;
      [|discriminate].
    simpl in H. apply IH in H. destruct H as (Hok & Hg).
    apply starting_run_tag_ok in E. destruct E as (Hc & Es).
    apply starting_count_all_get in Hc. destruct Hc as (Hok1 & Hg1). split.
    + auto.
    + intros k. rewrite Hg, Hg1, Es. lia.
Qed.

Lemma empty_table_ok : table_ok [].
Proof. split; constructor. Qed.

(** X11. The table that a run writes is the histogram of the items: no
    two rows have the same date and tag, and a row (date, tag, count) is
    written exactly when count is at least 1 and is the number of items
    yielded for that tag whose bucket is that date. It holds for
    [fetch_data.py] with the day of the item and for
    [starting_fetch_data.py] with the bucket of the chosen grain. *)
Theorem written_rows_are_the_histogram :
  (forall api now a w file out,
      FetchData.query_window now (FetchData.months_from a)
        (FetchData.months_to a) = Ok w ->
      FetchData.main api now a = Completed file out ->
      NoDup (map sort_key (data file))
      /\ forall d tg c,
           In (mkrow d tg c) (data file)
           <-> 1 <= c
               /\ c = items_in_bucket day_of (FetchData.questions api a w)
                        (d, tg) (FetchData.tags a) 0)
  /\ (forall api now a w file out,
         StartingFetchData.query_window now = Ok w ->
         StartingFetchData.main api now a = Completed file out ->
         NoDup (map sort_key (data file))
         /\ forall d tg c,
              In (mkrow d tg c) (data file)
              <-> 1 <= c
                  /\ c = items_in_bucket
                           (bucket_of (StartingFetchData.grain a))
                           (StartingFetchData.questions api a w)
                           (d, tg) (StartingFetchData.tags a) 0).
Proof.
  split.
  - intros api now a w file out Hw. unfold FetchData.main. rewrite Hw.
    destruct (FetchData.run_tags _ _ _ _ _) as [st|] eqn:E; [|discriminate].
    intros [= <- _]. simpl.
    apply run_tags_get in E. destruct E as (Hok & Hg).
    destruct (rows_of_table _ (Hok empty_table_ok)) as (Hn & Hr).
    split; [exact Hn|]. intros d tg c. rewrite Hr, Hg. simpl. tauto.
  - intros api now a w file out Hw. unfold StartingFetchData.main.
    rewrite Hw.
    destruct (StartingFetchData.run_tags _ _ _ _ _) as [st|] eqn:E;
      [|discriminate].
    intros [= <- _]. simpl.
    apply starting_run_tags_get in E. destruct E as (Hok & Hg).
    destruct (rows_of_table _ (Hok empty_table_ok)) as (Hn & Hr).
    split; [exact Hn|]. intros d tg c. rewrite Hr, Hg. simpl. tauto.
Qed.

Lemma written_rows_are_the_histogram_witness :
  In (mkrow "2024-03-01" "python" 1)
    [mkrow "2024-03-01" "java" 1; mkrow "2024-03-01" "python" 1;
     mkrow "2024-03-02" "python" 1]
  <-> 1 <= 1
      /\ 1 = items_in_bucket day_of
               (FetchData.questions sample_server sample_args sample_window)
               ("2024-03-01", "python")%string (FetchData.tags sample_args)
               0.
Proof.
  apply (proj2 (proj1 written_rows_are_the_histogram sample_server
                  sample_now sample_args sample_window
                  (mkcsv "data/questions_by_date.csv"
                     ["date"; "tag"; "questions_count"]%string
                     [mkrow "2024-03-01" "java" 1;
                      mkrow "2024-03-01" "python" 1;
                      mkrow "2024-03-02" "python" 1])
                  (FetchData.stdout sample_final_state
                   ++ ["Saved: data/questions_by_date.csv | rows=3"%string])
                  eq_refl eq_refl)
           "2024-03-01"%string "python"%string 1).
Defined.

Lemma key_leb_antisym a b :
  key_leb a b = true -> key_leb b a = true -> a = b.
Proof.
  rewrite !key_leb_iff. intros [H1|[E1 L1]] [H2|[E2 L2]].
  - apply (proj2 (str_compare_gt_lt _ _)) in H2. congruence.
  - rewrite E2, str_compare_refl in H1. discriminate.
  - rewrite E1, str_compare_refl in H2. discriminate.
  - destruct a, b; simpl in *. f_equal; [exact E1|].
    now apply String.leb_antisym.
Qed.

(** Two sorted lists of rows with the same rows and distinct keys are the
    same list. *)
Lemma sorted_rows_unique l1 : forall l2,
  StronglySorted row_key_le l1 -> StronglySorted row_key_le l2 ->
  Permutation l1 l2 -> NoDup (map sort_key l1) -> l1 = l2.
Proof.
  induction l1 as [|x l1 IH]; intros l2 S1 S2 P N.
  - apply Permutation_nil in P. now subst.
  - destruct l2 as [|y l2].
    { apply Permutation_sym, Permutation_nil in P. discriminate. }
    inversion S1 as [|? ? S1' F1]; subst.
    inversion S2 as [|? ? S2' F2]; subst.
    inversion N as [|? ? Nx N']; subst.
    rewrite Forall_forall in F1, F2.
    assert (E : x = y).
    { assert (Hx : In x (y :: l2))
        by (apply (Permutation_in _ P); now left).
      assert (Hy : In y (x :: l1))
        by (apply (Permutation_in _ (Permutation_sym P)); now left).
      destruct Hx as [->|Hx]; [reflexivity|].
      destruct Hy as [->|Hy]; [reflexivity|].
      exfalso. apply Nx.
      rewrite (key_leb_antisym _ _ (F1 _ Hy) (F2 _ Hx)).
      now apply in_map. }
    subst y. f_equal. apply IH; auto.
    now apply Permutation_cons_inv in P.
Qed.

(** X12. The written rows do not depend on the order in which the keys
    entered the count table: two tables with distinct keys and the same
    entries give the same rows in the same order. *)
Theorem written_rows_ignore_insertion_order (t1 t2 : count_table) :
  NoDup (map fst t1) ->
  Permutation t1 t2 ->
  sort_rows (rows_of t1) = sort_rows (rows_of t2).
Proof.
  intros N P. apply sorted_rows_unique.
  - apply sort_rows_sorted.
  - apply sort_rows_sorted.
  - rewrite !sort_rows_perm. unfold rows_of. now apply Permutation_map.
  - apply (Permutation_NoDup
             (Permutation_map sort_key
                (Permutation_sym (sort_rows_perm (rows_of t1))))).
    now rewrite rows_keys.
Qed.

Lemma written_rows_ignore_insertion_order_witness :
  sort_rows
    (rows_of [(("2024-03-02", "go"), 3); (("2024-03-01", "go"), 5)]%string)
  = sort_rows
      (rows_of [(("2024-03-01", "go"), 5); (("2024-03-02", "go"), 3)]%string).
Proof.
  apply written_rows_ignore_insertion_order.
  - repeat constructor; simpl; intuition discriminate.
  - apply perm_swap.
Defined.

(** ** The report of a tag *)

Lemma count_all_app tag qs1 : forall qs2 t t1,
  FetchData.count_all tag t qs1 = (t1, None) ->
  FetchData.count_all tag t (qs1 ++ qs2) = FetchData.count_all tag t1 qs2.
Proof.
  induction qs1 as [|q qs1 IH]; simpl; intros qs2 t t1 H.
  - now injection H as <-.
  - destruct (FetchData.count_question tag t q) as [t'|]; [|discriminate].
    now apply IH.
Qed.

Lemma count_all_prefix tag qs1 : forall qs2 t t2,
  FetchData.count_all tag t (qs1 ++ qs2) = (t2, None) ->
  exists t1, FetchData.count_all tag t qs1 = (t1, None).
Proof.
  induction qs1 as [|q qs1 IH]; simpl; intros qs2 t t2 H; [eauto|].
  destruct (FetchData.count_question tag t q) as [t'|]; [|discriminate].
  eapply IH; eauto.
Qed.

(** X13. In [fetch_data.py] a tag whose stream ends without an error is
    reported by two lines, the line of the tag and a line [Done]: with no
    item the line says [fetched=0]; otherwise it gives the number of items
    yielded and the creation time of the last of them. *)
Theorem finished_tag_is_reported api a w tag st :
  let s := FetchData.questions api a w tag (FetchData.served st) in
  stop s = Exhausted \/ stop s = PageCap ->
  forallb well_formed (yielded s) = true ->
  exists st' line,
    FetchData.run_tag api a w tag st = Ok st'
    /\ FetchData.stdout st'
       = (FetchData.stdout st ++ [FetchData.tag_line w tag; line])%list
    /\ (yielded s = [] ->
        line = ("Done: tag=" ++ tag ++ " | fetched=0")%string)
    /\ (forall qs q ts c,
           yielded s = (qs ++ [q])%list ->
           creation_date q = Some ts -> fromtimestamp ts = Ok c ->
           line = ("Done: tag=" ++ tag ++ " | fetched="
                   ++ str_of_Z (Z.of_nat (List.length (yielded s)))
                   ++ " | last_created_utc=" ++ datetime_isoformat c)%string).
Proof.
  intros s Hstop Hwf.
  destruct (count_all_wf tag (yielded s)
              (FetchData.mktally (FetchData.table st) None 0) Hwf)
    as [t Hc].
  exists (FetchData.mkstate (FetchData.counts t)
            ((FetchData.stdout st ++ [FetchData.tag_line w tag])
             ++ [FetchData.done_line tag t]) (requests s)).
  exists (FetchData.done_line tag t).
  split; [|split; [|split]].
  - unfold FetchData.run_tag. fold s. rewrite Hc.
    destruct Hstop as [-> | ->]; reflexivity.
  - simpl. rewrite <- app_assoc. reflexivity.
  - intros E. rewrite E in Hc. simpl in Hc. injection Hc as <-.
    reflexivity.
  - intros qs q ts c E Hq Hts.
    pose proof Hc as Hc'. apply count_all_done in Hc'.
    destruct Hc' as (_ & Hf & _). simpl in Hf.
    rewrite E in Hc.
    destruct (count_all_prefix _ _ _ _ _ Hc) as [t1 H1].
    rewrite (count_all_app _ _ _ _ _ H1) in Hc. simpl in Hc.
    unfold FetchData.count_question in Hc. rewrite Hq, Hts in Hc.
    simpl in Hc. injection Hc as <-.
    apply count_all_done in H1. destruct H1 as (_ & Hf1 & _).
    cbn [FetchData.fetched] in Hf1.
    unfold FetchData.done_line.
    cbn [FetchData.last_created FetchData.fetched].
    rewrite Hf1, E, length_app. cbn [List.length].
    replace (0 + Z.of_nat (List.length qs) + 1)
      with (Z.of_nat (List.length qs + 1)) by lia.
    reflexivity.
Qed.

Lemma finished_tag_is_reported_witness :
  exists st' line,
    FetchData.run_tag paged_server sample_args sample_window "python"
      (FetchData.mkstate [] [] 0) = Ok st'
    /\ FetchData.stdout st'
       = ["TAG=python | period_utc: 2024-02-15 .. 2024-06-15 (inclusive)";
          line]%string
    /\ line
       = ("Done: tag=python | fetched=3 | last_created_utc="
          ++ "2024-03-03T00:00:00+00:00")%string.
Proof.
  destruct (finished_tag_is_reported paged_server sample_args sample_window
              "python"%string (FetchData.mkstate [] [] 0)
              (or_introl eq_refl) eq_refl)
    as (st' & line & Hrun & Hout & _ & Hlast).
  exists st', line. split; [exact Hrun|]. split; [exact Hout|].
  apply (Hlast [mkitem (Some 1709251200); mkitem (Some 1709337600)]
           (mkitem (Some 1709424000)) 1709424000
           (mkdatetime (mkdate 2024 3 3) 0 0 0 0)); reflexivity.
Defined.

(** ** The two fetchers side by side *)

Lemma fetch_from_agree api tag fromdate todate pagesize max_pages :
  well_behaved api ->
  forall fuel page n,
    FetchData.fetch_from api tag fromdate todate pagesize max_pages
      fuel page n
    = StartingFetchData.fetch_from api tag fromdate todate pagesize
        max_pages fuel page n.
Proof.
  intros W. induction fuel as [|fuel IH]; intros page n;
    cbn [FetchData.fetch_from StartingFetchData.fetch_from].
  - reflexivity.
  - destruct (page <=? max_pages); [|reflexivity].
    change (StartingFetchData.params tag fromdate todate pagesize page)
      with (FetchData.params tag fromdate todate pagesize page).
    destruct (api n _) as [r|] eqn:E; [|reflexivity].
    destruct (W _ _ _ E) as [Hs Hp]. rewrite Hs. cbn [negb Z.eqb Pos.eqb].
    destruct (json r) as [p|]; [|reflexivity].
    destruct (Hp p eq_refl) as [Hq Hb].
    assert (Q : match quota_remaining p with
                | Some q => q =? 0
                | None => false
                end = false).
    { destruct (quota_remaining p) as [q|]; [|reflexivity].
      apply Z.eqb_neq. congruence. }
    rewrite Q, IH. unfold starting_pause_of in Hb.
    destruct (backoff p) as [b|]; [|reflexivity].
    replace (b <? 0) with false by (symmetry; apply Z.ltb_ge; lia).
    destruct (0 <? b) eqn:B; [reflexivity|].
    apply Z.ltb_ge in B. replace b with 0 by lia. reflexivity.
Qed.

(** X14. The fetchers of the two scripts differ on the error paths only:
    against a server whose responses all have status 200, report no
    exhausted quota and carry no negative [backoff], they produce the same
    stream, with the same items, the same end, the same requests and the
    same pauses. *)
Theorem fetchers_agree_without_errors
  api tag fromdate todate pagesize max_pages n :
  well_behaved api ->
  FetchData.fetch_questions api tag fromdate todate pagesize max_pages n
  = StartingFetchData.fetch_questions api tag fromdate todate pagesize
      max_pages n.
Proof.
  intros W. unfold FetchData.fetch_questions,
    StartingFetchData.fetch_questions.
  now apply fetch_from_agree.
Qed.

Lemma fetchers_agree_without_errors_witness :
  FetchData.fetch_questions paged_server "python" 0 1 100 50 0
  = StartingFetchData.fetch_questions paged_server "python" 0 1 100 50 0.
Proof.
  apply fetchers_agree_without_errors.
  intros [|[|n]] req r H; simpl in H; try discriminate;
    injection H as <-; (split; [reflexivity|]);
    intros p [= <-]; (split; [discriminate|]);
    unfold starting_pause_of; simpl; lia.
Defined.

(** ** The requests of a run *)

Lemma run_tags_served api a w ts : forall st st',
  FetchData.run_tags api a w ts st = Ok st' ->
  (FetchData.served st <= FetchData.served st'
   <= FetchData.served st
      + List.length ts * Z.to_nat (FetchData.max_pages a))%nat.
Proof.
  induction ts as [|tag ts IH]; simpl; intros st st' H.
  - injection H as <-. lia.
  - destruct (FetchData.run_tag api a w tag st) as [st1|] eqn:E;
      [|discriminate].
    simpl in H. apply IH in H.
    apply run_tag_ok in E. destruct E as (_ & _ & _ & Es).
    pose proof (fetch_from_bounds api tag (FetchData.w_fromdate w)
                  (FetchData.w_todate w) 100 (FetchData.max_pages a)
                  (Z.to_nat (FetchData.max_pages a)) 1
                  (FetchData.served st)) as B.
    cbv zeta in B. destruct B as (B & _).
    unfold FetchData.questions, FetchData.fetch_questions in Es.
    rewrite <- Es in B. lia.
Qed.

Lemma starting_run_tags_served api a w ts : forall st st',
  StartingFetchData.run_tags api a w ts st = Ok st' ->
  (StartingFetchData.served st <= StartingFetchData.served st'
   <= StartingFetchData.served st
      + List.length ts * Z.to_nat (StartingFetchData.max_pages a))%nat.
Proof.
  induction ts as [|tag ts IH]; simpl; intros st st' H.
  - injection H as <-. lia.
  - destruct (StartingFetchData.run_tag api a w tag st) as [st1|] eqn:E;
      [|discriminate].
    simpl in H. apply IH in H.
    apply starting_run_tag_ok in E. destruct E as (_ & Es).
    pose proof (starting_fetch_from_bounds api tag
                  (StartingFetchData.w_fromdate w)
                  (StartingFetchData.w_todate w) 100
                  (StartingFetchData.max_pages a)
                  (Z.to_nat (StartingFetchData.max_pages a)) 1
                  (StartingFetchData.served st)) as B.
    cbv zeta in B. destruct B as (B & _).
    unfold StartingFetchData.questions,
      StartingFetchData.fetch_questions in Es.
    rewrite <- Es in B. lia.
Qed.

(** X15. A run that reaches the writing of its table has sent at most
    [max_pages] requests for each tag given, in either script. *)
Theorem run_sends_bounded_requests :
  (forall api a w st,
      FetchData.run_tags api a w (FetchData.tags a)
        (FetchData.mkstate [] [] 0) = Ok st ->
      (FetchData.served st
       <= List.length (FetchData.tags a)
          * Z.to_nat (FetchData.max_pages a))%nat)
  /\ (forall api a w st,
         StartingFetchData.run_tags api a w (StartingFetchData.tags a)
           (StartingFetchData.mkstate [] [] 0) = Ok st ->
         (StartingFetchData.served st
          <= List.length (StartingFetchData.tags a)
             * Z.to_nat (StartingFetchData.max_pages a))%nat).
Proof.
  split.
  - intros api a w st H. apply run_tags_served in H. simpl in H. lia.
  - intros api a w st H. apply starting_run_tags_served in H.
    simpl in H. lia.
Qed.

Lemma run_sends_bounded_requests_witness :
  (FetchData.served sample_final_state
   <= List.length (FetchData.tags sample_args)
      * Z.to_nat (FetchData.max_pages sample_args))%nat.
Proof.
  apply (proj1 run_sends_bounded_requests sample_server sample_args
           sample_window sample_final_state).
  reflexivity.
Defined.
